(** * Checkout and fulfilment core of the storefront server

    A shallow embedding of the cart model, the order model and the cart,
    order and admin controllers of [Server/src], followed by the properties
    the specification states about them and by further properties of the
    same code: the remaining cart and order requests, the pagination
    helpers, the life of a stored order, the stock, and the catalogue.

    Modelling conventions.
    - In the models of the cart, the orders and the catalogue a JavaScript
      [Number] is an exact rational ([Qc]): they give what the code computes
      up to the rounding of IEEE-754 doubles, and the properties stated
      over them are those that this rounding cannot decide.  Where it does
      decide, module [Double] evaluates the same expressions in binary64.
      Quantities and stock counts are [Z].
    - A Mongoose [ObjectId] is identified with its canonical text form, so
      [a.toString() === b.toString()] is equality of identifiers.  The
      models of the cart and of the controllers take the values of a
      request as the schema types they are cast to; module [RawCart] gives
      [addItem] on the values as they arrive.
    - A collection is a finite map ([gmap]) from the unique key it is
      queried by to its documents; a document array is a list.
    - Requests are handled one at a time: a controller is a function from
      the database to a response and a database.
    - Of the schema validators, the one that decides whether an order can
      be saved at all is modelled: [orderNumber] is [required].  For the
      others ([min], [enum], the remaining [required] paths) a document is
      taken to pass, and an enum field is given an inductive type. *)

From stdpp Require Import base numbers list strings gmap.
From Stdlib Require Import Ascii QArith Qcanon Qround Lqa.
From Stdlib Require DecimalString SpecFloat.

Open Scope Qc_scope.

(** ** JavaScript primitives *)

Module JS.

Abbreviation Number := Qc.

(** An integer literal or integer-valued field used as a [Number]. *)
Definition of_int (z : Z) : Number := Q2Qc (inject_Z z).

(** [Math.round]: the nearest integer, halves going up. *)
Definition Math_round (x : Number) : Z := Qfloor (x + Q2Qc (1 # 2)).

(** [a || b] on numbers: [0] is the falsy number. *)
Definition or_else (a b : Z) : Z := if bool_decide (a = 0%Z) then b else a.


(** [String.prototype.toUpperCase] on ASCII text.  On other text the
    method follows the Unicode case mappings, which are not modelled: what
    is stated of [toUpperCase] below is stated of ASCII text, or of text
    whose image is ASCII. *)
Definition upper_char (c : ascii) : ascii :=
  let n := nat_of_ascii c in
  if bool_decide (97 ≤ n ≤ 122)%nat then ascii_of_nat (n - 32) else c.

Fixpoint toUpperCase (s : string) : string :=
  match s with
  | EmptyString => EmptyString
  | String c s' => String (upper_char c) (toUpperCase s')
  end.

(** [String(n)] for a natural number: its decimal numeral. *)
Definition String_of_nat (n : nat) : string :=
  DecimalString.NilEmpty.string_of_uint (Nat.to_uint n).

Fixpoint repeat_char (c : ascii) (k : nat) (s : string) : string :=
  match k with
  | O => s
  | S k' => String c (repeat_char c k' s)
  end.

(** [s.padStart(targetLength, c)] with a one-character filler. *)
Definition padStart (targetLength : nat) (c : ascii) (s : string) : string :=
  repeat_char c (targetLength - String.length s) s.

(** The fields of a [Date] that the code reads. *)
Record Date := {
  getFullYear : nat;
  getMonth : nat;
  getDate : nat
}.

(** Truthiness of an optional string: [undefined] and [''] are falsy. *)
Definition truthy (o : option string) : bool :=
  match o with
  | Some s => negb (bool_decide (s = EmptyString))
  | None => false
  end.

End JS.

Definition ObjectId := string.

(** ** Cart model ([models/Cart.model.js]) *)

Module Cart.
Import JS.

(** The variant selector stored in a cart line. *)
Record Selector := {
  size : string;
  color : string;
  sku : option string
}.

(** [cartItemSchema]; [_id] is the sub-document id Mongoose assigns, and
    [addedAt], which no method reads, is left out. *)
Record Item := {
  _id : ObjectId;
  product : ObjectId;
  variant : Selector;
  quantity : Z;
  price : Number
}.

(** [cartSchema]. *)
Record t := {
  user : ObjectId;
  items : list Item;
  subtotal : Number;
  discount : Number;
  couponCode : option string;
  shipping : Number;
  tax : Number;
  total : Number
}.

Definition set_quantity (q : Z) (i : Item) : Item :=
  {| _id := _id i; product := product i; variant := variant i;
     quantity := q; price := price i |}.

Definition set_items (l : list Item) (c : t) : t :=
  {| user := user c; items := l; subtotal := subtotal c;
     discount := discount c; couponCode := couponCode c;
     shipping := shipping c; tax := tax c; total := total c |}.

Definition set_coupon (code : option string) (d : Number) (c : t) : t :=
  {| user := user c; items := items c; subtotal := subtotal c;
     discount := d; couponCode := code;
     shipping := shipping c; tax := tax c; total := total c |}.

(** [Cart.create({ user, items: [] })]: every total takes its default. *)
Definition create (u : ObjectId) : t :=
  {| user := u; items := []; subtotal := 0; discount := 0;
     couponCode := None; shipping := 0; tax := 0; total := 0 |}.

Definition taxRate : Number := Q2Qc (18 # 100).

(** [cartSchema.methods.calculateTotals]. *)
Definition calculateTotals (c : t) : t :=
  let subtotal' :=
    fold_left (fun sum item => sum + price item * of_int (quantity item))
              (items c) 0 in
  let tax' := of_int (Math_round (subtotal' * taxRate * of_int 100)) / of_int 100 in
  let shipping' := if bool_decide (of_int 999 ≤ subtotal') then 0 else of_int 99 in
  let total' := subtotal' + tax' + shipping' - discount c in
  {| user := user c; items := items c; subtotal := subtotal';
     discount := discount c; couponCode := couponCode c;
     shipping := shipping'; tax := tax'; total := total' |}.

(** The [findIndex] predicate of [addItem]. *)
Definition same_line (item i : Item) : Prop :=
  product i = product item ∧
  size (variant i) = size (variant item) ∧
  color (variant i) = color (variant item).

#[global] Instance same_line_dec item i : Decision (same_line item i).
Proof. unfold same_line. apply _. Defined.

(** [cartSchema.methods.addItem]: [list_find] is [findIndex], with [None]
    for [-1]. *)
Definition addItem (item : Item) (c : t) : t :=
  let items' :=
    match list_find (same_line item) (items c) with
    | Some (existingItemIndex, _) =>
        alter (fun i => set_quantity (quantity i + or_else (quantity item) 1) i)
              existingItemIndex (items c)
    | None => items c ++ [item]
    end in
  calculateTotals (set_items items' c).

(** [items.id(itemId)] and [items.pull(itemId)] of a document array. *)
Definition has_id (itemId : ObjectId) (i : Item) : Prop := _id i = itemId.

#[global] Instance has_id_dec itemId i : Decision (has_id itemId i).
Proof. unfold has_id. apply _. Defined.

Definition pull (itemId : ObjectId) (l : list Item) : list Item :=
  filter (fun i => ¬ has_id itemId i) l.

(** [cartSchema.methods.updateItemQuantity]. *)
Definition updateItemQuantity (itemId : ObjectId) (q : Z) (c : t) : t :=
  let items' :=
    match list_find (has_id itemId) (items c) with
    | Some (idx, _) =>
        if bool_decide (q ≤ 0)%Z then pull itemId (items c)
        else alter (set_quantity q) idx (items c)
    | None => items c
    end in
  calculateTotals (set_items items' c).

(** [cartSchema.methods.removeItem]. *)
Definition removeItem (itemId : ObjectId) (c : t) : t :=
  calculateTotals (set_items (pull itemId (items c)) c).

(** [cartSchema.methods.clearCart]. *)
Definition clearCart (c : t) : t :=
  calculateTotals (set_coupon None 0 (set_items [] c)).

End Cart.


(** ** Product model ([models/Product.model.js]) and the stock update *)

Module Mongo.

(** The stock updates of checkout and cancellation filter on
    [{ _id, 'variants.size': s, 'variants.color': c }] and increment
    ['variants.$.stock'].  MongoDB tests conditions on the fields of array
    elements independently of each other unless they are grouped under
    [$elemMatch]: the document matches when some variant has the size and
    some variant has the color.  The positional [$] then stands for the
    index recorded while one of the two conditions was matched, that of the
    first variant satisfying that condition.  Which condition records it
    depends on the order in which the server evaluates them, so the choice
    is a parameter of the model. *)
Inductive Positional := FirstSizeMatch | FirstColorMatch.

(** What the database layer decides and the source does not: the positional
    rule above, and whether [isModified('status')] holds for a new document
    whose status came from the schema default. *)
Record Driver := {
  positional : Positional;
  default_is_modified : bool
}.

End Mongo.

Module Product.

(** [variantSchema], the fields read or written by checkout and
    cancellation. *)
Record Variant := {
  size : string;
  color : string;
  sku : string;
  stock : Z
}.

(** [productSchema], likewise; [images] holds the url of each image. *)
Record t := {
  _id : ObjectId;
  name : string;
  images : list string;
  variants : list Variant;
  totalStock : Z
}.

Definition inc_stock (d : Z) (v : Variant) : Variant :=
  {| size := size v; color := color v; sku := sku v;
     stock := (stock v + d)%Z |}.

(** [Product.updateOne({ _id: id, 'variants.size': s, 'variants.color': c },
    { $inc: { 'variants.$.stock': d, totalStock: d } })]. *)
Definition updateOne_inc (pos : Mongo.Positional) (id : ObjectId)
    (s c : string) (d : Z) (products : gmap ObjectId t) : gmap ObjectId t :=
  match products !! id with
  | None => products
  | Some p =>
      match list_find (fun v => size v = s) (variants p),
            list_find (fun v => color v = c) (variants p) with
      | Some (i, _), Some (j, _) =>
          let k := match pos with
                   | Mongo.FirstSizeMatch => i
                   | Mongo.FirstColorMatch => j
                   end in
          <[id := {| _id := _id p; name := name p; images := images p;
                     variants := alter (inc_stock d) k (variants p);
                     totalStock := (totalStock p + d)%Z |}]> products
      | _, _ => products
      end
  end.

(** [product.variants.find(v => v.size === s && v.color === c)]. *)
Definition find_variant (s c : string) (p : t) : option Variant :=
  snd <$> list_find (fun v => size v = s ∧ color v = c) (variants p).

End Product.

(** ** Order model ([models/Order.model.js]) *)

Module Payment.

Inductive Method := cod | card | upi | netbanking | wallet.
Inductive Status := pending | processing | completed | failed | refunded.

Record t := {
  method : Method;
  status : Status;
  transactionId : option string;
  paidAt : option JS.Date
}.

End Payment.

Module Order.
Import JS.

Inductive Status :=
  | pending | confirmed | processing | shipped | out_for_delivery
  | delivered | cancelled | returned | refunded.

#[global] Instance Status_eq_dec : EqDecision Status.
Proof. solve_decision. Defined.

(** [orderItemSchema]: a value copy of a cart line and its product. *)
Record Item := {
  product : ObjectId;
  name : string;
  image : string;
  variant : Cart.Selector;
  quantity : Z;
  price : Number;
  total : Number
}.

(** [shippingAddressSchema]. *)
Record Address := {
  addr_name : string;
  phone : string;
  email : option string;
  street : string;
  city : string;
  state : string;
  zipCode : string;
  country : string
}.

(** The [pricing] block; its [shipping] and [total] are named
    [shipping_fee] and [grand_total] here, [shipping] and [total] being
    fields of the order and of its items. *)
Record Pricing := {
  subtotal : Number;
  discount : Number;
  couponCode : option string;
  shipping_fee : Number;
  tax : Number;
  grand_total : Number
}.

Record HistoryEntry := {
  entry_status : Status;
  date : Date;
  note : option string
}.

Record Shipping := {
  carrier : option string;
  trackingNumber : option string;
  shippedAt : option Date;
  deliveredAt : option Date
}.

Record Cancellation := {
  reason : option string;
  cancelledAt : Date;
  cancelledBy : ObjectId
}.

(** [orderSchema], without the fields no modelled function touches
    ([shipping.estimatedDelivery], [notes.internal], the timestamps);
    [customer_note] is [notes.customer].  [status_modified] is Mongoose's
    change tracking for the path [status], what [this.isModified('status')]
    returns. *)
Record t := {
  _id : ObjectId;
  orderNumber : option string;
  user : ObjectId;
  items : list Item;
  shippingAddress : Address;
  billingAddress : Address;
  payment : Payment.t;
  pricing : Pricing;
  status : Status;
  statusHistory : list HistoryEntry;
  shipping : Shipping;
  customer_note : option string;
  cancellation : option Cancellation;
  status_modified : bool
}.

Definition set_orderNumber (n : option string) (o : t) : t :=
  {| _id := _id o; orderNumber := n; user := user o; items := items o;
     shippingAddress := shippingAddress o; billingAddress := billingAddress o;
     payment := payment o; pricing := pricing o; status := status o;
     statusHistory := statusHistory o; shipping := shipping o;
     customer_note := customer_note o; cancellation := cancellation o;
     status_modified := status_modified o |}.

Definition set_statusHistory (h : list HistoryEntry) (o : t) : t :=
  {| _id := _id o; orderNumber := orderNumber o; user := user o; items := items o;
     shippingAddress := shippingAddress o; billingAddress := billingAddress o;
     payment := payment o; pricing := pricing o; status := status o;
     statusHistory := h; shipping := shipping o;
     customer_note := customer_note o; cancellation := cancellation o;
     status_modified := status_modified o |}.

Definition set_shipping (sh : Shipping) (o : t) : t :=
  {| _id := _id o; orderNumber := orderNumber o; user := user o; items := items o;
     shippingAddress := shippingAddress o; billingAddress := billingAddress o;
     payment := payment o; pricing := pricing o; status := status o;
     statusHistory := statusHistory o; shipping := sh;
     customer_note := customer_note o; cancellation := cancellation o;
     status_modified := status_modified o |}.

Definition set_cancellation (c : option Cancellation) (o : t) : t :=
  {| _id := _id o; orderNumber := orderNumber o; user := user o; items := items o;
     shippingAddress := shippingAddress o; billingAddress := billingAddress o;
     payment := payment o; pricing := pricing o; status := status o;
     statusHistory := statusHistory o; shipping := shipping o;
     customer_note := customer_note o; cancellation := c;
     status_modified := status_modified o |}.

Definition set_payment (pay : Payment.t) (o : t) : t :=
  {| _id := _id o; orderNumber := orderNumber o; user := user o; items := items o;
     shippingAddress := shippingAddress o; billingAddress := billingAddress o;
     payment := pay; pricing := pricing o; status := status o;
     statusHistory := statusHistory o; shipping := shipping o;
     customer_note := customer_note o; cancellation := cancellation o;
     status_modified := status_modified o |}.

Definition set_tracking (m : bool) (o : t) : t :=
  {| _id := _id o; orderNumber := orderNumber o; user := user o; items := items o;
     shippingAddress := shippingAddress o; billingAddress := billingAddress o;
     payment := payment o; pricing := pricing o; status := status o;
     statusHistory := statusHistory o; shipping := shipping o;
     customer_note := customer_note o; cancellation := cancellation o;
     status_modified := m |}.

(** The assignment [this.status = s]: Mongoose marks the path modified when
    the value assigned differs from the current one. *)
Definition assign_status (s : Status) (o : t) : t :=
  {| _id := _id o; orderNumber := orderNumber o; user := user o; items := items o;
     shippingAddress := shippingAddress o; billingAddress := billingAddress o;
     payment := payment o; pricing := pricing o; status := s;
     statusHistory := statusHistory o; shipping := shipping o;
     customer_note := customer_note o; cancellation := cancellation o;
     status_modified := status_modified o || bool_decide (s ≠ status o) |}.

Definition push_history (e : HistoryEntry) (o : t) : t :=
  set_statusHistory (statusHistory o ++ [e]) o.

(** The virtual [canCancel]. *)
Definition canCancel (o : t) : bool :=
  bool_decide (status o ∈ [pending; confirmed; processing]).

(** The date part of an order number. *)
Definition dateStr (d : Date) : string :=
  String_of_nat (getFullYear d)
  +:+ padStart 2 "0" (String_of_nat (getMonth d + 1))
  +:+ padStart 2 "0" (String_of_nat (getDate d)).

Definition make_orderNumber (count : nat) (d : Date) : string :=
  "ORD-" +:+ dateStr d +:+ "-" +:+ padStart 6 "0" (String_of_nat (count + 1)).

(** [orderSchema.pre('save')]; [count] is the result of
    [this.constructor.countDocuments()]. *)
Definition preSave (count : nat) (now : Date) (o : t) : t :=
  let o1 :=
    if negb (truthy (orderNumber o))
    then set_orderNumber (Some (make_orderNumber count now)) o
    else o in
  if status_modified o1
  then push_history {| entry_status := status o1; date := now; note := None |} o1
  else o1.

(** [orderSchema.methods.updateStatus]. *)
Definition updateStatus (now : Date) (newStatus : Status) (note : option string)
    (o : t) : t :=
  let o1 := assign_status newStatus o in
  let o2 := push_history {| entry_status := newStatus; date := now; note := note |} o1 in
  match newStatus with
  | shipped =>
      set_shipping {| carrier := carrier (shipping o2);
                      trackingNumber := trackingNumber (shipping o2);
                      shippedAt := Some now;
                      deliveredAt := deliveredAt (shipping o2) |} o2
  | delivered =>
      set_shipping {| carrier := carrier (shipping o2);
                      trackingNumber := trackingNumber (shipping o2);
                      shippedAt := shippedAt (shipping o2);
                      deliveredAt := Some now |} o2
  | _ => o2
  end.

(** [orderSchema.methods.cancel]; [None] is the thrown [Error]. *)
Definition cancel (now : Date) (reason : option string) (cancelledBy : ObjectId)
    (o : t) : option t :=
  if negb (canCancel o) then None
  else Some (set_cancellation
               (Some {| reason := reason; cancelledAt := now;
                        cancelledBy := cancelledBy |})
               (assign_status cancelled o)).

(** The unique index on [orderNumber]: a write of [o] is refused when
    another document holds the same value. *)
Definition number_free (o : t) (orders : gmap ObjectId t) : Prop :=
  map_Forall (fun id o' => id = _id o ∨ orderNumber o' ≠ orderNumber o) orders.

#[global] Instance number_free_dec o orders : Decision (number_free o orders).
Proof. unfold number_free. apply _. Defined.

(** The schema validation, as far as it can fail on the documents of this
    model: [orderNumber] is [required], and for a [String] path an absent
    and an empty value both fail. *)
Definition validate (o : t) : bool := truthy (orderNumber o).

(** [doc.save()]: Mongoose validates the document first; only then do the
    pre-save hooks run, the document is written under its [_id], and change
    tracking is reset.  [None] is a rejected save: a [ValidationError], or
    a write the unique index refuses. *)
Definition save (now : Date) (o : t) (orders : gmap ObjectId t)
    : option (t * gmap ObjectId t) :=
  if negb (validate o) then None
  else
    let o' := set_tracking false (preSave (size orders) now o) in
    if decide (number_free o' orders)
    then Some (o', <[_id o' := o']> orders)
    else None.

(** The document [Order.create] builds from the fields [createOrder] passes,
    with the schema defaults for the rest; [createOrder] passes no
    [orderNumber]. *)
Definition new_document (drv : Mongo.Driver) (id u : ObjectId) (its : list Item)
    (ship bill : Address) (pay : Payment.t) (pr : Pricing)
    (customer : option string) : t :=
  {| _id := id; orderNumber := None; user := u; items := its;
     shippingAddress := ship; billingAddress := bill;
     payment := pay; pricing := pr; status := pending;
     statusHistory := [];
     shipping := {| carrier := None; trackingNumber := None;
                    shippedAt := None; deliveredAt := None |};
     customer_note := customer; cancellation := None;
     status_modified := Mongo.default_is_modified drv |}.

(** [Order.create(doc)]: save a new document; an [_id] already present is a
    duplicate key. *)
Definition create (now : Date) (doc : t) (orders : gmap ObjectId t)
    : option (t * gmap ObjectId t) :=
  match orders !! _id doc with
  | Some _ => None
  | None => save now doc orders
  end.

End Order.

(** ** Responses and the database *)

Module Http.

(** What a handler answers: [res.status(statusCode).json({ success,
    message, data })], or a thrown exception forwarded with [next(error)]. *)
Inductive Response (A : Type) :=
  | json (statusCode : Z) (success : bool) (message : string) (data : option A)
  | next_error.

Arguments json {A}.
Arguments next_error {A}.

(** The helpers [sendSuccess], [sendCreated], [sendError], [sendNotFound]. *)
Definition sendSuccess {A} (statusCode : Z) (message : string) (data : A)
    : Response A :=
  json statusCode true message (Some data).

Definition sendCreated {A} (message : string) (data : A) : Response A :=
  sendSuccess 201 message data.

Definition sendError {A} (statusCode : Z) (message : string) : Response A :=
  json statusCode false message None.

Definition sendNotFound {A} (resource : string) : Response A :=
  sendError 404 (resource +:+ " not found").

(** The error conditions as the specification names them. *)
Definition EmptyCart {A} : Response A := sendError 400 "Your cart is empty".
Definition OrderNotCancellable {A} : Response A :=
  sendError 400 "This order cannot be cancelled".
Definition InsufficientStock {A} (name size color : string) : Response A :=
  sendError 400
    ("Insufficient stock for " +:+ name +:+ " (" +:+ size +:+ "/" +:+ color +:+ ")").

Definition is_failure {A} (r : Response A) : bool :=
  match r with
  | json _ success _ _ => negb success
  | next_error => true
  end.

End Http.

Module Db.

(** The three collections: products by [_id], carts by their unique [user],
    orders by [_id]. *)
Record t := {
  products : gmap ObjectId Product.t;
  carts : gmap ObjectId Cart.t;
  orders : gmap ObjectId Order.t
}.

Definition set_carts (cs : gmap ObjectId Cart.t) (db : t) : t :=
  {| products := products db; carts := cs; orders := orders db |}.

(** [cart.save()] for the cart found under [{ user: u }]. *)
Definition save_cart (u : ObjectId) (c : Cart.t) (db : t) : t :=
  set_carts (<[u := c]> (carts db)) db.

End Db.

(** ** Cart controller ([controllers/cart.controller.js]) *)

Module CartController.
Import JS Http.

(** The object literal [validCoupons]. *)
Definition validCoupons : gmap string Z :=
  {[ "FIRST10" := 10%Z; "SAVE20" := 20%Z; "DESIGNER15" := 15%Z ]}.

(** [applyCoupon]; [!discount] holds for a missing key and for [0]. *)
Definition applyCoupon (u : ObjectId) (couponCode : string) (db : Db.t)
    : Response Cart.t * Db.t :=
  match Db.carts db !! u with
  | None => (sendNotFound "Cart", db)
  | Some cart =>
      match validCoupons !! toUpperCase couponCode with
      | None => (sendError 400 "Invalid coupon code", db)
      | Some discount =>
          if bool_decide (discount = 0%Z)
          then (sendError 400 "Invalid coupon code", db)
          else
            let cart1 :=
              Cart.set_coupon
                (Some (toUpperCase couponCode))
                (of_int (Math_round (Cart.subtotal cart * of_int discount / of_int 100)))
                cart in
            let cart2 := Cart.calculateTotals cart1 in
            (sendSuccess 200
               ("Coupon applied! " +:+ String_of_nat (Z.to_nat discount) +:+ "% off")
               cart2,
             Db.save_cart u cart2 db)
      end
  end.

(** [removeCoupon]. *)
Definition removeCoupon (u : ObjectId) (db : Db.t) : Response Cart.t * Db.t :=
  match Db.carts db !! u with
  | None => (sendNotFound "Cart", db)
  | Some cart =>
      let cart' := Cart.calculateTotals (Cart.set_coupon None 0 cart) in
      (sendSuccess 200 "Coupon removed" cart', Db.save_cart u cart' db)
  end.

End CartController.

(** ** Order controller ([controllers/order.controller.js]) *)

Module OrderController.
Import JS Http.

(** The request body of [POST /api/orders]. *)
Record CheckoutBody := {
  shippingAddress : Order.Address;
  billingAddress : option Order.Address;
  paymentMethod : Payment.Method;
  notes : option string
}.

(** The order line pushed for a cart line and its populated product. *)
Definition snapshot (product : Product.t) (item : Cart.Item) : Order.Item :=
  {| Order.product := Product._id product;
     Order.name := Product.name product;
     Order.image := default EmptyString (head (Product.images product));
     Order.variant :=
       {| Cart.size := Cart.size (Cart.variant item);
          Cart.color := Cart.color (Cart.variant item);
          Cart.sku := Cart.sku (Cart.variant item) |};
     Order.quantity := Cart.quantity item;
     Order.price := Cart.price item;
     Order.total := Cart.price item * of_int (Cart.quantity item) |}.

(** The validation loop of [createOrder]: [inl] is the early [return], and
    a cart line whose product no longer exists is populated with [null], so
    that reading [product.variants] throws. *)
Fixpoint validate (products : gmap ObjectId Product.t) (items : list Cart.Item)
    (orderItems : list Order.Item) : Response Order.t + list Order.Item :=
  match items with
  | [] => inr orderItems
  | item :: rest =>
      match products !! Cart.product item with
      | None => inl next_error
      | Some product =>
          let sel := Cart.variant item in
          match Product.find_variant (Cart.size sel) (Cart.color sel) product with
          | None =>
              inl (InsufficientStock (Product.name product)
                     (Cart.size sel) (Cart.color sel))
          | Some variant =>
              if bool_decide (Product.stock variant < Cart.quantity item)%Z
              then inl (InsufficientStock (Product.name product)
                          (Cart.size sel) (Cart.color sel))
              else validate products rest (orderItems ++ [snapshot product item])
          end
      end
  end.

(** The loop "Reduce stock for each item"; [item.product._id] is the
    product the line refers to. *)
Definition reduce_stock (pos : Mongo.Positional) (items : list Cart.Item)
    (products : gmap ObjectId Product.t) : gmap ObjectId Product.t :=
  fold_left
    (fun ps item =>
       Product.updateOne_inc pos (Cart.product item)
         (Cart.size (Cart.variant item)) (Cart.color (Cart.variant item))
         (- Cart.quantity item) ps)
    items products.

(** [createOrder]; [newId] is the [_id] the created order receives. *)
Definition createOrder (drv : Mongo.Driver) (now : Date) (newId u : ObjectId)
    (body : CheckoutBody) (db : Db.t) : Response Order.t * Db.t :=
  match Db.carts db !! u with
  | None => (sendError 400 "Your cart is empty", db)
  | Some cart =>
      if bool_decide (length (Cart.items cart) = 0%nat)
      then (sendError 400 "Your cart is empty", db)
      else
        match validate (Db.products db) (Cart.items cart) [] with
        | inl response => (response, db)
        | inr orderItems =>
            let doc :=
              Order.new_document drv newId u orderItems
                (shippingAddress body)
                (default (shippingAddress body) (billingAddress body))
                {| Payment.method := paymentMethod body;
                   Payment.status :=
                     match paymentMethod body with
                     | Payment.cod => Payment.pending
                     | _ => Payment.processing
                     end;
                   Payment.transactionId := None;
                   Payment.paidAt := None |}
                {| Order.subtotal := Cart.subtotal cart;
                   Order.discount := Cart.discount cart;
                   Order.couponCode := Cart.couponCode cart;
                   Order.shipping_fee := Cart.shipping cart;
                   Order.tax := Cart.tax cart;
                   Order.grand_total := Cart.total cart |}
                (notes body) in
            match Order.create now doc (Db.orders db) with
            | None => (next_error, db)
            | Some (order, orders') =>
                let products' :=
                  reduce_stock (Mongo.positional drv) (Cart.items cart)
                    (Db.products db) in
                let cart' := Cart.clearCart cart in
                (sendCreated "Order placed successfully" order,
                 {| Db.products := products';
                    Db.carts := <[u := cart']> (Db.carts db);
                    Db.orders := orders' |})
            end
        end
  end.

(** The loop "Restore stock". *)
Definition restore_stock (pos : Mongo.Positional) (items : list Order.Item)
    (products : gmap ObjectId Product.t) : gmap ObjectId Product.t :=
  fold_left
    (fun ps item =>
       Product.updateOne_inc pos (Order.product item)
         (Cart.size (Order.variant item)) (Cart.color (Order.variant item))
         (Order.quantity item) ps)
    items products.

(** [Order.findOne({ _id: id, user: u })], for an [id] that is an
    [ObjectId].  For a text that is none the query of the code throws a
    [CastError], which is forwarded to the error handler: a failure too,
    but not the "not found" that the controllers make of [None]. *)
Definition findOne (id u : ObjectId) (orders : gmap ObjectId Order.t)
    : option Order.t :=
  match orders !! id with
  | Some o => if bool_decide (Order.user o = u) then Some o else None
  | None => None
  end.

(** [cancelOrder]: the stock is restored before [order.save()], so a
    rejected save leaves the restored stock in place. *)
Definition cancelOrder (drv : Mongo.Driver) (now : Date) (u id : ObjectId)
    (reason : option string) (db : Db.t) : Response Order.t * Db.t :=
  match findOne id u (Db.orders db) with
  | None => (sendNotFound "Order", db)
  | Some order =>
      if negb (Order.canCancel order)
      then (sendError 400 "This order cannot be cancelled", db)
      else
        match Order.cancel now reason u order with
        | None => (next_error, db)
        | Some order1 =>
            let products' :=
              restore_stock (Mongo.positional drv) (Order.items order1)
                (Db.products db) in
            match Order.save now order1 (Db.orders db) with
            | None =>
                (next_error,
                 {| Db.products := products'; Db.carts := Db.carts db;
                    Db.orders := Db.orders db |})
            | Some (order2, orders') =>
                (sendSuccess 200 "Order cancelled successfully" order2,
                 {| Db.products := products'; Db.carts := Db.carts db;
                    Db.orders := orders' |})
            end
        end
  end.

End OrderController.

(** ** Admin order management (the handlers [updateOrderStatus] and
    [updatePaymentStatus]) *)

Module AdminController.
Import JS Http.

Definition set_tracking_details (trackingNumber carrier : option string)
    (o : Order.t) : Order.t :=
  let sh := Order.shipping o in
  Order.set_shipping
    {| Order.carrier := if truthy carrier then carrier else Order.carrier sh;
       Order.trackingNumber :=
         if truthy trackingNumber then trackingNumber else Order.trackingNumber sh;
       Order.shippedAt := Order.shippedAt sh;
       Order.deliveredAt := Order.deliveredAt sh |} o.

(** [updateOrderStatus]. *)
Definition updateOrderStatus (now : Date) (id : ObjectId) (status : Order.Status)
    (note trackingNumber carrier : option string) (db : Db.t)
    : Response Order.t * Db.t :=
  match Db.orders db !! id with
  | None => (sendNotFound "Order", db)
  | Some order =>
      let order1 := Order.updateStatus now status note order in
      let order2 := set_tracking_details trackingNumber carrier order1 in
      match Order.save now order2 (Db.orders db) with
      | None => (next_error, db)
      | Some (order3, orders') =>
          (sendSuccess 200 "Order status updated" order3,
           {| Db.products := Db.products db; Db.carts := Db.carts db;
              Db.orders := orders' |})
      end
  end.

(** [updatePaymentStatus]. *)
Definition updatePaymentStatus (now : Date) (id : ObjectId)
    (status : Payment.Status) (transactionId : option string) (db : Db.t)
    : Response Order.t * Db.t :=
  match Db.orders db !! id with
  | None => (sendNotFound "Order", db)
  | Some order =>
      let pay := Order.payment order in
      let order1 :=
        Order.set_payment
          {| Payment.method := Payment.method pay;
             Payment.status := status;
             Payment.transactionId :=
               if truthy transactionId then transactionId
               else Payment.transactionId pay;
             Payment.paidAt :=
               match status with
               | Payment.completed => Some now
               | _ => Payment.paidAt pay
               end |} order in
      match Order.save now order1 (Db.orders db) with
      | None => (next_error, db)
      | Some (order2, orders') =>
          (sendSuccess 200 "Payment status updated" order2,
           {| Db.products := Db.products db; Db.carts := Db.carts db;
              Db.orders := orders' |})
      end
  end.

End AdminController.

(** ** Sample data, after [scripts/seedDatabase.js] *)

Module Seed.
Import JS.

Definition jeans_id : ObjectId := "650000000000000000000002".
Definition alice : ObjectId := "650000000000000000000a11".
Definition order1_id : ObjectId := "650000000000000000000f01".

(** "Premium Slim Fit Denim Jeans" with the five variants the seed script
    gives it, as [POST /api/admin/products] stores the product: the
    product's pre-save hook has set [totalStock] to the sum of the
    variants' stock.  (The seed script itself inserts with [insertMany],
    which runs no save hook and leaves [totalStock] at its default, 0.) *)
Definition jeans : Product.t :=
  {| Product._id := jeans_id;
     Product.name := "Premium Slim Fit Denim Jeans";
     Product.images := ["/uploads/products/sample-jeans-1.jpg"];
     Product.variants :=
       [ {| Product.size := "S"; Product.color := "Indigo";
            Product.sku := "JNS-S-IND"; Product.stock := 12 |};
         {| Product.size := "M"; Product.color := "Indigo";
            Product.sku := "JNS-M-IND"; Product.stock := 25 |};
         {| Product.size := "L"; Product.color := "Indigo";
            Product.sku := "JNS-L-IND"; Product.stock := 20 |};
         {| Product.size := "M"; Product.color := "Black";
            Product.sku := "JNS-M-BLK"; Product.stock := 15 |};
         {| Product.size := "L"; Product.color := "Black";
            Product.sku := "JNS-L-BLK"; Product.stock := 18 |} ];
     Product.totalStock := 90 |}.

(** A cart line for two pairs of the jeans in L / Black at 4999. *)
Definition line_L_black : Cart.Item :=
  {| Cart._id := "650000000000000000000c01";
     Cart.product := jeans_id;
     Cart.variant := {| Cart.size := "L"; Cart.color := "Black";
                        Cart.sku := Some "JNS-L-BLK" |};
     Cart.quantity := 2;
     Cart.price := of_int 4999 |}.

Definition cart_L_black : Cart.t :=
  Cart.addItem line_L_black (Cart.create alice).

Definition address : Order.Address :=
  {| Order.addr_name := "Alice"; Order.phone := "9876543210";
     Order.email := None; Order.street := "12 MG Road";
     Order.city := "Pune"; Order.state := "MH";
     Order.zipCode := "411001"; Order.country := "India" |}.

Definition body_cod : OrderController.CheckoutBody :=
  {| OrderController.shippingAddress := address;
     OrderController.billingAddress := None;
     OrderController.paymentMethod := Payment.cod;
     OrderController.notes := None |}.

Definition today : Date :=
  {| getFullYear := 2024; getMonth := 0; getDate := 15 |}.

Definition db0 : Db.t :=
  {| Db.products := {[ jeans_id := jeans ]};
     Db.carts := {[ alice := cart_L_black ]};
     Db.orders := ∅ |}.

(** The specification's example cart: one line, unit price 500, quantity 2. *)
Definition line_500x2 : Cart.Item :=
  {| Cart._id := "650000000000000000000c02";
     Cart.product := jeans_id;
     Cart.variant := {| Cart.size := "S"; Cart.color := "Indigo";
                        Cart.sku := Some "JNS-S-IND" |};
     Cart.quantity := 2;
     Cart.price := of_int 500 |}.

Definition cart_1000 : Cart.t := Cart.addItem line_500x2 (Cart.create alice).

Definition db_1000 : Db.t :=
  {| Db.products := {[ jeans_id := jeans ]};
     Db.carts := {[ alice := cart_1000 ]};
     Db.orders := ∅ |}.

Definition cart_of (db : Db.t) : Cart.t :=
  default (Cart.create alice) (Db.carts db !! alice).

(** Alice applies SAVE20 and then removes the only line of her cart. *)
Definition cart_save20 : Cart.t :=
  cart_of (snd (CartController.applyCoupon alice "SAVE20" db_1000)).

Definition cart_frozen : Cart.t :=
  Cart.removeItem "650000000000000000000c02" cart_save20.

Definition driver (pos : Mongo.Positional) : Mongo.Driver :=
  {| Mongo.positional := pos; Mongo.default_is_modified := false |}.

Definition tomorrow : Date :=
  {| getFullYear := 2024; getMonth := 0; getDate := 16 |}.

(** An order of Alice for two pairs of the jeans in L / Black, as a
    document inserted into the collection with an order number of its own:
    status pending, one history entry, cash on delivery. *)
Definition order1 : Order.t :=
  {| Order._id := order1_id;
     Order.orderNumber := Some "ORD-20240115-000001";
     Order.user := alice;
     Order.items := [ OrderController.snapshot jeans line_L_black ];
     Order.shippingAddress := address;
     Order.billingAddress := address;
     Order.payment := {| Payment.method := Payment.cod;
                         Payment.status := Payment.pending;
                         Payment.transactionId := None;
                         Payment.paidAt := None |};
     Order.pricing := {| Order.subtotal := Cart.subtotal cart_L_black;
                         Order.discount := Cart.discount cart_L_black;
                         Order.couponCode := Cart.couponCode cart_L_black;
                         Order.shipping_fee := Cart.shipping cart_L_black;
                         Order.tax := Cart.tax cart_L_black;
                         Order.grand_total := Cart.total cart_L_black |};
     Order.status := Order.pending;
     Order.statusHistory :=
       [ {| Order.entry_status := Order.pending; Order.date := today;
            Order.note := None |} ];
     Order.shipping := {| Order.carrier := None; Order.trackingNumber := None;
                          Order.shippedAt := None; Order.deliveredAt := None |};
     Order.customer_note := None;
     Order.cancellation := None;
     Order.status_modified := false |}.

(** The database that holds this order. *)
Definition db_order : Db.t :=
  {| Db.products := {[ jeans_id := jeans ]};
     Db.carts := {[ alice := cart_L_black ]};
     Db.orders := {[ order1_id := order1 ]} |}.

(** An administrator confirms the order the next day. *)
Definition db_confirmed : Db.t :=
  snd (AdminController.updateOrderStatus tomorrow order1_id Order.confirmed
         (Some "Payment verified") None None db_order).

(** Alternatively Alice cancels it the next day. *)
Definition db_cancelled (pos : Mongo.Positional) : Db.t :=
  snd (OrderController.cancelOrder (driver pos)
         tomorrow alice order1_id (Some "Ordered by mistake") db_order).

Definition history_of (db : Db.t) : list Order.HistoryEntry :=
  default [] (Order.statusHistory <$> Db.orders db !! order1_id).

Definition db_no_cart : Db.t :=
  {| Db.products := {[ jeans_id := jeans ]}; Db.carts := ∅; Db.orders := ∅ |}.

(** A cart line of one piece at 1.25, and the cart that holds it. *)
Definition line_125 : Cart.Item :=
  {| Cart._id := "650000000000000000000c03";
     Cart.product := jeans_id;
     Cart.variant := {| Cart.size := "S"; Cart.color := "Indigo";
                        Cart.sku := Some "JNS-S-IND" |};
     Cart.quantity := 1;
     Cart.price := Q2Qc (125 # 100) |}.

Definition cart_125 : Cart.t := Cart.addItem line_125 (Cart.create alice).

(** A cart of three lines at 520.68, 215.95 and 262.37, which add up to
    999. *)
Definition line_at (itemId s c : string) (cents : Z) : Cart.Item :=
  {| Cart._id := itemId;
     Cart.product := jeans_id;
     Cart.variant := {| Cart.size := s; Cart.color := c; Cart.sku := None |};
     Cart.quantity := 1;
     Cart.price := of_int cents / of_int 100 |}.

Definition cart_999 : Cart.t :=
  Cart.addItem (line_at "650000000000000000000c06" "L" "Indigo" 26237)
    (Cart.addItem (line_at "650000000000000000000c05" "M" "Indigo" 21595)
       (Cart.addItem (line_at "650000000000000000000c04" "S" "Indigo" 52068)
          (Cart.create alice))).

(** A product whose id has letters among its hexadecimal digits, a line
    for two pieces of it, and the cart that holds the line. *)
Definition scarf_id : ObjectId := "65000000000000000000ab03".

Definition line_scarf : Cart.Item :=
  {| Cart._id := "650000000000000000000c07";
     Cart.product := scarf_id;
     Cart.variant := {| Cart.size := "M"; Cart.color := "Red";
                        Cart.sku := Some "SCF-M-RED" |};
     Cart.quantity := 2;
     Cart.price := of_int 799 |}.

Definition cart_scarf : Cart.t := Cart.addItem line_scarf (Cart.create alice).

End Seed.

(** ** Notions of the specification *)

Module Spec.
Import JS.

Definition line_total (i : Cart.Item) : Number :=
  Cart.price i * of_int (Cart.quantity i).

(** The sum of price times quantity over the items. *)
Definition sum_lines (l : list Cart.Item) : Number :=
  foldr (fun i acc => line_total i + acc) 0 l.

(** Rounding to two decimals. *)
Definition round2 (x : Number) : Number :=
  of_int (Math_round (x * of_int 100)) / of_int 100.

(** The triple that identifies a cart line. *)
Definition line_key (i : Cart.Item) : ObjectId * string * string :=
  (Cart.product i, Cart.size (Cart.variant i), Cart.color (Cart.variant i)).

(** The item mutations of the cart model. *)
Inductive Mutation :=
  | AddItem (item : Cart.Item)
  | UpdateItemQuantity (itemId : ObjectId) (q : Z)
  | RemoveItem (itemId : ObjectId).

Definition mutate (m : Mutation) (c : Cart.t) : Cart.t :=
  match m with
  | AddItem item => Cart.addItem item c
  | UpdateItemQuantity itemId q => Cart.updateItemQuantity itemId q c
  | RemoveItem itemId => Cart.removeItem itemId c
  end.

(** The carts a user can arrive at: a cart is created empty and changes
    only through the model's methods and the two coupon requests. *)
Inductive cart_reachable : Cart.t -> Prop :=
  | reach_create u : cart_reachable (Cart.create u)
  | reach_mutate m c : cart_reachable c -> cart_reachable (mutate m c)
  | reach_clearCart c : cart_reachable c -> cart_reachable (Cart.clearCart c)
  | reach_coupon code d c :
      cart_reachable c ->
      cart_reachable (Cart.calculateTotals (Cart.set_coupon code d c)).

(** A cart line passes the stock check of checkout: its product exists, the
    product has the selected variant, and the variant's stock covers the
    quantity. *)
Definition line_available (products : gmap ObjectId Product.t)
    (item : Cart.Item) : Prop :=
  exists (product : Product.t) (variant : Product.Variant),
    products !! Cart.product item = Some product ∧
    Product.find_variant (Cart.size (Cart.variant item))
      (Cart.color (Cart.variant item)) product = Some variant ∧
    (Cart.quantity item ≤ Product.stock variant)%Z.

(** The filter of the stock update matches the product of a line: the
    product exists, one of its variants has the size and one has the
    color. *)
Definition line_matches (products : gmap ObjectId Product.t)
    (id : ObjectId) (s c : string) : Prop :=
  exists p : Product.t,
    products !! id = Some p ∧
    s ∈ Product.size <$> Product.variants p ∧
    c ∈ Product.color <$> Product.variants p.

(** The stock of the variant (s, c) of product [id]. *)
Definition stock_of (id : ObjectId) (s c : string)
    (products : gmap ObjectId Product.t) : option Z :=
  products !! id ≫= fun p => Product.stock <$> Product.find_variant s c p.

(** The aggregate stock of product [id]. *)
Definition totalStock_of (id : ObjectId) (products : gmap ObjectId Product.t)
    : option Z :=
  Product.totalStock <$> products !! id.

(** The quantity an order holds of product [id], over all its items. *)
Definition cancelled_of (id : ObjectId) (items : list Order.Item) : Z :=
  foldr (fun item acc =>
           if bool_decide (Order.product item = id)
           then (Order.quantity item + acc)%Z else acc) 0%Z items.

(** The quantity a cart orders of product [id], over all its lines. *)
Definition ordered_of (id : ObjectId) (items : list Cart.Item) : Z :=
  foldr (fun item acc =>
           if bool_decide (Cart.product item = id)
           then (Cart.quantity item + acc)%Z else acc) 0%Z items.

(** One request against the database.  Requests other than the four that
    deal with orders (browsing, catalogue management, cart requests) change
    products and carts only. *)
Inductive step : Db.t -> Db.t -> Prop :=
  | step_createOrder drv now newId u body db :
      step db (snd (OrderController.createOrder drv now newId u body db))
  | step_cancelOrder drv now u id reason db :
      step db (snd (OrderController.cancelOrder drv now u id reason db))
  | step_updateOrderStatus now id status note trackingNumber carrier db :
      step db (snd (AdminController.updateOrderStatus now id status note
                      trackingNumber carrier db))
  | step_updatePaymentStatus now id status transactionId db :
      step db (snd (AdminController.updatePaymentStatus now id status
                      transactionId db))
  | step_other products carts db :
      step db {| Db.products := products; Db.carts := carts;
                 Db.orders := Db.orders db |}.

(** The shape of the order collection between requests: every document is
    stored under its own [_id], a request loads it with change tracking
    reset, and it carries the order number that the schema requires. *)
Definition orders_wf (orders : gmap ObjectId Order.t) : Prop :=
  forall (id : ObjectId) (o : Order.t),
    orders !! id = Some o ->
    Order._id o = id ∧ Order.status_modified o = false ∧
    truthy (Order.orderNumber o) = true.

(** No two stored orders share an order number: what the unique index on
    [orderNumber] maintains. *)
Definition numbers_unique (orders : gmap ObjectId Order.t) : Prop :=
  forall (id1 id2 : ObjectId) (o1 o2 : Order.t),
    orders !! id1 = Some o1 -> orders !! id2 = Some o2 ->
    Order.orderNumber o1 = Order.orderNumber o2 -> id1 = id2.

Definition orders_inv (orders : gmap ObjectId Order.t) : Prop :=
  orders_wf orders ∧ numbers_unique orders.

(** What a request does to the order collection: nothing, or a write-back
    of one stored order with its number kept. *)
Inductive orders_change (orders orders' : gmap ObjectId Order.t) : Prop :=
  | change_none : orders' = orders -> orders_change orders orders'
  | change_update id o o2 :
      orders !! id = Some o -> orders' = <[id := o2]> orders ->
      Order.orderNumber o2 = Order.orderNumber o ->
      orders_change orders orders'.

End Spec.

(** ** The rest of the cart model and of the cart controller *)

Module CartVirtuals.

(** The virtual [itemCount]. *)
Definition itemCount (c : Cart.t) : Z :=
  fold_left (fun sum item => (sum + Cart.quantity item)%Z) (Cart.items c) 0%Z.

(** The virtual [isEmpty]. *)
Definition isEmpty (c : Cart.t) : bool :=
  bool_decide (length (Cart.items c) = 0%nat).

(** [cartSchema.statics.getOrCreateCart]; the population of [items.product]
    for the response is not modelled. *)
Definition getOrCreateCart (u : ObjectId) (carts : gmap ObjectId Cart.t)
    : Cart.t * gmap ObjectId Cart.t :=
  match carts !! u with
  | Some cart => (cart, carts)
  | None => (Cart.create u, <[u := Cart.create u]> carts)
  end.

End CartVirtuals.

Module CartRequests.
Import JS Http.

(** [getCart]. *)
Definition getCart (u : ObjectId) (db : Db.t) : Response Cart.t * Db.t :=
  let (cart, carts') := CartVirtuals.getOrCreateCart u (Db.carts db) in
  (sendSuccess 200 "Cart retrieved successfully" cart, Db.set_carts carts' db).

(** The stock check of [updateCartItem], made when the quantity grows:
    [None] lets the request through, [Some r] answers [r].  A product that
    no longer exists is [null], and reading its [variants] throws. *)
Definition check_stock (products : gmap ObjectId Product.t) (item : Cart.Item)
    (quantity : Z) : option (Response Cart.t) :=
  if bool_decide (Cart.quantity item < quantity)%Z
  then
    match products !! Cart.product item with
    | None => Some next_error
    | Some product =>
        match Product.find_variant (Cart.size (Cart.variant item))
                (Cart.color (Cart.variant item)) product with
        | None => Some (sendError 400 "Not enough stock available")
        | Some variant =>
            if bool_decide (Product.stock variant < quantity)%Z
            then Some (sendError 400 "Not enough stock available")
            else None
        end
    end
  else None.

(** [updateCartItem]. *)
Definition updateCartItem (u itemId : ObjectId) (quantity : Z) (db : Db.t)
    : Response Cart.t * Db.t :=
  match Db.carts db !! u with
  | None => (sendNotFound "Cart", db)
  | Some cart =>
      match list_find (Cart.has_id itemId) (Cart.items cart) with
      | None => (sendNotFound "Cart item", db)
      | Some (_, item) =>
          match check_stock (Db.products db) item quantity with
          | Some response => (response, db)
          | None =>
              let cart' := Cart.updateItemQuantity itemId quantity cart in
              (sendSuccess 200 "Cart updated" cart', Db.save_cart u cart' db)
          end
      end
  end.

(** [removeFromCart]. *)
Definition removeFromCart (u itemId : ObjectId) (db : Db.t)
    : Response Cart.t * Db.t :=
  match Db.carts db !! u with
  | None => (sendNotFound "Cart", db)
  | Some cart =>
      match list_find (Cart.has_id itemId) (Cart.items cart) with
      | None => (sendNotFound "Cart item", db)
      | Some _ =>
          let cart' := Cart.removeItem itemId cart in
          (sendSuccess 200 "Item removed from cart" cart', Db.save_cart u cart' db)
      end
  end.

(** [clearCart]. *)
Definition clearCart (u : ObjectId) (db : Db.t) : Response Cart.t * Db.t :=
  match Db.carts db !! u with
  | None => (sendNotFound "Cart", db)
  | Some cart =>
      let cart' := Cart.clearCart cart in
      (sendSuccess 200 "Cart cleared" cart', Db.save_cart u cart' db)
  end.

End CartRequests.

(** ** Pagination helpers ([utils/pagination.js]) *)

Module Pagination.
Import JS.

Record Params := {
  page : Z;
  limit : Z;
  skip : Z
}.

(** [n || d] for the result [n] of [parseInt]: [None] is [NaN], which is
    falsy like [0]. *)
Definition or_int (n : option Z) (d : Z) : Z :=
  match n with
  | Some z => or_else z d
  | None => d
  end.

(** [parsePaginationParams]; the arguments are [parseInt(query.page)] and
    [parseInt(query.limit)].  The code computes in doubles, which hold
    integers exactly up to 2^53: the integers of the model are the numbers
    of the code as long as page * limit stays within that range. *)
Definition parsePaginationParams (parsedPage parsedLimit : option Z) : Params :=
  let page := Z.max 1 (or_int parsedPage 1) in
  let limit := Z.min 100 (Z.max 1 (or_int parsedLimit 10)) in
  {| page := page; limit := limit; skip := (page - 1) * limit |}.

Record Meta := {
  m_page : Z;
  m_limit : Z;
  totalItems : Z;
  totalPages : Z;
  hasNextPage : bool;
  hasPrevPage : bool;
  nextPage : option Z;
  prevPage : option Z
}.

(** [calculatePagination]; the callers pass a [limit] of at least 1.  The
    integers of the model are the numbers of the code for a total and a
    page within 2^53, the range in which doubles hold integers exactly and
    the quotient is rounded to the right side of every integer. *)
Definition calculatePagination (totalItems page limit : Z) : Meta :=
  let totalPages := Qceiling (inject_Z totalItems / inject_Z limit) in
  {| m_page := page; m_limit := limit; totalItems := totalItems;
     totalPages := totalPages;
     hasNextPage := bool_decide (page < totalPages)%Z;
     hasPrevPage := bool_decide (1 < page)%Z;
     nextPage := if bool_decide (page < totalPages)%Z then Some (page + 1)%Z else None;
     prevPage := if bool_decide (1 < page)%Z then Some (page - 1)%Z else None |}.

End Pagination.

(** ** Reading orders ([getOrder], [trackOrder], the statistics) *)

Module OrderQueries.
Import JS Http.

(** The virtual [itemCount] of an order. *)
Definition itemCount (o : Order.t) : Z :=
  fold_left (fun sum item => (sum + Order.quantity item)%Z) (Order.items o) 0%Z.

(** [Order.findOne({ orderNumber: n, user: u })]: the first match among the
    stored documents. *)
Definition findOne_by_number (n : string) (u : ObjectId)
    (orders : gmap ObjectId Order.t) : option Order.t :=
  (fun r => snd (snd r))
    <$> list_find (fun p => Order.orderNumber (snd p) = Some n ∧ Order.user (snd p) = u)
          (map_to_list orders).

(** [getOrder]: a parameter that starts with ["ORD-"] is an order number,
    any other one is an [_id]; the population of [items.product] is not
    modelled. *)
Definition getOrder (u : ObjectId) (id : string) (db : Db.t) : Response Order.t :=
  let order :=
    if String.prefix "ORD-" id
    then findOne_by_number id u (Db.orders db)
    else OrderController.findOne id u (Db.orders db) in
  match order with
  | None => sendNotFound "Order"
  | Some o => sendSuccess 200 "Order retrieved" o
  end.

(** The payload of [trackOrder]. *)
Record Tracking := {
  orderNumber : option string;
  status : Order.Status;
  shipping : Order.Shipping;
  timeline : list Order.HistoryEntry
}.

(** [trackOrder]. *)
Definition trackOrder (u id : ObjectId) (db : Db.t) : Response Tracking :=
  match OrderController.findOne id u (Db.orders db) with
  | None => sendNotFound "Order"
  | Some order =>
      sendSuccess 200 "Order tracking info"
        {| orderNumber := Order.orderNumber order;
           status := Order.status order;
           shipping := Order.shipping order;
           timeline := Order.statusHistory order |}
  end.

Record Stats := {
  totalOrders : Z;
  totalRevenue : Number;
  avgOrderValue : Number
}.

(** [orderSchema.statics.getStats]: one group over all orders, and the
    zero record when the aggregation returns no group.  The sum and the
    average are exact here, where MongoDB adds and divides doubles. *)
Definition getStats (orders : gmap ObjectId Order.t) : Stats :=
  if bool_decide (size orders = 0%nat)
  then {| totalOrders := 0; totalRevenue := 0; avgOrderValue := 0 |}
  else
    let revenue :=
      map_fold (fun _ o sum => sum + Order.grand_total (Order.pricing o)) 0 orders in
    {| totalOrders := Z.of_nat (size orders);
       totalRevenue := revenue;
       avgOrderValue := revenue / of_int (Z.of_nat (size orders)) |}.

End OrderQueries.

(** ** Notions for the life of an order and the stock *)

Module Invariants.

(** What checkout copies into an order: its identity, owner, lines,
    addresses, amounts, note and payment method. *)
Definition same_snapshot (o o' : Order.t) : Prop :=
  Order._id o' = Order._id o ∧
  Order.orderNumber o' = Order.orderNumber o ∧
  Order.user o' = Order.user o ∧
  Order.items o' = Order.items o ∧
  Order.shippingAddress o' = Order.shippingAddress o ∧
  Order.billingAddress o' = Order.billingAddress o ∧
  Order.pricing o' = Order.pricing o ∧
  Order.customer_note o' = Order.customer_note o ∧
  Payment.method (Order.payment o') = Payment.method (Order.payment o).

(** The status history ends in the current status; an order without
    history is pending. *)
Definition timeline_current (o : Order.t) : Prop :=
  match last (Order.statusHistory o) with
  | Some e => Order.entry_status e = Order.status o
  | None => Order.status o = Order.pending
  end.

(** The sum of the stock of the variants of a product. *)
Definition variant_stock (p : Product.t) : Z :=
  foldr (fun v acc => (Product.stock v + acc)%Z) 0%Z (Product.variants p).


(** Every product is stored under its own [_id]. *)
Definition products_wf (products : gmap ObjectId Product.t) : Prop :=
  map_Forall (fun id p => Product._id p = id) products.



(** The sum of [pricing.total] over the stored orders. *)
Definition revenue (orders : gmap ObjectId Order.t) : JS.Number :=
  map_fold (fun _ o sum => sum + Order.grand_total (Order.pricing o)) 0 orders.

End Invariants.

(** ** The catalogue: prices, status and stock of products
    ([models/Product.model.js]), [addToCart] and [reorder] *)

Module Catalog.
Import JS Http.

Inductive Status := draft | active | archived.

#[global] Instance Status_eq_dec : EqDecision Status.
Proof. solve_decision. Defined.

(** [variantSchema] with its optional price override. *)
Record Variant := {
  size : string;
  color : string;
  sku : string;
  stock : Z;
  variant_price : option Number
}.

(** [productSchema]: the fields that price, stock and availability depend
    on; [images] holds the url of each image. *)
Record Product := {
  _id : ObjectId;
  name : string;
  images : list string;
  variants : list Variant;
  price : Number;
  salePrice : option Number;
  discountPercent : Z;
  totalStock : Z;
  status : Status
}.

(** The part of a product that checkout and cancellation work on. *)
Definition to_variant (v : Variant) : Product.Variant :=
  {| Product.size := size v; Product.color := color v; Product.sku := sku v;
     Product.stock := stock v |}.

Definition to_product (p : Product) : Product.t :=
  {| Product._id := _id p; Product.name := name p; Product.images := images p;
     Product.variants := to_variant <$> variants p;
     Product.totalStock := totalStock p |}.

(** [a || b] where [a] is an optional number: [undefined] and [0] are
    falsy. *)
Definition or_number (a : option Number) (b : Number) : Number :=
  match a with
  | Some x => if bool_decide (x = 0) then b else x
  | None => b
  end.

(** [product.variants.find(v => v.size === s && v.color === c)]. *)
Definition find_variant (s c : string) (p : Product) : option Variant :=
  snd <$> list_find (fun v => size v = s ∧ color v = c) (variants p).

(** [variant.price || product.salePrice || product.price]. *)
Definition itemPrice (v : Variant) (p : Product) : Number :=
  or_number (variant_price v) (or_number (salePrice p) (price p)).

(** The virtual [isOnSale], as a truth value. *)
Definition isOnSale (p : Product) : bool :=
  match salePrice p with
  | Some s => negb (bool_decide (s = 0)) && bool_decide (s < price p)
  | None => false
  end.

(** The virtual [effectivePrice]. *)
Definition effectivePrice (p : Product) : Number :=
  match salePrice p with
  | Some s =>
      if negb (bool_decide (s = 0)) && bool_decide (s < price p)
      then s else price p
  | None => price p
  end.

(** The virtual [inStock]. *)
Definition inStock (p : Product) : bool := bool_decide (0 < totalStock p)%Z.

(** [productSchema.pre('save')], the stock and the discount part.  The
    percentage is rounded from the exact quotient, which can be one above
    what the code rounds from the quotient of doubles. *)
Definition preSave (p : Product) : Product :=
  let totalStock' :=
    if bool_decide (0 < length (variants p))%nat
    then fold_left (fun sum v => (sum + or_else (stock v) 0)%Z) (variants p) 0%Z
    else or_else (totalStock p) 0 in
  let discountPercent' :=
    match salePrice p with
    | Some s =>
        if negb (bool_decide (s = 0)) && negb (bool_decide (price p = 0))
           && bool_decide (s < price p)
        then Math_round ((price p - s) / price p * of_int 100)
        else 0%Z
    | None => 0%Z
    end in
  {| _id := _id p; name := name p; images := images p; variants := variants p;
     price := price p; salePrice := salePrice p;
     discountPercent := discountPercent'; totalStock := totalStock';
     status := status p |}.

(** [String(z)] for an integer. *)
Definition String_of_int (z : Z) : string :=
  if bool_decide (z < 0)%Z
  then "-" +:+ String_of_nat (Z.to_nat (- z))
  else String_of_nat (Z.to_nat z).

(** [addToCart]; [quantity] is [None] when the body has none, [s] and [c]
    are [variant.size] and [variant.color], and [newItemId] is the [_id] a
    pushed line receives. *)
Definition addToCart (u newItemId productId : ObjectId) (quantity : option Z)
    (s c : string) (catalog : gmap ObjectId Product)
    (carts : gmap ObjectId Cart.t) : Response Cart.t * gmap ObjectId Cart.t :=
  let quantity := default 1%Z quantity in
  match catalog !! productId with
  | None => (sendNotFound "Product", carts)
  | Some product =>
      if bool_decide (status product ≠ active)
      then (sendNotFound "Product", carts)
      else
        match find_variant s c product with
        | None =>
            (sendError 400 "Selected size/color combination is not available",
             carts)
        | Some productVariant =>
            if bool_decide (stock productVariant < quantity)%Z
            then (sendError 400
                    ("Only " +:+ String_of_int (stock productVariant)
                     +:+ " items available in stock"),
                  carts)
            else
              let cart := default (Cart.create u) (carts !! u) in
              let cart' :=
                Cart.addItem
                  {| Cart._id := newItemId; Cart.product := productId;
                     Cart.variant :=
                       {| Cart.size := s; Cart.color := c;
                          Cart.sku := Some (sku productVariant) |};
                     Cart.quantity := quantity;
                     Cart.price := itemPrice productVariant product |}
                  cart in
              (sendSuccess 200 "Item added to cart" cart', <[u := cart']> carts)
        end
  end.

(** One round of the loop of [reorder]: the cart and the list
    [unavailableItems] after the order line [item]. *)
Definition reorder_line (catalog : gmap ObjectId Product) (newItemId : ObjectId)
    (item : Order.Item) (cart : Cart.t) (unavailableItems : list string)
    : Cart.t * list string :=
  match catalog !! Order.product item with
  | None => (cart, unavailableItems ++ [Order.name item])
  | Some product =>
      if bool_decide (status product ≠ active)
      then (cart, unavailableItems ++ [Order.name item])
      else
        match find_variant (Cart.size (Order.variant item))
                (Cart.color (Order.variant item)) product with
        | None => (cart, unavailableItems ++ [Order.name item])
        | Some variant =>
            if bool_decide (stock variant < 1)%Z
            then (cart, unavailableItems ++ [Order.name item])
            else
              (Cart.addItem
                 {| Cart._id := newItemId; Cart.product := _id product;
                    Cart.variant := Order.variant item;
                    Cart.quantity := Z.min (Order.quantity item) (stock variant);
                    Cart.price := itemPrice variant product |}
                 cart,
               unavailableItems)
        end
  end.

(** The loop over [order.items]; [newItemIds k] is the [_id] a line pushed
    for the [k]-th order line receives. *)
Fixpoint reorder_loop (catalog : gmap ObjectId Product) (newItemIds : nat -> ObjectId)
    (k : nat) (items : list Order.Item) (cart : Cart.t)
    (unavailableItems : list string) : Cart.t * list string :=
  match items with
  | [] => (cart, unavailableItems)
  | item :: rest =>
      let (cart', unavailableItems') :=
        reorder_line catalog (newItemIds k) item cart unavailableItems in
      reorder_loop catalog newItemIds (S k) rest cart' unavailableItems'
  end.

(** [unavailableItems.join(', ')]. *)
Fixpoint join (l : list string) : string :=
  match l with
  | [] => ""
  | [x] => x
  | x :: rest => x +:+ ", " +:+ join rest
  end.

(** [reorder]. *)
Definition reorder (u id : ObjectId) (newItemIds : nat -> ObjectId)
    (catalog : gmap ObjectId Product) (carts : gmap ObjectId Cart.t)
    (orders : gmap ObjectId Order.t)
    : Response (Cart.t * list string) * gmap ObjectId Cart.t :=
  match OrderController.findOne id u orders with
  | None => (sendNotFound "Order", carts)
  | Some order =>
      let cart := default (Cart.create u) (carts !! u) in
      let (cart', unavailableItems) :=
        reorder_loop catalog newItemIds 0 (Order.items order) cart [] in
      let message :=
        if bool_decide (0 < length unavailableItems)%nat
        then "Items added to cart. Some items are unavailable: "
             +:+ join unavailableItems
        else "Items added to cart" in
      (sendSuccess 200 message (cart', unavailableItems), <[u := cart']> carts)
  end.

(** What [reorder] takes from an order line: nothing when the product is
    gone or not active, the variant is gone, or its stock is below 1;
    otherwise the ordered quantity, capped by the stock. *)
Definition reorder_quantity (catalog : gmap ObjectId Product) (item : Order.Item)
    : option Z :=
  match catalog !! Order.product item with
  | Some product =>
      if bool_decide (status product = active)
      then
        match find_variant (Cart.size (Order.variant item))
                (Cart.color (Order.variant item)) product with
        | Some variant =>
            if bool_decide (1 ≤ stock variant)%Z
            then Some (Z.min (Order.quantity item) (stock variant))
            else None
        | None => None
        end
      else None
  | None => None
  end.

End Catalog.

(** Two products of [scripts/seedDatabase.js] with their prices. *)

Module CatalogSeed.
Import JS Catalog.

Definition shirt_id : ObjectId := "650000000000000000000001".

Definition variant (s c k : string) (n : Z) : Variant :=
  {| size := s; color := c; sku := k; stock := n; variant_price := None |}.

Definition shirt : Product :=
  {| _id := shirt_id; name := "Classic White Cotton Shirt";
     images := ["/uploads/products/sample-shirt-1.jpg";
                "/uploads/products/sample-shirt-2.jpg"];
     variants := [ variant "S" "White" "WSH-S-WHT" 15;
                   variant "M" "White" "WSH-M-WHT" 20;
                   variant "L" "White" "WSH-L-WHT" 18;
                   variant "XL" "White" "WSH-XL-WHT" 10 ];
     price := of_int 2999; salePrice := Some (of_int 2499);
     discountPercent := 0; totalStock := 0; status := active |}.

Definition jeans : Product :=
  {| _id := Seed.jeans_id; name := "Premium Slim Fit Denim Jeans";
     images := ["/uploads/products/sample-jeans-1.jpg"];
     variants := [ variant "S" "Indigo" "JNS-S-IND" 12;
                   variant "M" "Indigo" "JNS-M-IND" 25;
                   variant "L" "Indigo" "JNS-L-IND" 20;
                   variant "M" "Black" "JNS-M-BLK" 15;
                   variant "L" "Black" "JNS-L-BLK" 18 ];
     price := of_int 4999; salePrice := None;
     discountPercent := 0; totalStock := 0; status := active |}.

(** The catalogue after both products were saved. *)
Definition catalog : gmap ObjectId Product :=
  {[ shirt_id := preSave shirt; Seed.jeans_id := preSave jeans ]}.

End CatalogSeed.

(** ** The slug of a product ([productSchema.pre('save')], on ASCII names) *)

Module Slug.

(** [String.prototype.toLowerCase] on ASCII text. *)
Definition lower_char (c : ascii) : ascii :=
  let n := nat_of_ascii c in
  if bool_decide (65 ≤ n ≤ 90)%nat then ascii_of_nat (n + 32) else c.

Fixpoint toLowerCase (s : string) : string :=
  match s with
  | EmptyString => EmptyString
  | String c s' => String (lower_char c) (toLowerCase s')
  end.

(** The white space of ASCII text: tab, line feed, vertical tab, form feed,
    carriage return and space. *)
Definition is_space (c : ascii) : bool :=
  let n := nat_of_ascii c in bool_decide (9 ≤ n ≤ 13 ∨ n = 32)%nat.

Fixpoint trimStart (s : string) : string :=
  match s with
  | EmptyString => EmptyString
  | String c s' => if is_space c then trimStart s' else s
  end.

Fixpoint trimEnd (s : string) : string :=
  match s with
  | EmptyString => EmptyString
  | String c s' =>
      match trimEnd s' with
      | EmptyString => if is_space c then EmptyString else String c EmptyString
      | t => String c t
      end
  end.

(** [String.prototype.trim]. *)
Definition trim (s : string) : string := trimEnd (trimStart s).

(** The class [[a-z0-9]]. *)
Definition is_alnum (c : ascii) : bool :=
  let n := nat_of_ascii c in bool_decide (97 ≤ n ≤ 122 ∨ 48 ≤ n ≤ 57)%nat.

Definition is_dash (c : ascii) : bool := bool_decide (c = "-"%char).

(** [replace(/[^a-z0-9]+/g, '-')]: every maximal run of other characters
    becomes one dash; [in_run] tells that the previous character belonged
    to the run being replaced. *)
Fixpoint dash_runs (in_run : bool) (s : string) : string :=
  match s with
  | EmptyString => EmptyString
  | String c s' =>
      if is_alnum c then String c (dash_runs false s')
      else if in_run then dash_runs true s'
           else String "-" (dash_runs true s')
  end.

(** [replace(/(^-|-$)/g, '')]: a dash at the start goes, and then a dash at
    the end. *)
Definition strip_leading_dash (s : string) : string :=
  match s with
  | String c s' => if is_dash c then s' else s
  | EmptyString => EmptyString
  end.

Fixpoint strip_trailing_dash (s : string) : string :=
  match s with
  | EmptyString => EmptyString
  | String c s' =>
      match s' with
      | EmptyString => if is_dash c then EmptyString else s
      | _ => String c (strip_trailing_dash s')
      end
  end.

(** The slug the pre-save hook derives from the name. *)
Definition slugify (name : string) : string :=
  strip_trailing_dash
    (strip_leading_dash (dash_runs false (trim (toLowerCase name)))).

(** Shapes of a text. *)
Fixpoint all_chars (P : ascii -> bool) (s : string) : bool :=
  match s with
  | EmptyString => true
  | String c s' => P c && all_chars P s'
  end.

Definition slug_char (c : ascii) : bool := is_alnum c || is_dash c.

Definition starts_with_dash (s : string) : bool :=
  match s with
  | String c _ => is_dash c
  | EmptyString => false
  end.

Fixpoint ends_with_dash (s : string) : bool :=
  match s with
  | EmptyString => false
  | String c s' =>
      match s' with
      | EmptyString => is_dash c
      | _ => ends_with_dash s'
      end
  end.

Fixpoint has_double_dash (s : string) : bool :=
  match s with
  | EmptyString => false
  | String c s' => (is_dash c && starts_with_dash s') || has_double_dash s'
  end.

End Slug.

(** ** Numbers as the engine computes them: IEEE-754 binary64

    [calculateTotals] once more, evaluated as JavaScript evaluates it.  The
    arithmetic is that of [SpecFloat] at precision 53: every operation
    returns the double nearest to the exact result, ties going to the even
    mantissa. *)

Module Double.

Definition prec : Z := 53.
Definition emax : Z := 1024.

(** A double: a zero, an infinity, NaN, or a finite number with sign [s],
    mantissa [m] and exponent [e], of value (-1)^s * m * 2^e. *)
Abbreviation t := SpecFloat.spec_float.

(** An integer literal or an integer-valued field. *)
Definition of_int (z : Z) : t := SpecFloat.binary_normalize prec emax z 0 false.

Definition add : t -> t -> t := SpecFloat.SFadd prec emax.
Definition sub : t -> t -> t := SpecFloat.SFsub prec emax.
Definition mul : t -> t -> t := SpecFloat.SFmul prec emax.
Definition div : t -> t -> t := SpecFloat.SFdiv prec emax.

(** [x >= y] and [x < y]. *)
Definition geb (x y : t) : bool := SpecFloat.SFleb y x.
Definition ltb (x y : t) : bool := SpecFloat.SFltb x y.

(** The double that a decimal numeral or a JSON number denotes: the one
    nearest to the rational.  It is obtained as the quotient of numerator
    and denominator, which is rounded once; both are below 2^53, hence
    exact, wherever this is used. *)
Definition of_Qc (q : Qc) : t := div (of_int (Qnum q)) (of_int (Z.pos (Qden q))).

(** The exact value of a finite double. *)
Definition to_Q (x : t) : option Q :=
  match x with
  | SpecFloat.S754_zero _ => Some 0%Q
  | SpecFloat.S754_finite s m e =>
      let z := if s then Z.neg m else Z.pos m in
      Some (if bool_decide (0 ≤ e)%Z
            then inject_Z (z * 2 ^ e)
            else (z # Z.to_pos (2 ^ (- e))))%Q
  | _ => None
  end.

(** [Math.round]: the integer nearest to the exact value, halves going up;
    a result of zero keeps the sign of the argument, and zeros, infinities
    and NaN are returned as they are. *)
Definition Math_round (x : t) : t :=
  match x, to_Q x with
  | SpecFloat.S754_finite s _ _, Some q =>
      let n := Qfloor (q + (1 # 2))%Q in
      if bool_decide (n = 0%Z) then SpecFloat.S754_zero s else of_int n
  | _, _ => x
  end.

(** The literal [0.18]. *)
Definition taxRate : t := of_Qc (Q2Qc (18 # 100)).

(** The four fields [calculateTotals] assigns. *)
Record Totals := {
  subtotal : t;
  tax : t;
  shipping : t;
  total : t
}.

(** [cartSchema.methods.calculateTotals] in binary64, on the cart whose
    prices and discount are the doubles nearest to those of [c]. *)
Definition calculateTotals (c : Cart.t) : Totals :=
  let subtotal' :=
    fold_left
      (fun sum item =>
         add sum (mul (of_Qc (Cart.price item)) (of_int (Cart.quantity item))))
      (Cart.items c) (of_int 0) in
  let tax' := div (Math_round (mul (mul subtotal' taxRate) (of_int 100))) (of_int 100) in
  let shipping' := if geb subtotal' (of_int 999) then of_int 0 else of_int 99 in
  let total' := sub (add (add subtotal' tax') shipping') (of_Qc (Cart.discount c)) in
  {| subtotal := subtotal'; tax := tax'; shipping := shipping'; total := total' |}.

End Double.

(** ** [addItem] on the values of a request

    [addToCart] hands [req.body.productId] and [req.body.quantity] to
    [addItem] as they arrive: the route validators ([isMongoId], [isInt]
    with bounds 1 and 10) check them and convert nothing.  A product id is
    then a text of 24 hexadecimal digits in either case, and a quantity is
    a number or the text of one, an optional sign followed by digits. *)

Module RawCart.
Import JS.

(** A quantity as it arrives. *)
Inductive Value :=
  | Num (z : Z)
  | Str (s : string).

(** The object literal passed to [addItem]. *)
Record Item := {
  product : string;
  variant : Cart.Selector;
  quantity : Value;
  price : Number
}.

(** [v || 1]: the number 0 and the empty text are falsy. *)
Definition or_one (v : Value) : Value :=
  match v with
  | Num z => if bool_decide (z = 0%Z) then Num 1 else v
  | Str s => if bool_decide (s = EmptyString) then Num 1 else v
  end.

(** [a + v] for a number [a]: the sum with a number, the concatenation of
    [String(a)] with a text. *)
Definition plus (a : Z) (v : Value) : Value :=
  match v with
  | Num z => Num (a + z)
  | Str s => Str (Catalog.String_of_int a +:+ s)
  end.

(** The value of a text of decimal digits, continued from [acc]. *)
Fixpoint digits (s : string) (acc : Z) : option Z :=
  match s with
  | EmptyString => Some acc
  | String c s' =>
      let n := nat_of_ascii c in
      if bool_decide (48 ≤ n ≤ 57)%nat
      then digits s' (10 * acc + Z.of_nat (n - 48))
      else None
  end.

(** [Number(s)] on the text of an integer; [None] is [NaN]. *)
Definition Number_of_text (s : string) : option Z :=
  match s with
  | EmptyString => None
  | String c s' =>
      if bool_decide (c = "+"%char)
      then (if bool_decide (s' = EmptyString) then None else digits s' 0)
      else if bool_decide (c = "-"%char)
      then (if bool_decide (s' = EmptyString) then None
            else Z.opp <$> digits s' 0)
      else digits s 0
  end.

(** Mongoose's cast of a value assigned to a [Number] path; [None] is a
    [CastError], with which the cart cannot be saved. *)
Definition cast_number (v : Value) : option Z :=
  match v with
  | Num z => Some z
  | Str s => Number_of_text s
  end.

(** Mongoose's cast of a text of hexadecimal digits to an [ObjectId], in
    its canonical form: the digits in lower case. *)
Definition cast_id (s : string) : ObjectId := Slug.toLowerCase s.

(** The [findIndex] predicate of [addItem]: [i.product.toString()] is the
    canonical form of a stored id, [item.product.toString()] the text of
    the request. *)
Definition same_line (item : Item) (i : Cart.Item) : Prop :=
  Cart.product i = product item ∧
  Cart.size (Cart.variant i) = Cart.size (variant item) ∧
  Cart.color (Cart.variant i) = Cart.color (variant item).

#[global] Instance same_line_dec item i : Decision (same_line item i).
Proof. unfold same_line. apply _. Defined.

(** [cartSchema.methods.addItem]: on a match the line's quantity becomes
    the cast of [quantity + (item.quantity || 1)]; otherwise the item is
    pushed, its fields cast to the types of [cartItemSchema], under the
    sub-document id [newItemId]. *)
Definition addItem (newItemId : ObjectId) (item : Item) (c : Cart.t)
    : option Cart.t :=
  let items' :=
    match list_find (same_line item) (Cart.items c) with
    | Some (existingItemIndex, i) =>
        (fun q => <[existingItemIndex := Cart.set_quantity q i]> (Cart.items c))
          <$> cast_number (plus (Cart.quantity i) (or_one (quantity item)))
    | None =>
        (fun q =>
           Cart.items c ++
           [ {| Cart._id := newItemId; Cart.product := cast_id (product item);
                Cart.variant := variant item; Cart.quantity := q;
                Cart.price := price item |} ])
          <$> cast_number (quantity item)
    end in
  (fun l => Cart.calculateTotals (Cart.set_items l c)) <$> items'.

(** An item whose fields already have the types of the schema. *)
Definition of_item (item : Cart.Item) : Item :=
  {| product := Cart.product item; variant := Cart.variant item;
     quantity := Num (Cart.quantity item); price := Cart.price item |}.

End RawCart.

(** Two requests to add an item, as the route hands them to [addItem]. *)

Module RawSeed.

(** The sub-document id a pushed line receives. *)
Definition new_id : ObjectId := "650000000000000000000c08".

(** Two more pairs of the jeans in S / Indigo, the quantity sent as the
    text ["2"]. *)
Definition item_text : RawCart.Item :=
  {| RawCart.product := Seed.jeans_id;
     RawCart.variant := {| Cart.size := "S"; Cart.color := "Indigo";
                           Cart.sku := Some "JNS-S-IND" |};
     RawCart.quantity := RawCart.Str "2";
     RawCart.price := JS.of_int 500 |}.

(** One more scarf in M / Red, the product id sent with its letters in
    upper case. *)
Definition item_upper : RawCart.Item :=
  {| RawCart.product := "65000000000000000000AB03";
     RawCart.variant := {| Cart.size := "M"; Cart.color := "Red";
                           Cart.sku := Some "SCF-M-RED" |};
     RawCart.quantity := RawCart.Num 1;
     RawCart.price := JS.of_int 799 |}.

End RawSeed.

(** ** Properties of the cart model *)

Module CartFacts.
Import JS Cart Spec.

Lemma fold_lines_from (l : list Item) (a : Number) :
  fold_left (fun sum item => sum + price item * of_int (quantity item)) l a
  = a + sum_lines l.
Proof.
  revert a. induction l as [|i l IH]; intros a; simpl.
  - ring.
  - rewrite IH. unfold line_total. ring.
Qed.

Lemma subtotal_calculateTotals (c : t) :
  subtotal (calculateTotals c) = sum_lines (items c).
Proof.
  unfold calculateTotals; simpl. rewrite fold_lines_from. ring.
Qed.

(** Rounding to two decimals lands on a whole number of hundredths at most
    half a hundredth away, halves going up. *)
Lemma of_int_floor_le (q : Number) : of_int (Qfloor q) ≤ q.
Proof. unfold Qcle, of_int; simpl. rewrite Qred_correct. apply Qfloor_le. Qed.

Lemma lt_of_int_floor_succ (q : Number) : q < of_int (Qfloor q + 1).
Proof. unfold Qclt, of_int; simpl. rewrite Qred_correct. apply Qlt_floor. Qed.

Lemma hundredth_pos : 0 < / of_int 100.
Proof. by vm_compute. Qed.

Lemma round2_near (x : Number) :
  x - Q2Qc (1 # 200) < round2 x ∧ round2 x ≤ x + Q2Qc (1 # 200).
Proof.
  unfold round2, Math_round.
  set (y := x * of_int 100 + Q2Qc (1 # 2)).
  assert (of_int 100 * / of_int 100 = 1) as H100
    by (apply Qc_is_canon; reflexivity).
  assert (Q2Qc (1 # 2) * / of_int 100 = Q2Qc (1 # 200)) as Hhalf
    by (apply Qc_is_canon; reflexivity).
  assert ((Q2Qc (1 # 2) - 1) * / of_int 100 = - Q2Qc (1 # 200)) as Hhalf'
    by (apply Qc_is_canon; reflexivity).
  assert (x + Q2Qc (1 # 200) = y * / of_int 100) as Hup.
  { unfold y. rewrite <- Hhalf.
    transitivity (x * (of_int 100 * / of_int 100) + Q2Qc (1 # 2) * / of_int 100);
      [rewrite H100|]; ring. }
  assert (x - Q2Qc (1 # 200) = (y - 1) * / of_int 100) as Hlow.
  { unfold y.
    transitivity (x * (of_int 100 * / of_int 100)
                  + (Q2Qc (1 # 2) - 1) * / of_int 100);
      [rewrite H100, Hhalf'|]; ring. }
  assert (Qfloor ((x * of_int 100)%Qc + Q2Qc (1 # 2)) = Qfloor y) as ->.
  { apply Qfloor_comp. unfold y. simpl. by rewrite (Qred_correct (_ + _)). }
  rewrite Hup, Hlow. unfold Qcdiv. split.
  - apply Qcmult_lt_compat_r; [apply hundredth_pos|].
    pose proof (lt_of_int_floor_succ y) as Hlt.
    assert (of_int (Qfloor y + 1) = of_int (Qfloor y) + 1) as Hs.
    { unfold of_int. apply Qc_is_canon. simpl. rewrite !Qred_correct.
      rewrite inject_Z_plus. reflexivity. }
    rewrite Hs in Hlt.
    apply Qclt_minus_iff. apply Qclt_minus_iff in Hlt.
    replace (of_int (Qfloor y) + - (y - 1)) with (of_int (Qfloor y) + 1 + - y)
      by ring.
    exact Hlt.
  - apply Qcmult_le_compat_r; [apply of_int_floor_le|].
    apply Qclt_le_weak, hundredth_pos.
Qed.

Lemma calculateTotals_fields (c : t) :
  let c' := calculateTotals c in
  tax c' = round2 (subtotal c' * Q2Qc (18 # 100)) ∧
  shipping c' = (if bool_decide (of_int 999 ≤ subtotal c') then 0 else of_int 99) ∧
  total c' = subtotal c' + tax c' + shipping c' - discount c ∧
  discount c' = discount c ∧ couponCode c' = couponCode c ∧
  items c' = items c ∧ user c' = user c.
Proof. repeat split; reflexivity. Qed.

Lemma free_shipping_iff (c : t) :
  shipping (calculateTotals c) = 0 <-> of_int 999 ≤ subtotal (calculateTotals c).
Proof.
  simpl. case_bool_decide as Hle; split; done.
Qed.

(** In exact arithmetic [calculateTotals] computes the totals of the
    specification: the subtotal is the sum of price times quantity over the
    items, the tax is the subtotal times 0.18 rounded to two decimals (a
    whole number of hundredths within half a hundredth of it), shipping is
    0 from a subtotal of 999 on and 99 below it, and the total is
    subtotal + tax + shipping - discount with no clamping at 0. *)
Lemma calculateTotals_exact (c : t) :
  let c' := calculateTotals c in
  subtotal c' = sum_lines (items c) ∧
  tax c' = round2 (subtotal c' * Q2Qc (18 # 100)) ∧
  (exists z : Z, tax c' = of_int z / of_int 100) ∧
  subtotal c' * Q2Qc (18 # 100) - Q2Qc (1 # 200) < tax c' ∧
  tax c' ≤ subtotal c' * Q2Qc (18 # 100) + Q2Qc (1 # 200) ∧
  shipping c' = (if bool_decide (of_int 999 ≤ subtotal c') then 0 else of_int 99) ∧
  (shipping c' = 0 ↔ of_int 999 ≤ subtotal c') ∧
  total c' = subtotal c' + tax c' + shipping c' - discount c ∧
  discount c' = discount c ∧ items c' = items c.
Proof.
  intros c'. subst c'.
  destruct (calculateTotals_fields c) as (Ht & Hsh & Htot & Hd & _ & Hi & _).
  destruct (round2_near (subtotal (calculateTotals c) * Q2Qc (18 # 100)))
    as [Hlow Hup].
  split; [apply subtotal_calculateTotals|].
  split; [exact Ht|]. split; [by eexists|].
  rewrite <- Ht in Hlow, Hup.
  split; [exact Hlow|]. split; [exact Hup|]. split; [exact Hsh|].
  split; [apply free_shipping_iff|]. done.
Qed.

(** C2: the code computes in binary64, and there the totals are not always
    those of the specification.  For a cart of one piece at 1.25 the
    subtotal is 1.25 and 18% of it is 0.225, which rounds to 0.23; the code
    multiplies 1.25 by 0.18 and by 100 to a double below 22.5, rounds that
    to 22 and stores a tax of 0.22.  For a cart of three lines at 520.68,
    215.95 and 262.37 the prices add up to 999, which ships free; the
    code's sum is a double below 999, and it charges 99. *)
Theorem calculateTotals_rounds_in_binary64 :
  (sum_lines (items Seed.cart_125) = Q2Qc (125 # 100) ∧
   round2 (sum_lines (items Seed.cart_125) * Q2Qc (18 # 100)) = Q2Qc (23 # 100) ∧
   Double.subtotal (Double.calculateTotals Seed.cart_125)
   = Double.of_Qc (Q2Qc (125 # 100)) ∧
   Double.ltb
     (Double.mul
        (Double.mul (Double.subtotal (Double.calculateTotals Seed.cart_125))
           Double.taxRate)
        (Double.of_int 100))
     (Double.of_Qc (Q2Qc (225 # 10))) = true ∧
   Double.tax (Double.calculateTotals Seed.cart_125)
   = Double.of_Qc (Q2Qc (22 # 100)) ∧
   Double.tax (Double.calculateTotals Seed.cart_125)
   ≠ Double.of_Qc (Q2Qc (23 # 100))) ∧
  (sum_lines (items Seed.cart_999) = of_int 999 ∧
   Double.ltb (Double.subtotal (Double.calculateTotals Seed.cart_999))
     (Double.of_int 999) = true ∧
   Double.shipping (Double.calculateTotals Seed.cart_999) = Double.of_int 99 ∧
   Double.shipping (Double.calculateTotals Seed.cart_999) ≠ Double.of_int 0).
Proof.
  split.
  - split; [by apply Qc_is_canon|]. split; [by apply Qc_is_canon|].
    split; [by vm_compute|]. split; [by vm_compute|].
    split; [by vm_compute|]. by vm_compute.
  - split; [by apply Qc_is_canon|]. split; [by vm_compute|].
    split; by vm_compute.
Qed.

Lemma of_int_round_zero : of_int (Math_round (0 * taxRate * of_int 100)) / of_int 100 = 0.
Proof. apply Qc_is_canon. reflexivity. Qed.

Lemma below_free_shipping_zero : bool_decide (of_int 999 ≤ 0) = false.
Proof. by vm_compute. Qed.

Lemma calculateTotals_empty (c : t) :
  items c = [] ->
  let c' := calculateTotals c in
  items c' = [] ∧ subtotal c' = 0 ∧ tax c' = 0 ∧ shipping c' = of_int 99 ∧
  total c' = of_int 99 - discount c.
Proof.
  intros Hempty. unfold calculateTotals.
  cbn [items subtotal tax shipping total discount].
  rewrite Hempty. cbn [fold_left].
  rewrite of_int_round_zero, below_free_shipping_zero.
  repeat split; ring.
Qed.

(** The specification's example: one line at 500, quantity 2. *)
Example cart_1000_totals :
  subtotal Seed.cart_1000 = of_int 1000 ∧ tax Seed.cart_1000 = of_int 180 ∧
  shipping Seed.cart_1000 = 0 ∧ total Seed.cart_1000 = of_int 1180.
Proof. repeat split; apply Qc_is_canon; reflexivity. Qed.



(** The frozen discount can exceed the new subtotal. *)
Lemma frozen_discount_exceeds_subtotal :
  Seed.cart_frozen = mutate (RemoveItem "650000000000000000000c02") Seed.cart_save20 ∧
  discount Seed.cart_save20 = of_int 200 ∧
  discount Seed.cart_frozen = of_int 200 ∧
  subtotal Seed.cart_frozen = 0.
Proof. repeat split; vm_compute; reflexivity. Qed.

Lemma same_line_key (item i : Item) :
  same_line item i <-> line_key i = line_key item.
Proof.
  unfold same_line, line_key. split.
  - intros (-> & -> & ->). reflexivity.
  - intros [= -> -> ->]. done.
Qed.

Lemma keys_alter_quantity (g : Item -> Z) (k : nat) (l : list Item) :
  line_key <$> alter (fun i => set_quantity (g i) i) k l = line_key <$> l.
Proof.
  revert k. induction l as [|i l IH]; intros [|k]; csimpl; try done.
  f_equal. apply IH.
Qed.

Lemma keys_pull (itemId : ObjectId) (l : list Item) :
  NoDup (line_key <$> l) -> NoDup (line_key <$> pull itemId l).
Proof.
  intros Hnd. eapply sublist_NoDup; [exact Hnd|].
  apply fmap_sublist, sublist_filter.
Qed.

Lemma addItem_items (item : Item) (c : t) :
  items (addItem item c) =
  match list_find (same_line item) (items c) with
  | Some (k, _) =>
      alter (fun i => set_quantity (quantity i + or_else (quantity item) 1) i) k (items c)
  | None => items c ++ [item]
  end.
Proof. reflexivity. Qed.

Lemma addItem_keeps_keys_distinct (item : Item) (c : t) :
  NoDup (line_key <$> items c) -> NoDup (line_key <$> items (addItem item c)).
Proof.
  intros Hnd. rewrite addItem_items.
  destruct (list_find (same_line item) (items c)) as [[k i]|] eqn:Hfind.
  - by rewrite keys_alter_quantity.
  - rewrite fmap_app; simpl. apply NoDup_app. split; [done|]. split.
    + intros key Hin Hin'. apply list_elem_of_singleton in Hin'. subst key.
      apply list_elem_of_fmap in Hin as (i & Hkey & Hi).
      apply list_find_None in Hfind.
      rewrite Forall_forall in Hfind.
      apply (Hfind i Hi). apply same_line_key. done.
    + apply NoDup_singleton.
Qed.

Lemma reachable_keys_distinct (c : t) :
  cart_reachable c -> NoDup (line_key <$> items c).
Proof.
  induction 1 as [u|m c Hc IH|c Hc IH|code d c Hc IH]; simpl.
  - apply NoDup_nil_2.
  - destruct m as [item|itemId q|itemId].
    + by apply addItem_keeps_keys_distinct.
    + simpl. destruct (list_find (has_id itemId) (items c)) as [[k i]|]; [|done].
      case_bool_decide.
      * by apply keys_pull.
      * by rewrite (keys_alter_quantity (fun _ => q)).
    + simpl. by apply keys_pull.
  - apply NoDup_nil_2.
  - done.
Qed.

Lemma filter_none {A} (P : A -> Prop) `{forall x, Decision (P x)} (l : list A) :
  Forall (fun x => ¬ P x) l -> filter P l = [].
Proof.
  induction 1 as [|x l Hx _ IH]; [done|].
  rewrite filter_cons. by destruct (decide (P x)).
Qed.

Lemma distinct_keys_at_most_one (item : Item) (l : list Item) :
  NoDup (line_key <$> l) -> (length (filter (same_line item) l) <= 1)%nat.
Proof.
  induction l as [|i l IH]; simpl; intros Hnd; [lia|].
  apply NoDup_cons in Hnd as [Hnotin Hnd].
  rewrite filter_cons. destruct (decide (same_line item i)) as [Hsame|Hdiff].
  - assert (filter (same_line item) l = []) as ->; [|simpl; lia].
    apply filter_none, Forall_forall. intros j Hj Hsame'.
    apply Hnotin, list_elem_of_fmap. exists j. split; [|done].
    apply same_line_key in Hsame, Hsame'. congruence.
  - by apply IH.
Qed.

Lemma alter_as_insert {A} (f : A -> A) (k : nat) (x : A) (l : list A) :
  l !! k = Some x -> alter f k l = <[k := f x]> l.
Proof.
  revert k. induction l as [|y l IH]; intros [|k] Hk; simplify_eq/=; [done|].
  f_equal. by apply IH.
Qed.

Lemma or_else_positive (q d : Z) : (1 ≤ q)%Z -> or_else q d = q.
Proof. intros Hq. unfold or_else. case_bool_decide; [lia|done]. Qed.

Lemma addItem_merges_at (c : t) (item i0 : Item) (k : nat) :
  (1 ≤ quantity item)%Z ->
  list_find (same_line item) (items c) = Some (k, i0) ->
  items (addItem item c)
  = <[k := set_quantity (quantity i0 + quantity item) i0]> (items c).
Proof.
  intros Hq Hfind. rewrite addItem_items, Hfind.
  apply list_find_Some in Hfind as (Hk & _ & _).
  rewrite (alter_as_insert _ k i0 _ Hk). by rewrite or_else_positive.
Qed.

(** For an item whose fields have the types of the schema, a quantity of
    at least 1 among them: adding an item whose (product, size, color)
    matches a line of the cart adds its quantity to that line and appends
    nothing; hence a cart reached from an empty one through such additions
    and the other methods never holds two lines with the same triple. *)
Lemma addItem_merges_typed :
  (forall (c : t) (item i : Item),
     (1 ≤ quantity item)%Z -> i ∈ items c -> same_line item i ->
     exists (k : nat) (i0 : Item),
       items c !! k = Some i0 ∧ same_line item i0 ∧
       items (addItem item c)
       = <[k := set_quantity (quantity i0 + quantity item) i0]> (items c) ∧
       length (items (addItem item c)) = length (items c)) ∧
  (forall (c : t) (item i : Item) (k : nat),
     cart_reachable c ->
     (1 ≤ quantity item)%Z -> items c !! k = Some i -> same_line item i ->
     items (addItem item c)
     = <[k := set_quantity (quantity i + quantity item) i]> (items c)) ∧
  (forall c : t, cart_reachable c ->
     forall item : Item, (length (filter (same_line item) (items c)) ≤ 1)%nat).
Proof.
  split; [|split].
  - intros c item i Hq Hin Hsame.
    destruct (list_find_elem_of (same_line item) (items c) i Hin Hsame)
      as [[k i0] Hfind].
    exists k, i0. pose proof Hfind as Hfind'.
    apply list_find_Some in Hfind' as (Hk & Hsame0 & _).
    rewrite (addItem_merges_at c item i0 k Hq Hfind).
    by rewrite length_insert.
  - intros c item i k Hreach Hq Hk Hsame.
    assert (i ∈ items c) as Hin by (apply list_elem_of_lookup; eauto).
    destruct (list_find_elem_of (same_line item) (items c) i Hin Hsame)
      as [[k0 i0] Hfind].
    pose proof Hfind as Hfind'.
    apply list_find_Some in Hfind' as (Hk0 & Hsame0 & _).
    assert (k0 = k) as ->.
    { apply (NoDup_lookup (line_key <$> items c) k0 k (line_key item)).
      - by apply reachable_keys_distinct.
      - rewrite list_lookup_fmap, Hk0; simpl. f_equal. by apply same_line_key.
      - rewrite list_lookup_fmap, Hk; simpl. f_equal. by apply same_line_key. }
    assert (i0 = i) as -> by congruence.
    by apply addItem_merges_at.
  - intros c Hreach item.
    by apply distinct_keys_at_most_one, reachable_keys_distinct.
Qed.

(** On the values of a request [addItem] coincides with the method on
    typed items when the quantity is a number and the product id is in
    canonical form. *)
Lemma addItem_of_item (item : Item) (c : t) :
  RawCart.cast_id (product item) = product item ->
  RawCart.addItem (_id item) (RawCart.of_item item) c = Some (addItem item c).
Proof.
  intros Hid. unfold RawCart.addItem, addItem.
  assert (list_find (RawCart.same_line (RawCart.of_item item)) (items c)
          = list_find (same_line item) (items c)) as ->.
  { apply list_find_ext. intros i. unfold RawCart.same_line, same_line. done. }
  destruct (list_find (same_line item) (items c)) as [[k i]|] eqn:Hfind; simpl.
  - apply list_find_Some in Hfind as (Hk & _ & _).
    rewrite (alter_as_insert _ k i _ Hk). unfold or_else.
    by case_bool_decide.
  - rewrite Hid. by destruct item.
Qed.

(** C4: [addItem] receives the product id and the quantity of the request
    as they arrive, and then it does not always merge by summing.  In a
    cart with a line of quantity 2, a request for the same product, size
    and color whose quantity is the text "2" turns the line's quantity
    into 22, the cast of the concatenation "22".  In a cart with a line
    for a product whose id has letters, a request that writes the id in
    upper case finds no line to merge into and appends a second line for
    the same product, size and color.  What does hold: a quantity that
    arrives as a number other than 0 is added to the first line whose
    product id, size and color equal the texts of the request. *)
Theorem addItem_request_values :
  (quantity <$> items Seed.cart_1000 = [2%Z] ∧
   RawCart.same_line RawSeed.item_text Seed.line_500x2 ∧
   (fun c => quantity <$> items c)
     <$> RawCart.addItem RawSeed.new_id RawSeed.item_text Seed.cart_1000
   = Some [22%Z]) ∧
  (line_key <$> items Seed.cart_scarf = [(Seed.scarf_id, "M", "Red")] ∧
   RawCart.cast_id (RawCart.product RawSeed.item_upper) = Seed.scarf_id ∧
   (fun c => line_key <$> items c)
     <$> RawCart.addItem RawSeed.new_id RawSeed.item_upper Seed.cart_scarf
   = Some [(Seed.scarf_id, "M", "Red"); (Seed.scarf_id, "M", "Red")]) ∧
  (forall (newItemId : ObjectId) (item : RawCart.Item) (c : t)
          (k : nat) (i : Item) (z : Z),
     RawCart.quantity item = RawCart.Num z -> z ≠ 0%Z ->
     list_find (RawCart.same_line item) (items c) = Some (k, i) ->
     items <$> RawCart.addItem newItemId item c
     = Some (<[k := set_quantity (quantity i + z) i]> (items c))).
Proof.
  split; [|split].
  - split; [reflexivity|]. split; [done|]. reflexivity.
  - split; [reflexivity|]. split; [reflexivity|]. reflexivity.
  - intros newItemId item c k i z Hq Hz Hfind.
    unfold RawCart.addItem. rewrite Hfind, Hq. simpl.
    by rewrite bool_decide_eq_false_2.
Qed.

End CartFacts.

(** ** Properties of the cart controller *)

Module CartControllerFacts.
Import JS Http Cart Spec CartController.

Lemma validCoupons_lookup (k : string) (pct : Z) :
  validCoupons !! k = Some pct <->
  (k = "FIRST10" ∧ pct = 10%Z) ∨ (k = "SAVE20" ∧ pct = 20%Z) ∨
  (k = "DESIGNER15" ∧ pct = 15%Z).
Proof.
  unfold validCoupons. split.
  - intros Hk.
    apply lookup_insert_Some in Hk as [[<- <-]|[_ Hk]]; [tauto|].
    apply lookup_insert_Some in Hk as [[<- <-]|[_ Hk]]; [tauto|].
    apply lookup_singleton_Some in Hk as [<- <-]. tauto.
  - intros [[-> ->]|[[-> ->]|[-> ->]]]; by vm_compute.
Qed.

(** A code whose upper-cased form is in the table is accepted. *)
Lemma applyCoupon_accepts (u : ObjectId) (code : string) (db : Db.t)
    (cart : Cart.t) (pct : Z) :
  Db.carts db !! u = Some cart ->
  validCoupons !! toUpperCase code = Some pct ->
  exists (msg : string) (cart' : Cart.t),
    applyCoupon u code db = (sendSuccess 200 msg cart', Db.save_cart u cart' db) ∧
    couponCode cart' = Some (toUpperCase code) ∧
    discount cart' = of_int (Math_round (subtotal cart * of_int pct / of_int 100)) ∧
    items cart' = items cart ∧
    subtotal cart' = sum_lines (items cart) ∧
    total cart' = subtotal cart' + tax cart' + shipping cart' - discount cart'.
Proof.
  intros Hcart Hpct. unfold applyCoupon. rewrite Hcart, Hpct.
  assert (pct ≠ 0%Z) as Hnz.
  { apply validCoupons_lookup in Hpct. intros ->.
    destruct Hpct as [[_ ?]|[[_ ?]|[_ ?]]]; done. }
  rewrite bool_decide_eq_false_2 by done.
  eexists _, _. split; [reflexivity|].
  set (cart1 := set_coupon _ _ cart).
  pose proof (CartFacts.subtotal_calculateTotals cart1) as Hs.
  repeat split; done.
Qed.




(** Re-applying a coupon to a cart whose stored subtotal agrees with its
    items gives the same cart again. *)
Lemma applyCoupon_twice (u : ObjectId) (code : string) (db : Db.t) (cart : Cart.t) :
  Db.carts db !! u = Some cart ->
  subtotal cart = sum_lines (items cart) ->
  is_Some (validCoupons !! toUpperCase code) ->
  applyCoupon u code (snd (applyCoupon u code db)) = applyCoupon u code db.
Proof.
  intros Hcart Hsub [pct Hpct].
  destruct (applyCoupon_accepts u code db cart pct Hcart Hpct)
    as (msg & cart' & Hrun & _ & _ & _ & Hs & _).
  rewrite Hrun; simpl.
  unfold applyCoupon in *. unfold Db.save_cart, Db.set_carts in *; simpl in *.
  rewrite lookup_insert_eq. rewrite Hcart, Hpct in *.
  destruct (bool_decide (pct = 0%Z)); [done|].
  injection Hrun as Hmsg Hcart' _.
  rewrite insert_insert_eq, Hs, <- Hsub, <- Hcart', Hmsg.
  reflexivity.
Qed.

End CartControllerFacts.

(** ** Properties of checkout *)

Module CheckoutFacts.
Import JS Http Spec OrderController.

(** C7: checkout without a cart, or with a cart that has no items, answers
    EmptyCart and leaves products, carts and orders as they were. *)
Theorem createOrder_empty_cart (drv : Mongo.Driver) (now : Date)
    (newId u : ObjectId) (body : CheckoutBody) (db : Db.t)
    (Hempty : Db.carts db !! u = None ∨
              exists cart, Db.carts db !! u = Some cart ∧ Cart.items cart = []) :
  createOrder drv now newId u body db = (EmptyCart, db).
Proof.
  unfold createOrder. destruct Hempty as [->|(cart & -> & Hitems)]; [done|].
  by rewrite Hitems.
Qed.

Lemma createOrder_empty_cart_witness :
  createOrder (Seed.driver Mongo.FirstSizeMatch) Seed.today Seed.order1_id
    Seed.alice Seed.body_cod Seed.db_no_cart
  = (EmptyCart, Seed.db_no_cart).
Proof.
  apply createOrder_empty_cart. left. reflexivity.
Defined.

Lemma validate_inl_failure (products : gmap ObjectId Product.t)
    (items : list Cart.Item) (acc : list Order.Item) (r : Response Order.t) :
  validate products items acc = inl r -> is_failure r = true.
Proof.
  revert acc. induction items as [|item rest IH]; intros acc; simpl; [done|].
  destruct (products !! Cart.product item) as [product|]; [|by intros [= <-]].
  destruct (Product.find_variant _ _ product) as [variant|]; [|by intros [= <-]].
  case_bool_decide; [by intros [= <-]|]. apply IH.
Qed.

Lemma validate_unavailable (products : gmap ObjectId Product.t)
    (items : list Cart.Item) (acc : list Order.Item) :
  Exists (fun item => ¬ line_available products item) items ->
  exists r, validate products items acc = inl r.
Proof.
  revert acc. induction items as [|item rest IH]; intros acc Hex.
  - by apply Exists_nil in Hex.
  - simpl.
    destruct (products !! Cart.product item) as [product|] eqn:Hp; [|eauto].
    destruct (Product.find_variant _ _ product) as [variant|] eqn:Hv; [|eauto].
    case_bool_decide as Hstock; [eauto|].
    apply Exists_cons in Hex as [Hbad|Hex]; [|by apply IH].
    exfalso. apply Hbad. exists product, variant. repeat split; [done..|lia].
Qed.

Lemma validate_available (products : gmap ObjectId Product.t)
    (items : list Cart.Item) (acc : list Order.Item) :
  Forall (line_available products) items ->
  exists l, validate products items acc = inr (acc ++ l) ∧
            Order.quantity <$> l = Cart.quantity <$> items.
Proof.
  revert acc. induction items as [|item rest IH]; intros acc Hall; simpl.
  - exists []. by rewrite app_nil_r.
  - apply Forall_cons in Hall as [(product & variant & -> & -> & Hq) Hall].
    rewrite bool_decide_eq_false_2 by lia.
    destruct (IH (acc ++ [snapshot product item]) Hall) as (l & -> & Hl).
    exists (snapshot product item :: l). rewrite <- app_assoc. split; [done|].
    csimpl. by rewrite Hl.
Qed.

(** A response other than success leaves the database as it was. *)
Lemma createOrder_failure_unchanged (drv : Mongo.Driver) (now : Date)
    (newId u : ObjectId) (body : CheckoutBody) (db : Db.t) :
  is_failure (fst (createOrder drv now newId u body db)) = true ->
  snd (createOrder drv now newId u body db) = db.
Proof.
  unfold createOrder.
  destruct (Db.carts db !! u) as [cart|]; [|done].
  case_bool_decide; [done|].
  destruct (validate _ _ _) as [r|orderItems]; [done|].
  destruct (Order.create _ _ _) as [[order orders']|]; [|done].
  done.
Qed.

(** The first half of C1: a line that fails the stock check makes checkout
    fail, and nothing is written. *)
Lemma createOrder_unavailable (drv : Mongo.Driver) (now : Date)
    (newId u : ObjectId) (body : CheckoutBody) (db : Db.t) (cart : Cart.t) :
  Db.carts db !! u = Some cart ->
  Exists (fun item => ¬ line_available (Db.products db) item) (Cart.items cart) ->
  exists r, createOrder drv now newId u body db = (r, db) ∧ is_failure r = true.
Proof.
  intros Hcart Hex. unfold createOrder. rewrite Hcart.
  case_bool_decide as Hlen.
  - destruct (Cart.items cart); [by apply Exists_nil in Hex|done].
  - destruct (validate_unavailable _ _ [] Hex) as [r Hr]. rewrite Hr.
    exists r. split; [done|]. by apply validate_inl_failure in Hr.
Qed.

Lemma list_find_field {A B} `{EqDecision B} (f : A -> B) (b : B) (l : list A) :
  b ∈ f <$> l -> exists k x, list_find (fun y => f y = b) l = Some (k, x).
Proof.
  intros Hin. apply list_elem_of_fmap in Hin as (x & -> & Hx).
  destruct (list_find_elem_of (fun y => f y = f x) l x Hx eq_refl) as [[k y] Hk].
  eauto.
Qed.

Lemma sizes_alter_inc (d : Z) (k : nat) (l : list Product.Variant) :
  Product.size <$> alter (Product.inc_stock d) k l = Product.size <$> l.
Proof.
  revert k. induction l as [|v l IH]; intros [|k]; csimpl; try done.
  f_equal. apply IH.
Qed.

Lemma colors_alter_inc (d : Z) (k : nat) (l : list Product.Variant) :
  Product.color <$> alter (Product.inc_stock d) k l = Product.color <$> l.
Proof.
  revert k. induction l as [|v l IH]; intros [|k]; csimpl; try done.
  f_equal. apply IH.
Qed.

(** What one stock update does to a product it matches and to the rest. *)
Lemma updateOne_inc_matches (pos : Mongo.Positional) (id : ObjectId)
    (s c : string) (d : Z) (products : gmap ObjectId Product.t) :
  line_matches products id s c ->
  exists (p : Product.t) (k : nat),
    products !! id = Some p ∧
    Product.updateOne_inc pos id s c d products
    = <[id := {| Product._id := Product._id p; Product.name := Product.name p;
                 Product.images := Product.images p;
                 Product.variants :=
                   alter (Product.inc_stock d) k (Product.variants p);
                 Product.totalStock := (Product.totalStock p + d)%Z |}]> products.
Proof.
  intros (p & Hp & Hs & Hc). unfold Product.updateOne_inc. rewrite Hp.
  destruct (list_find_field Product.size s _ Hs) as (i & vi & ->).
  destruct (list_find_field Product.color c _ Hc) as (j & vj & ->).
  destruct pos; eauto.
Qed.

Lemma updateOne_inc_other (pos : Mongo.Positional) (id id' : ObjectId)
    (s c : string) (d : Z) (products : gmap ObjectId Product.t) :
  id ≠ id' ->
  Product.updateOne_inc pos id s c d products !! id' = products !! id'.
Proof.
  intros Hne. unfold Product.updateOne_inc.
  destruct (products !! id) as [p|]; [|done].
  destruct (list_find _ _) as [[i vi]|]; [|done].
  destruct (list_find _ _) as [[j vj]|]; [|done].
  by rewrite lookup_insert_ne.
Qed.

Lemma updateOne_inc_keeps_matches (pos : Mongo.Positional) (id id' : ObjectId)
    (s c s' c' : string) (d : Z) (products : gmap ObjectId Product.t) :
  line_matches products id' s' c' ->
  line_matches (Product.updateOne_inc pos id s c d products) id' s' c'.
Proof.
  intros (p' & Hp' & Hs' & Hc').
  destruct (decide (id = id')) as [->|Hne].
  - unfold Product.updateOne_inc. rewrite Hp'.
    destruct (list_find _ _) as [[i vi]|]; [|by exists p'].
    destruct (list_find _ _) as [[j vj]|]; [|by exists p'].
    eexists. rewrite lookup_insert_eq. split; [done|]. simpl.
    by rewrite sizes_alter_inc, colors_alter_inc.
  - exists p'. by rewrite updateOne_inc_other.
Qed.

Lemma updateOne_inc_totalStock (pos : Mongo.Positional) (id id' : ObjectId)
    (s c : string) (d : Z) (products : gmap ObjectId Product.t) :
  line_matches products id s c ->
  totalStock_of id' (Product.updateOne_inc pos id s c d products)
  = (fun t => if bool_decide (id = id') then (t + d)%Z else t)
      <$> totalStock_of id' products.
Proof.
  intros Hm. unfold totalStock_of. case_bool_decide as Heq.
  - subst id'. destruct (updateOne_inc_matches pos id s c d products Hm)
      as (p & k & Hp & ->).
    by rewrite lookup_insert_eq, Hp.
  - rewrite updateOne_inc_other by done.
    by destruct (products !! id').
Qed.

Lemma available_matches (products : gmap ObjectId Product.t) (item : Cart.Item) :
  line_available products item ->
  line_matches products (Cart.product item)
    (Cart.size (Cart.variant item)) (Cart.color (Cart.variant item)).
Proof.
  intros (p & v & Hp & Hv & _). exists p. split; [done|].
  unfold Product.find_variant in Hv.
  destruct (list_find _ _) as [[k v']|] eqn:Hfind; simplify_eq/=.
  apply list_find_Some in Hfind as (Hk & [<- <-] & _).
  split; apply list_elem_of_fmap; exists v; (split; [done|]);
    apply list_elem_of_lookup; eauto.
Qed.

(** Checkout lowers the aggregate stock of every product by the quantity
    ordered of it, whichever rule the positional operator follows. *)
Lemma reduce_stock_totalStock (pos : Mongo.Positional) (id : ObjectId)
    (items : list Cart.Item) (products : gmap ObjectId Product.t) :
  Forall (fun item => line_matches products (Cart.product item)
            (Cart.size (Cart.variant item)) (Cart.color (Cart.variant item)))
         items ->
  totalStock_of id (reduce_stock pos items products)
  = (fun t => (t - ordered_of id items)%Z) <$> totalStock_of id products.
Proof.
  unfold reduce_stock. revert products.
  induction items as [|item rest IH]; intros products Hall; simpl.
  - destruct (totalStock_of id products); simpl; f_equal; lia.
  - apply Forall_cons in Hall as [Hitem Hrest].
    rewrite IH.
    + rewrite updateOne_inc_totalStock by done.
      destruct (totalStock_of id products); simpl; [|done].
      f_equal. repeat case_bool_decide; lia.
    + eapply Forall_impl; [exact Hrest|]. intros item'.
      apply updateOne_inc_keeps_matches.
Qed.

End CheckoutFacts.

(** ** Properties of the order model *)

Module OrderFacts.
Import JS Order Spec.

Lemma truthy_make_orderNumber (n : nat) (d : Date) :
  truthy (Some (make_orderNumber n d)) = true.
Proof. reflexivity. Qed.

Lemma preSave_assigns (count : nat) (now : Date) (o : t) :
  truthy (orderNumber o) = false ->
  orderNumber (preSave count now o) = Some (make_orderNumber count now).
Proof.
  intros Hno. unfold preSave. rewrite Hno; simpl.
  by destruct (status_modified o).
Qed.

Lemma preSave_keeps (count : nat) (now : Date) (o : t) :
  truthy (orderNumber o) = true ->
  orderNumber (preSave count now o) = orderNumber o.
Proof.
  intros Hyes. unfold preSave. rewrite Hyes; simpl.
  by destruct (status_modified o).
Qed.

Lemma preSave_id (count : nat) (now : Date) (o : t) :
  _id (preSave count now o) = _id o.
Proof.
  unfold preSave.
  destruct (negb (truthy (orderNumber o))); simpl;
    by destruct (status_modified o).
Qed.

(** The history after the hook: one more entry exactly when the status is
    tracked as modified. *)
Lemma preSave_history (count : nat) (now : Date) (o : t) :
  statusHistory (preSave count now o)
  = statusHistory o ++
    (if status_modified o
     then [ {| entry_status := status o; date := now; note := None |} ]
     else []).
Proof.
  unfold preSave.
  destruct (negb (truthy (orderNumber o))); simpl;
    destruct (status_modified o); simpl; by rewrite ?app_nil_r.
Qed.

Lemma preSave_status (count : nat) (now : Date) (o : t) :
  status (preSave count now o) = status o.
Proof.
  unfold preSave.
  destruct (negb (truthy (orderNumber o))); simpl;
    by destruct (status_modified o).
Qed.

Lemma preSave_shipping (count : nat) (now : Date) (o : t) :
  shipping (preSave count now o) = shipping o.
Proof.
  unfold preSave.
  destruct (negb (truthy (orderNumber o))); simpl;
    by destruct (status_modified o).
Qed.

(** *** Saving an order *)

Lemma save_inv (now : Date) (o o' : t) (orders orders' : gmap ObjectId t) :
  save now o orders = Some (o', orders') ->
  o' = set_tracking false (preSave (size orders) now o) ∧
  orders' = <[_id o := o']> orders ∧ number_free o' orders.
Proof.
  unfold save. destruct (negb (validate o)); [done|].
  case_decide as Hfree; [|done].
  intros [= <- <-]. simpl. by rewrite preSave_id.
Qed.

(** A document that is saved had its number before the hook ran, and keeps
    it. *)
Lemma save_validated (now : Date) (o o' : t) (orders orders' : gmap ObjectId t) :
  save now o orders = Some (o', orders') ->
  truthy (orderNumber o) = true ∧ orderNumber o' = orderNumber o.
Proof.
  intros Hsave. pose proof Hsave as (-> & _ & _)%save_inv.
  unfold save, validate in Hsave.
  destruct (truthy (orderNumber o)) eqn:Htruthy; [|done].
  split; [done|]. simpl. by apply preSave_keeps.
Qed.

(** A document without a number fails validation: the save is rejected
    before the hook that would number it. *)
Lemma save_rejected (now : Date) (o : t) (orders : gmap ObjectId t) :
  truthy (orderNumber o) = false -> save now o orders = None.
Proof. intros Hno. unfold save, validate. by rewrite Hno. Qed.

(** So is the creation of the document [createOrder] builds. *)
Lemma create_rejected (drv : Mongo.Driver) (now : Date) (id u : ObjectId)
    (its : list Item) (ship bill : Address) (pay : Payment.t) (pr : Pricing)
    (customer : option string) (orders : gmap ObjectId t) :
  create now (new_document drv id u its ship bill pay pr customer) orders = None.
Proof.
  unfold create. destruct (orders !! _); [done|].
  by apply save_rejected.
Qed.

Lemma wf_truthy (orders : gmap ObjectId t) (id : ObjectId) (o : t) :
  orders_wf orders -> orders !! id = Some o -> truthy (orderNumber o) = true.
Proof. intros Hwf Ho. by destruct (Hwf id o Ho) as (_ & _ & ?). Qed.

(** Writing back a stored order whose [_id] and [orderNumber] were not
    touched always succeeds and keeps the collection well formed. *)
Lemma save_modified (now : Date) (id : ObjectId) (o o1 : t)
    (orders : gmap ObjectId t) :
  orders_wf orders -> numbers_unique orders ->
  orders !! id = Some o ->
  _id o1 = _id o -> orderNumber o1 = orderNumber o ->
  let o2 := set_tracking false (preSave (size orders) now o1) in
  save now o1 orders = Some (o2, <[id := o2]> orders) ∧
  orderNumber o2 = orderNumber o ∧
  orders_wf (<[id := o2]> orders) ∧ numbers_unique (<[id := o2]> orders).
Proof.
  intros Hwf Huniq Ho Hid Hnum o2.
  pose proof (wf_truthy orders id o Hwf Ho) as Htruthy.
  destruct (Hwf id o Ho) as (Hido & _ & _).
  assert (orderNumber o2 = orderNumber o) as Hnum2.
  { unfold o2; simpl. rewrite preSave_keeps; [done|]. by rewrite Hnum. }
  assert (_id o2 = id) as Hid2.
  { unfold o2; simpl. rewrite preSave_id. congruence. }
  assert (number_free o2 orders) as Hfree.
  { intros id' o' Ho'. destruct (decide (id' = _id o2)) as [|Hne]; [by left|].
    right. intros Heq. apply Hne. rewrite Hid2.
    apply (Huniq id' id o' o Ho' Ho). congruence. }
  split; [|split; [done|split]].
  - unfold save, validate. rewrite Hnum, Htruthy. cbn [negb]. fold o2.
    rewrite decide_True by done. by rewrite Hid2.
  - intros id' o' Ho'.
    apply lookup_insert_Some in Ho' as [[<- <-]|[Hne Ho']].
    + split; [done|]. split; [done|]. by rewrite Hnum2.
    + by apply Hwf.
  - intros id1 id2 o1' o2' H1 H2 Heq.
    apply lookup_insert_Some in H1 as [[<- <-]|[Hne1 H1]];
      apply lookup_insert_Some in H2 as [[<- <-]|[Hne2 H2]]; try done.
    + symmetry. apply (Huniq id2 id o2' o H2 Ho). congruence.
    + apply (Huniq id1 id o1' o H1 Ho). congruence.
    + by apply (Huniq id1 id2 o1' o2').
Qed.

End OrderFacts.

(** ** The order collection across requests *)

Module ServerFacts.
Import JS Http Spec OrderFacts.

(** [createOrder] never gets past [Order.create]: whatever the request, it
    answers with a failure and writes nothing. *)
Lemma createOrder_never_writes (drv : Mongo.Driver) (now : Date)
    (newId u : ObjectId) (body : OrderController.CheckoutBody) (db : Db.t) :
  is_failure (fst (OrderController.createOrder drv now newId u body db)) = true ∧
  snd (OrderController.createOrder drv now newId u body db) = db.
Proof.
  unfold OrderController.createOrder.
  destruct (Db.carts db !! u) as [cart|]; [|done].
  case_bool_decide; [done|].
  destruct (OrderController.validate _ _ _) as [r|orderItems] eqn:Hval.
  { split; [|done]. simpl. by eapply CheckoutFacts.validate_inl_failure. }
  by rewrite create_rejected.
Qed.

Lemma createOrder_orders (drv : Mongo.Driver) (now : Date) (newId u : ObjectId)
    (body : OrderController.CheckoutBody) (db : Db.t) :
  orders_inv (Db.orders db) ->
  let db' := snd (OrderController.createOrder drv now newId u body db) in
  orders_change (Db.orders db) (Db.orders db') ∧ orders_inv (Db.orders db').
Proof.
  intros Hinv db'. subst db'.
  rewrite (proj2 (createOrder_never_writes drv now newId u body db)).
  split; [by apply change_none|done].
Qed.

(** The pattern shared by the three requests that load an order, change
    fields other than [_id] and [orderNumber], and save it. *)
Lemma save_stored (now : Date) (id : ObjectId) (o o1 : Order.t)
    (orders : gmap ObjectId Order.t) :
  orders_inv orders -> orders !! id = Some o ->
  Order._id o1 = Order._id o -> Order.orderNumber o1 = Order.orderNumber o ->
  exists o2,
    Order.save now o1 orders = Some (o2, <[id := o2]> orders) ∧
    o2 = Order.set_tracking false (Order.preSave (size orders) now o1) ∧
    orders_change orders (<[id := o2]> orders) ∧
    orders_inv (<[id := o2]> orders).
Proof.
  intros [Hwf Huniq] Ho Hid Hnum.
  destruct (save_modified now id o o1 orders Hwf Huniq Ho Hid Hnum)
    as (Hsave & Hnum2 & Hwf' & Huniq').
  eexists. split; [exact Hsave|]. split; [done|]. split; [|done].
  by eapply change_update.
Qed.

Lemma findOne_Some (id u : ObjectId) (orders : gmap ObjectId Order.t) (o : Order.t) :
  OrderController.findOne id u orders = Some o <->
  orders !! id = Some o ∧ Order.user o = u.
Proof.
  unfold OrderController.findOne. destruct (orders !! id) as [o'|].
  - case_bool_decide as Hu; split.
    + by intros [= ->].
    + by intros [[= ->] _].
    + done.
    + intros [[= ->] Hu']. done.
  - split; [done|]. by intros [? _].
Qed.

Lemma cancel_Some (now : Date) (reason : option string) (by_user : ObjectId)
    (o o1 : Order.t) :
  Order.cancel now reason by_user o = Some o1 <->
  Order.canCancel o = true ∧
  o1 = Order.set_cancellation
         (Some {| Order.reason := reason; Order.cancelledAt := now;
                  Order.cancelledBy := by_user |})
         (Order.assign_status Order.cancelled o).
Proof.
  unfold Order.cancel. destruct (Order.canCancel o); simpl; split.
  - by intros [= <-].
  - by intros [_ ->].
  - done.
  - by intros [? _].
Qed.

Lemma cancelOrder_orders (drv : Mongo.Driver) (now : Date) (u id : ObjectId)
    (reason : option string) (db : Db.t) :
  orders_inv (Db.orders db) ->
  let db' := snd (OrderController.cancelOrder drv now u id reason db) in
  orders_change (Db.orders db) (Db.orders db') ∧ orders_inv (Db.orders db').
Proof.
  intros Hinv. unfold OrderController.cancelOrder.
  destruct (OrderController.findOne id u (Db.orders db)) as [order|] eqn:Hfind;
    [|by split; [apply change_none|]].
  apply findOne_Some in Hfind as [Horder _].
  destruct (Order.canCancel order) eqn:Hcan; simpl;
    [|by split; [apply change_none|]].
  destruct (Order.cancel now reason u order) as [order1|] eqn:Hcancel;
    [|by split; [apply change_none|]].
  apply cancel_Some in Hcancel as [_ ->].
  edestruct (save_stored now id order) as (o2 & -> & _ & Hchange & Hinv');
    [exact Hinv|exact Horder|reflexivity|reflexivity|].
  done.
Qed.

Lemma updateStatus_id_number (now : Date) (s : Order.Status) (note : option string)
    (o : Order.t) :
  Order._id (Order.updateStatus now s note o) = Order._id o ∧
  Order.orderNumber (Order.updateStatus now s note o) = Order.orderNumber o.
Proof. by destruct s. Qed.

Lemma updateOrderStatus_orders (now : Date) (id : ObjectId) (status : Order.Status)
    (note trackingNumber carrier : option string) (db : Db.t) :
  orders_inv (Db.orders db) ->
  let db' := snd (AdminController.updateOrderStatus now id status note
                    trackingNumber carrier db) in
  orders_change (Db.orders db) (Db.orders db') ∧ orders_inv (Db.orders db').
Proof.
  intros Hinv. unfold AdminController.updateOrderStatus.
  destruct (Db.orders db !! id) as [order|] eqn:Horder;
    [|by split; [apply change_none|]].
  destruct (updateStatus_id_number now status note order) as [Hid Hnum].
  edestruct (save_stored now id order) as (o2 & -> & _ & Hchange & Hinv');
    [exact Hinv|exact Horder| | |done]; simpl; done.
Qed.

Lemma updatePaymentStatus_orders (now : Date) (id : ObjectId)
    (status : Payment.Status) (transactionId : option string) (db : Db.t) :
  orders_inv (Db.orders db) ->
  let db' := snd (AdminController.updatePaymentStatus now id status
                    transactionId db) in
  orders_change (Db.orders db) (Db.orders db') ∧ orders_inv (Db.orders db').
Proof.
  intros Hinv. unfold AdminController.updatePaymentStatus.
  destruct (Db.orders db !! id) as [order|] eqn:Horder;
    [|by split; [apply change_none|]].
  edestruct (save_stored now id order) as (o2 & -> & _ & Hchange & Hinv');
    [exact Hinv|exact Horder|reflexivity|reflexivity|done].
Qed.

Lemma step_orders (db db' : Db.t) :
  orders_inv (Db.orders db) -> step db db' ->
  orders_change (Db.orders db) (Db.orders db') ∧ orders_inv (Db.orders db').
Proof.
  intros Hinv Hstep. destruct Hstep.
  - by apply createOrder_orders.
  - by apply cancelOrder_orders.
  - by apply updateOrderStatus_orders.
  - by apply updatePaymentStatus_orders.
  - split; [by apply change_none|done].
Qed.

Lemma steps_inv (db db' : Db.t) :
  orders_inv (Db.orders db) -> rtc step db db' -> orders_inv (Db.orders db').
Proof.
  intros Hinv Hsteps. induction Hsteps as [db|db db1 db2 Hstep _ IH]; [done|].
  apply IH. by apply (step_orders db db1).
Qed.

(** The database with Alice's order is of that shape. *)
Lemma db_order_inv : orders_inv (Db.orders Seed.db_order).
Proof.
  unfold Seed.db_order; simpl. split.
  - intros id o Ho. apply lookup_singleton_Some in Ho as [<- <-]. done.
  - intros id1 id2 o1 o2 H1 H2 _.
    apply lookup_singleton_Some in H1 as [<- _].
    by apply lookup_singleton_Some in H2 as [<- _].
Qed.

(** C8: the pre-save hook gives an order without a number the number
    ORD-yyyymmdd-(count+1 padded to six digits) and leaves an existing
    number alone; but [orderNumber] is required, and Mongoose validates a
    document before it runs the hook.  So the document that [createOrder]
    hands to [Order.create], which has no number, is rejected, as is every
    save of a document without one: no order receives a number at its
    creation, because none is created.  For the orders that are stored,
    a save never changes the number, and every request keeps the stored
    orders, their numbers and the uniqueness of the numbers, and adds no
    order. *)
Theorem orderNumber_required_before_hook :
  (forall (drv : Mongo.Driver) (now : Date) (id u : ObjectId)
          (its : list Order.Item) (ship bill : Order.Address) (pay : Payment.t)
          (pr : Order.Pricing) (customer : option string)
          (orders : gmap ObjectId Order.t),
     Order.orderNumber (Order.new_document drv id u its ship bill pay pr customer)
     = None ∧
     Order.create now (Order.new_document drv id u its ship bill pay pr customer)
       orders = None) ∧
  (forall (now : Date) (o : Order.t) (orders : gmap ObjectId Order.t),
     truthy (Order.orderNumber o) = false -> Order.save now o orders = None) ∧
  (forall (count : nat) (now : Date) (o : Order.t),
     truthy (Order.orderNumber o) = false ->
     Order.orderNumber (Order.preSave count now o)
     = Some ("ORD-" +:+ Order.dateStr now +:+ "-"
             +:+ padStart 6 "0" (String_of_nat (count + 1)))) ∧
  (forall (count : nat) (now : Date) (o : Order.t),
     truthy (Order.orderNumber o) = true ->
     Order.orderNumber (Order.preSave count now o) = Order.orderNumber o) ∧
  (forall (now : Date) (o o' : Order.t) (orders orders' : gmap ObjectId Order.t),
     Order.save now o orders = Some (o', orders') ->
     truthy (Order.orderNumber o) = true ∧
     Order.orderNumber o' = Order.orderNumber o) ∧
  (forall (db db' : Db.t), orders_inv (Db.orders db) -> step db db' ->
     orders_inv (Db.orders db') ∧
     (forall id : ObjectId,
        Db.orders db !! id = None -> Db.orders db' !! id = None) ∧
     (forall (id : ObjectId) (o : Order.t),
        Db.orders db !! id = Some o ->
        exists o', Db.orders db' !! id = Some o' ∧
                   Order.orderNumber o' = Order.orderNumber o)).
Proof.
  split; [|split; [exact save_rejected|split; [exact preSave_assigns|]]].
  { intros. split; [reflexivity|apply create_rejected]. }
  split; [exact preSave_keeps|]. split; [exact save_validated|].
  intros db db' Hinv Hstep.
  destruct (step_orders db db' Hinv Hstep) as [Hchange Hinv'].
  split; [exact Hinv'|].
  destruct Hchange as [->|id0 o0 o2 Ho0 -> Hnum]; [by eauto|]. split.
  - intros id Hnone. rewrite lookup_insert_ne; [done|]. congruence.
  - intros id o Ho. destruct (decide (id0 = id)) as [->|Hne].
    + exists o2. rewrite lookup_insert_eq. split; [done|]. congruence.
    + exists o. by rewrite lookup_insert_ne.
Qed.

End ServerFacts.

(** ** Outcome of checkout *)

Module CheckoutOutcome.
Import JS Http Spec OrderController CheckoutFacts OrderFacts.

(** C9, as amended: on a cart with no items [calculateTotals] yields
    subtotal 0, tax 0, shipping 99 and total 99 - discount; after
    [clearCart], which resets the discount, the total is 99. *)
Theorem empty_cart_totals :
  (forall c : Cart.t, Cart.items c = [] ->
     let c' := Cart.calculateTotals c in
     Cart.subtotal c' = 0 ∧ Cart.tax c' = 0 ∧ Cart.shipping c' = of_int 99 ∧
     Cart.total c' = of_int 99 - Cart.discount c) ∧
  (forall c : Cart.t,
     let c' := Cart.clearCart c in
     Cart.items c' = [] ∧ Cart.discount c' = 0 ∧ Cart.couponCode c' = None ∧
     Cart.subtotal c' = 0 ∧ Cart.tax c' = 0 ∧ Cart.shipping c' = of_int 99 ∧
     Cart.total c' = of_int 99).
Proof.
  split.
  - intros c Hempty.
    destruct (CartFacts.calculateTotals_empty c Hempty) as (_ & H). exact H.
  - intros c. unfold Cart.clearCart.
    destruct (CartFacts.calculateTotals_empty
                (Cart.set_coupon None 0 (Cart.set_items [] c)) eq_refl)
      as (Hi & Hs & Ht & Hsh & Htot).
    repeat split; done.
Qed.

Lemma empty_cart_totals_witness :
  Cart.items Seed.cart_frozen = [] ∧
  Cart.total (Cart.calculateTotals Seed.cart_frozen)
  = of_int 99 - Cart.discount Seed.cart_frozen ∧
  Cart.total (Cart.clearCart Seed.cart_frozen) = of_int 99.
Proof.
  split; [reflexivity|]. split.
  - apply (proj1 empty_cart_totals Seed.cart_frozen). reflexivity.
  - apply (proj2 empty_cart_totals Seed.cart_frozen).
Defined.

(** C9 as stated fails: Alice's cart, emptied by [removeItem] after SAVE20
    was applied to a subtotal of 1000, has no items and a total of -101. *)
Lemma empty_cart_total_not_99 :
  Cart.items Seed.cart_frozen = [] ∧
  Cart.total (Cart.calculateTotals Seed.cart_frozen) = of_int (-101) ∧
  Cart.total (Cart.calculateTotals Seed.cart_frozen) ≠ of_int 99.
Proof.
  split; [reflexivity|]. split.
  - vm_compute. reflexivity.
  - by vm_compute.
Qed.

(** C1: checkout is all-or-nothing only in that it is always nothing.
    Every [createOrder] answers with a failure and leaves products, carts
    and orders as they were; and when the cart has lines and every line
    passes the stock check, the document handed to [Order.create] fails
    validation for want of its order number, the exception is forwarded,
    and the stock loop and [clearCart] are never reached.  So for Alice's
    cart of two pairs of the jeans in L / Black, of which 18 are in stock:
    no order is stored, the stock stays at 18 and the cart keeps its
    line. *)
Theorem checkout_never_completes :
  (forall (drv : Mongo.Driver) (now : Date) (newId u : ObjectId)
          (body : CheckoutBody) (db : Db.t),
     is_failure (fst (createOrder drv now newId u body db)) = true ∧
     snd (createOrder drv now newId u body db) = db) ∧
  (forall (drv : Mongo.Driver) (now : Date) (newId u : ObjectId)
          (body : CheckoutBody) (db : Db.t) (cart : Cart.t),
     Db.carts db !! u = Some cart -> Cart.items cart ≠ [] ->
     Forall (line_available (Db.products db)) (Cart.items cart) ->
     createOrder drv now newId u body db = (next_error, db)) ∧
  (forall pos : Mongo.Positional,
     Db.carts Seed.db0 !! Seed.alice = Some Seed.cart_L_black ∧
     Cart.quantity <$> Cart.items Seed.cart_L_black = [2%Z] ∧
     stock_of Seed.jeans_id "L" "Black" (Db.products Seed.db0) = Some 18%Z ∧
     Forall (line_available (Db.products Seed.db0)) (Cart.items Seed.cart_L_black) ∧
     createOrder (Seed.driver pos) Seed.today Seed.order1_id Seed.alice
       Seed.body_cod Seed.db0
     = (next_error, Seed.db0)).
Proof.
  assert (forall drv now newId u body db cart,
            Db.carts db !! u = Some cart -> Cart.items cart ≠ [] ->
            Forall (line_available (Db.products db)) (Cart.items cart) ->
            createOrder drv now newId u body db = (next_error, db)) as Hvalid.
  { intros drv now newId u body db cart Hcart Hitems Hall. unfold createOrder.
    rewrite Hcart.
    rewrite bool_decide_eq_false_2 by (by destruct (Cart.items cart)).
    destruct (validate_available (Db.products db) (Cart.items cart) [] Hall)
      as (l & -> & _).
    by rewrite create_rejected. }
  split; [exact ServerFacts.createOrder_never_writes|]. split; [exact Hvalid|].
  intros pos.
  assert (Forall (line_available (Db.products Seed.db0))
            (Cart.items Seed.cart_L_black)) as Hall.
  { apply Forall_singleton.
    exists Seed.jeans,
      {| Product.size := "L"; Product.color := "Black";
         Product.sku := "JNS-L-BLK"; Product.stock := 18 |}.
    split; [reflexivity|]. split; [reflexivity|]. simpl. lia. }
  split; [reflexivity|]. split; [reflexivity|]. split; [reflexivity|].
  split; [exact Hall|].
  by apply (Hvalid _ _ _ _ _ _ Seed.cart_L_black).
Qed.

End CheckoutOutcome.

(** ** Status transitions and cancellation *)

Module LifecycleFacts.
Import JS Http Spec OrderController OrderFacts ServerFacts CheckoutFacts.

Lemma updateStatus_fields (now : Date) (s : Order.Status) (note : option string)
    (o : Order.t) :
  let o' := Order.updateStatus now s note o in
  Order.status o' = s ∧
  Order.statusHistory o'
  = Order.statusHistory o ++
    [ {| Order.entry_status := s; Order.date := now; Order.note := note |} ] ∧
  Order.status_modified o'
  = Order.status_modified o || bool_decide (s ≠ Order.status o).
Proof. by destruct s. Qed.

(** Entering [shipped] stamps [shippedAt], entering [delivered] stamps
    [deliveredAt], and no other status touches either. *)
Lemma updateStatus_stamps (now : Date) (s : Order.Status) (note : option string)
    (o : Order.t) :
  let sh := Order.shipping o in
  let sh' := Order.shipping (Order.updateStatus now s note o) in
  Order.shippedAt sh'
  = (if bool_decide (s = Order.shipped) then Some now else Order.shippedAt sh) ∧
  Order.deliveredAt sh'
  = (if bool_decide (s = Order.delivered) then Some now else Order.deliveredAt sh).
Proof. by destruct s. Qed.

(** A status change through [updateStatus] followed by [save] is logged
    twice: once by the method and once by the pre-save hook. *)
Lemma updateStatus_save_history (count : nat) (now now' : Date)
    (s : Order.Status) (note trackingNumber carrier : option string) (o : Order.t) :
  Order.status_modified o = false ->
  Order.statusHistory
    (Order.preSave count now'
       (AdminController.set_tracking_details trackingNumber carrier
          (Order.updateStatus now s note o)))
  = Order.statusHistory o ++
    {| Order.entry_status := s; Order.date := now; Order.note := note |} ::
    (if bool_decide (s ≠ Order.status o)
     then [ {| Order.entry_status := s; Order.date := now'; Order.note := None |} ]
     else []).
Proof.
  intros Htrack. rewrite preSave_history.
  destruct (updateStatus_fields now s note o) as (Hs & Hh & Hm).
  unfold AdminController.set_tracking_details; simpl.
  rewrite Hs, Hh, Hm, Htrack; simpl.
  rewrite <- app_assoc. by case_bool_decide.
Qed.

(** [canCancel] holds in the states pending, confirmed and processing and
    in no other. *)
Lemma canCancel_iff (o : Order.t) :
  Order.canCancel o = true <->
  Order.status o = Order.pending ∨ Order.status o = Order.confirmed ∨
  Order.status o = Order.processing.
Proof.
  unfold Order.canCancel. destruct (Order.status o); vm_compute;
    (split; [intros ?; try done; auto|intros [?|[?|?]]; done]).
Qed.

(** [cancel] followed by [save] is logged once, by the hook. *)
Lemma cancel_save_history (count : nat) (now now' : Date)
    (reason : option string) (u : ObjectId) (o o1 : Order.t) :
  Order.status_modified o = false ->
  Order.cancel now reason u o = Some o1 ->
  Order.statusHistory (Order.preSave count now' o1)
  = Order.statusHistory o ++
    [ {| Order.entry_status := Order.cancelled; Order.date := now';
         Order.note := None |} ].
Proof.
  intros Htrack Hcancel. apply cancel_Some in Hcancel as [Hcan ->].
  rewrite preSave_history; simpl.
  rewrite Htrack; simpl.
  apply canCancel_iff in Hcan.
  rewrite bool_decide_eq_true_2; [done|].
  destruct Hcan as [Hs | [Hs | Hs]]; by rewrite Hs.
Qed.

(** C5: a status transition through [updateOrderStatus] appends two
    entries to the status history, not one.  For an order stored with a
    status other than the requested one, the request succeeds, the saved
    order has the new status, and its history is the old one followed by
    the entry [updateStatus] pushed, with the note, and by the entry the
    pre-save hook pushed because the status was modified; entering
    [shipped] or [delivered] stamps the shipping block. *)
Theorem status_update_logged_twice (now : Date) (id : ObjectId)
    (s : Order.Status) (note trackingNumber carrier : option string)
    (db : Db.t) (o : Order.t)
    (Hdb : orders_inv (Db.orders db)) (Ho : Db.orders db !! id = Some o)
    (Hs : s ≠ Order.status o) :
  exists o' : Order.t,
    AdminController.updateOrderStatus now id s note trackingNumber carrier db
    = (sendSuccess 200 "Order status updated" o',
       {| Db.products := Db.products db; Db.carts := Db.carts db;
          Db.orders := <[id := o']> (Db.orders db) |}) ∧
    Order.status o' = s ∧
    Order.statusHistory o'
    = Order.statusHistory o ++
      [ {| Order.entry_status := s; Order.date := now; Order.note := note |};
        {| Order.entry_status := s; Order.date := now; Order.note := None |} ] ∧
    length (Order.statusHistory o') = (length (Order.statusHistory o) + 2)%nat ∧
    (s = Order.shipped -> Order.shippedAt (Order.shipping o') = Some now) ∧
    (s = Order.delivered -> Order.deliveredAt (Order.shipping o') = Some now).
Proof.
  unfold AdminController.updateOrderStatus. rewrite Ho.
  destruct (updateStatus_id_number now s note o) as [Hid Hnum].
  edestruct (save_stored now id o) as (o2 & -> & Ho2 & _);
    [exact Hdb|exact Ho| | |]; [simpl; exact Hid|simpl; exact Hnum|].
  exists o2. split; [done|].
  assert (Order.status_modified o = false) as Htrack.
  { destruct Hdb as [Hwf _]. by destruct (Hwf id o Ho) as (_ & ? & _). }
  pose proof (updateStatus_save_history (size (Db.orders db)) now now s note
                trackingNumber carrier o Htrack) as Hh.
  rewrite bool_decide_eq_true_2 in Hh by done.
  assert (Order.statusHistory o2
          = Order.statusHistory o ++
            [ {| Order.entry_status := s; Order.date := now; Order.note := note |};
              {| Order.entry_status := s; Order.date := now; Order.note := None |} ])
    as Hh2 by (rewrite Ho2; exact Hh).
  split; [|split; [exact Hh2|split]].
  - rewrite Ho2. simpl. rewrite preSave_status.
    unfold AdminController.set_tracking_details. simpl.
    by destruct (updateStatus_fields now s note o) as (-> & _).
  - rewrite Hh2, length_app. simpl. lia.
  - rewrite Ho2. simpl. rewrite preSave_shipping.
    unfold AdminController.set_tracking_details. simpl.
    destruct (updateStatus_stamps now s note o) as [Hsh Hdl]. simpl in Hsh, Hdl.
    rewrite Hsh, Hdl. split; intros ->; reflexivity.
Qed.

Lemma status_update_logged_twice_witness :
  Db.orders Seed.db_order !! Seed.order1_id = Some Seed.order1 ∧
  Order.status Seed.order1 = Order.pending ∧
  Seed.history_of Seed.db_confirmed
  = Seed.history_of Seed.db_order ++
    [ {| Order.entry_status := Order.confirmed; Order.date := Seed.tomorrow;
         Order.note := Some "Payment verified" |};
      {| Order.entry_status := Order.confirmed; Order.date := Seed.tomorrow;
         Order.note := None |} ].
Proof.
  split; [reflexivity|]. split; [reflexivity|].
  destruct (status_update_logged_twice Seed.tomorrow Seed.order1_id
              Order.confirmed (Some "Payment verified") None None
              Seed.db_order Seed.order1 db_order_inv eq_refl ltac:(done))
    as (o' & Hrun & _ & Hh & _).
  unfold Seed.history_of, Seed.db_confirmed. rewrite Hrun. simpl.
  rewrite lookup_insert_eq. simpl. exact Hh.
Defined.

(** *** Cancellation *)

Lemma cancelOrder_not_found (drv : Mongo.Driver) (now : Date) (u id : ObjectId)
    (reason : option string) (db : Db.t) :
  findOne id u (Db.orders db) = None ->
  cancelOrder drv now u id reason db = (sendNotFound "Order", db).
Proof. intros Hfind. unfold cancelOrder. by rewrite Hfind. Qed.

(** An order outside pending, confirmed and processing is refused with
    OrderNotCancellable, and neither stock nor order is written. *)
Lemma cancelOrder_refused (drv : Mongo.Driver) (now : Date) (u id : ObjectId)
    (reason : option string) (db : Db.t) (order : Order.t) :
  findOne id u (Db.orders db) = Some order ->
  Order.canCancel order = false ->
  cancelOrder drv now u id reason db = (OrderNotCancellable, db).
Proof. intros Hfind Hcan. unfold cancelOrder. by rewrite Hfind, Hcan. Qed.

(** A cancellable order is cancelled: the stored order has status
    [cancelled], the cancellation block, one more history entry, and the
    restore loop has run over its items. *)
Lemma cancelOrder_succeeds (drv : Mongo.Driver) (now : Date) (u id : ObjectId)
    (reason : option string) (db : Db.t) (order : Order.t) :
  orders_inv (Db.orders db) ->
  findOne id u (Db.orders db) = Some order ->
  Order.canCancel order = true ->
  exists order2 : Order.t,
    cancelOrder drv now u id reason db
    = (sendSuccess 200 "Order cancelled successfully" order2,
       {| Db.products :=
            restore_stock (Mongo.positional drv) (Order.items order) (Db.products db);
          Db.carts := Db.carts db;
          Db.orders := <[id := order2]> (Db.orders db) |}) ∧
    Order.status order2 = Order.cancelled ∧
    Order.cancellation order2
    = Some {| Order.reason := reason; Order.cancelledAt := now;
              Order.cancelledBy := u |} ∧
    Order.items order2 = Order.items order ∧
    Order.statusHistory order2
    = Order.statusHistory order ++
      [ {| Order.entry_status := Order.cancelled; Order.date := now;
           Order.note := None |} ] ∧
    Order.pricing order2 = Order.pricing order.
Proof.
  intros Hinv Hfind Hcan. unfold cancelOrder. rewrite Hfind, Hcan; simpl.
  apply findOne_Some in Hfind as [Horder _].
  destruct (Order.cancel now reason u order) as [order1|] eqn:Hcancel;
    [|by unfold Order.cancel in Hcancel; rewrite Hcan in Hcancel].
  assert (Order.status_modified order = false) as Htrack.
  { destruct Hinv as [Hwf _]. by destruct (Hwf id order Horder) as (_ & ? & _). }
  pose proof (cancel_save_history (size (Db.orders db)) now now reason u
                order order1 Htrack Hcancel) as Hhist.
  apply cancel_Some in Hcancel as [_ ->].
  edestruct (save_stored now id order) as (o2 & -> & -> & _ & _);
    [exact Hinv|exact Horder|reflexivity|reflexivity|].
  eexists. split; [reflexivity|].
  split; [|split; [|split; [|split; [exact Hhist|]]]];
    unfold Order.preSave; simpl;
    destruct (negb (truthy (Order.orderNumber order))); simpl;
    by destruct (Order.status_modified order || _).
Qed.

(** For a stored order of the user, cancellation succeeds exactly in the
    states pending, confirmed and processing. *)
Lemma cancelOrder_success_iff (drv : Mongo.Driver) (now : Date) (u id : ObjectId)
    (reason : option string) (db : Db.t) (order : Order.t) :
  orders_inv (Db.orders db) ->
  findOne id u (Db.orders db) = Some order ->
  is_failure (fst (cancelOrder drv now u id reason db)) = false <->
  Order.status order = Order.pending ∨ Order.status order = Order.confirmed ∨
  Order.status order = Order.processing.
Proof.
  intros Hinv Hfind. rewrite <- canCancel_iff.
  destruct (Order.canCancel order) eqn:Hcan.
  - destruct (cancelOrder_succeeds drv now u id reason db order Hinv Hfind Hcan)
      as (order2 & -> & _). done.
  - by rewrite (cancelOrder_refused drv now u id reason db order Hfind Hcan).
Qed.

(** The restore loop raises the aggregate stock of every product by the
    quantity the order holds of it, provided its filters match. *)
Lemma restore_stock_totalStock (pos : Mongo.Positional) (id : ObjectId)
    (items : list Order.Item) (products : gmap ObjectId Product.t) :
  Forall (fun item => line_matches products (Order.product item)
            (Cart.size (Order.variant item)) (Cart.color (Order.variant item)))
         items ->
  totalStock_of id (restore_stock pos items products)
  = (fun t => (t + cancelled_of id items)%Z) <$> totalStock_of id products.
Proof.
  unfold restore_stock. revert products.
  induction items as [|item rest IH]; intros products Hall; simpl.
  - destruct (totalStock_of id products); simpl; f_equal; lia.
  - apply Forall_cons in Hall as [Hitem Hrest].
    rewrite IH.
    + rewrite updateOne_inc_totalStock by done.
      destruct (totalStock_of id products); simpl; [|done].
      f_equal. repeat case_bool_decide; lia.
    + eapply Forall_impl; [exact Hrest|]. intros item'.
      apply updateOne_inc_keeps_matches.
Qed.

(** C3 at Alice's stored order of two pairs of jeans in L / Black: she
    cancels it while it is pending.  The order becomes [cancelled] with its
    cancellation block and the aggregate stock rises from 90 to 92, but
    under either positional rule the stock of L / Black is the same 18
    after the cancellation as before it; the two units go to L / Indigo,
    the first variant of size L, or to M / Black, the first variant in
    Black. *)
Theorem cancel_restores_another_variant :
  (Db.orders Seed.db_order !! Seed.order1_id = Some Seed.order1 ∧
   Order.user Seed.order1 = Seed.alice ∧
   Order.status Seed.order1 = Order.pending ∧
   (Cart.size ∘ Order.variant) <$> Order.items Seed.order1 = ["L"] ∧
   (Cart.color ∘ Order.variant) <$> Order.items Seed.order1 = ["Black"] ∧
   Order.quantity <$> Order.items Seed.order1 = [2%Z]) ∧
  (forall pos : Mongo.Positional,
     exists o : Order.t,
       fst (cancelOrder (Seed.driver pos) Seed.tomorrow Seed.alice
              Seed.order1_id (Some "Ordered by mistake") Seed.db_order)
       = sendSuccess 200 "Order cancelled successfully" o ∧
       Db.orders (Seed.db_cancelled pos) !! Seed.order1_id = Some o ∧
       Order.status o = Order.cancelled ∧
       Order.cancellation o
       = Some {| Order.reason := Some "Ordered by mistake";
                 Order.cancelledAt := Seed.tomorrow;
                 Order.cancelledBy := Seed.alice |} ∧
       totalStock_of Seed.jeans_id (Db.products Seed.db_order) = Some 90%Z ∧
       totalStock_of Seed.jeans_id (Db.products (Seed.db_cancelled pos))
       = Some 92%Z ∧
       stock_of Seed.jeans_id "L" "Black" (Db.products Seed.db_order)
       = Some 18%Z ∧
       stock_of Seed.jeans_id "L" "Black" (Db.products (Seed.db_cancelled pos))
       = Some 18%Z) ∧
  (stock_of Seed.jeans_id "L" "Indigo" (Db.products Seed.db_order) = Some 20%Z ∧
   stock_of Seed.jeans_id "L" "Indigo"
     (Db.products (Seed.db_cancelled Mongo.FirstSizeMatch)) = Some 22%Z) ∧
  (stock_of Seed.jeans_id "M" "Black" (Db.products Seed.db_order) = Some 15%Z ∧
   stock_of Seed.jeans_id "M" "Black"
     (Db.products (Seed.db_cancelled Mongo.FirstColorMatch)) = Some 17%Z).
Proof.
  split; [repeat split; reflexivity|]. split.
  - intros pos. destruct pos; eexists; repeat split; vm_compute; reflexivity.
  - repeat split; vm_compute; reflexivity.
Qed.

End LifecycleFacts.

(** ** Further properties of the cart model *)

Module CartModelFacts.
Import JS Cart Spec CartVirtuals.

Lemma calculateTotals_idem (c : t) :
  calculateTotals (calculateTotals c) = calculateTotals c.
Proof. reflexivity. Qed.

(** X1: the totals stored in a cart never go stale.  Every cart reached
    through the model's methods and the coupon requests is a fixed point of
    [calculateTotals], with one exception: a cart that was created and not
    touched since stores a shipping fee and a total of 0, where a
    recalculation would give 99. *)
Theorem stored_totals_current :
  (forall c : t, cart_reachable c ->
     (exists u, c = create u) ∨ calculateTotals c = c) ∧
  (forall u : ObjectId,
     shipping (create u) = 0 ∧ total (create u) = 0 ∧
     shipping (calculateTotals (create u)) = of_int 99 ∧
     total (calculateTotals (create u)) = of_int 99).
Proof.
  split.
  - induction 1 as [u|m c Hc IH|c Hc IH|code d c Hc IH].
    + left. by exists u.
    + right. destruct m; reflexivity.
    + right. reflexivity.
    + right. reflexivity.
  - intros u. repeat split; apply Qc_is_canon; reflexivity.
Qed.

Lemma pull_absent (itemId : ObjectId) (l : list Item) :
  Forall (fun i => _id i ≠ itemId) l -> pull itemId l = l.
Proof.
  induction 1 as [|i l Hi _ IH]; [done|].
  unfold pull in *. rewrite filter_cons.
  destruct (decide (¬ has_id itemId i)) as [_|Hno]; [by rewrite IH|].
  exfalso. apply Hno. exact Hi.
Qed.

Lemma pull_elem (itemId : ObjectId) (l : list Item) (i : Item) :
  i ∈ pull itemId l <-> i ∈ l ∧ _id i ≠ itemId.
Proof. unfold pull. rewrite list_elem_of_filter. unfold has_id. tauto. Qed.

Lemma pull_pull (itemId : ObjectId) (l : list Item) :
  pull itemId (pull itemId l) = pull itemId l.
Proof.
  apply pull_absent, Forall_forall. intros i Hi.
  by apply pull_elem in Hi as [_ ?].
Qed.

(** X2: [removeItem] takes out every line with the given id and nothing
    else: the remaining lines are the others, in their order; an id that no
    line carries leaves the items as they are; removing twice is removing
    once. *)
Theorem removeItem_removes_exactly (itemId : ObjectId) (c : t) :
  let c' := removeItem itemId c in
  (forall i : Item, i ∈ items c' <-> i ∈ items c ∧ _id i ≠ itemId) ∧
  items c' `sublist_of` items c ∧
  (Forall (fun i => _id i ≠ itemId) (items c) -> items c' = items c) ∧
  removeItem itemId c' = c'.
Proof.
  simpl. split; [apply pull_elem|]. split; [apply sublist_filter|].
  split; [apply pull_absent|].
  unfold removeItem; simpl. by rewrite pull_pull.
Qed.

Lemma find_id_None (itemId : ObjectId) (l : list Item) :
  list_find (has_id itemId) l = None <-> Forall (fun i => _id i ≠ itemId) l.
Proof. apply list_find_None. Qed.

(** X3: [updateItemQuantity] at its edges.  With a quantity of 0 or less
    it removes the lines carrying the id, exactly as [removeItem] does;
    with an id that no line carries it leaves the items alone; with a
    positive quantity it rewrites the quantity of the first line carrying
    the id and leaves every other line, and the number of lines, as they
    were. *)
Theorem updateItemQuantity_cases (itemId : ObjectId) (q : Z) (c : t) :
  ((q ≤ 0)%Z -> updateItemQuantity itemId q c = removeItem itemId c) ∧
  (Forall (fun i => _id i ≠ itemId) (items c) ->
   items (updateItemQuantity itemId q c) = items c) ∧
  (forall (k : nat) (i : Item),
     (0 < q)%Z -> list_find (has_id itemId) (items c) = Some (k, i) ->
     items (updateItemQuantity itemId q c) = <[k := set_quantity q i]> (items c) ∧
     length (items (updateItemQuantity itemId q c)) = length (items c) ∧
     forall j : nat, j ≠ k ->
       items (updateItemQuantity itemId q c) !! j = items c !! j).
Proof.
  split; [|split].
  - intros Hq. unfold updateItemQuantity, removeItem.
    destruct (list_find (has_id itemId) (items c)) as [[k i]|] eqn:Hfind.
    + by rewrite bool_decide_eq_true_2.
    + apply find_id_None in Hfind. by rewrite pull_absent.
  - intros Habsent. apply find_id_None in Habsent.
    unfold updateItemQuantity. by rewrite Habsent.
  - intros k i Hq Hfind. unfold updateItemQuantity. rewrite Hfind.
    rewrite bool_decide_eq_false_2 by lia. simpl.
    apply list_find_Some in Hfind as (Hk & _ & _).
    rewrite (CartFacts.alter_as_insert _ k i _ Hk).
    split; [done|]. split; [by rewrite length_insert|].
    intros j Hj. by rewrite list_lookup_insert_ne.
Qed.

Lemma updateItemQuantity_cases_witness :
  (0 < 5)%Z ∧
  list_find (has_id "650000000000000000000c02") (items Seed.cart_1000)
  = Some (0%nat, Seed.line_500x2) ∧
  items (updateItemQuantity "650000000000000000000c02" 5 Seed.cart_1000)
  = [set_quantity 5 Seed.line_500x2] ∧
  updateItemQuantity "650000000000000000000c02" 0 Seed.cart_1000
  = removeItem "650000000000000000000c02" Seed.cart_1000.
Proof.
  split; [lia|]. split; [reflexivity|]. split.
  - apply (proj2 (proj2 (updateItemQuantity_cases
                           "650000000000000000000c02" 5 Seed.cart_1000))
             0%nat Seed.line_500x2); [lia|reflexivity].
  - apply (proj1 (updateItemQuantity_cases
                    "650000000000000000000c02" 0 Seed.cart_1000)). lia.
Defined.

Lemma count_from (l : list Item) (a : Z) :
  fold_left (fun sum item => (sum + quantity item)%Z) l a
  = (a + fold_left (fun sum item => (sum + quantity item)%Z) l 0)%Z.
Proof.
  revert a. induction l as [|i l IH]; intros a; simpl; [lia|].
  rewrite IH, (IH (0 + quantity i)%Z). lia.
Qed.

Lemma count_cons (i : Item) (l : list Item) (c : t) :
  items c = i :: l ->
  itemCount c = (quantity i + fold_left (fun sum item => (sum + quantity item)%Z) l 0)%Z.
Proof. intros Hc. unfold itemCount. rewrite Hc; simpl. rewrite count_from. lia. Qed.

Lemma count_app (l1 l2 : list Item) :
  fold_left (fun sum item => (sum + quantity item)%Z) (l1 ++ l2) 0%Z
  = (fold_left (fun sum item => (sum + quantity item)%Z) l1 0
     + fold_left (fun sum item => (sum + quantity item)%Z) l2 0)%Z.
Proof. rewrite fold_left_app. by rewrite count_from. Qed.

Lemma count_insert (k : nat) (i i' : Item) (l : list Item) :
  l !! k = Some i ->
  fold_left (fun sum item => (sum + quantity item)%Z) (<[k := i']> l) 0%Z
  = (fold_left (fun sum item => (sum + quantity item)%Z) l 0
     - quantity i + quantity i')%Z.
Proof.
  revert k. induction l as [|x l IH]; intros [|k] Hk; simplify_eq/=.
  - rewrite count_from, (count_from l (0 + quantity i)). lia.
  - rewrite count_from, (count_from l (0 + quantity x)), (IH k Hk). lia.
Qed.

(** X4: adding an item whose quantity arrives as a number of at least 1
    raises the cart's [itemCount] by exactly that quantity, whether the
    item is merged into a line or pushed as a new one, and however the
    request writes the product id. *)
Theorem addItem_itemCount (newItemId : ObjectId) (item : RawCart.Item) (c : t)
    (z : Z) (Hq : RawCart.quantity item = RawCart.Num z) (Hz : (1 ≤ z)%Z) :
  exists c' : t,
    RawCart.addItem newItemId item c = Some c' ∧
    itemCount c' = (itemCount c + z)%Z.
Proof.
  unfold RawCart.addItem. rewrite Hq.
  destruct (list_find (RawCart.same_line item) (items c)) as [[k i]|] eqn:Hfind;
    simpl.
  - rewrite bool_decide_eq_false_2 by lia. simpl.
    eexists. split; [reflexivity|].
    apply list_find_Some in Hfind as (Hk & _ & _).
    unfold itemCount; simpl.
    rewrite (count_insert k i _ _ Hk); simpl. lia.
  - eexists. split; [reflexivity|].
    unfold itemCount; simpl. rewrite count_app; simpl. lia.
Qed.

Lemma addItem_itemCount_witness :
  exists c1 c2 : t,
    RawCart.addItem RawSeed.new_id (RawCart.of_item Seed.line_500x2) Seed.cart_1000
    = Some c1 ∧ itemCount c1 = 4%Z ∧
    RawCart.addItem RawSeed.new_id RawSeed.item_upper Seed.cart_scarf = Some c2 ∧
    itemCount c2 = 3%Z.
Proof.
  destruct (addItem_itemCount RawSeed.new_id (RawCart.of_item Seed.line_500x2)
              Seed.cart_1000 2 eq_refl ltac:(lia)) as (c1 & H1 & Hc1).
  destruct (addItem_itemCount RawSeed.new_id RawSeed.item_upper
              Seed.cart_scarf 1 eq_refl ltac:(lia)) as (c2 & H2 & Hc2).
  exists c1, c2. split; [exact H1|]. split; [exact Hc1|].
  split; [exact H2|exact Hc2].
Defined.

Lemma count_positive (l : list Item) :
  Forall (fun i => (1 ≤ quantity i)%Z) l ->
  (Z.of_nat (length l)
   ≤ fold_left (fun sum item => (sum + quantity item)%Z) l 0)%Z.
Proof.
  induction 1 as [|i l Hi _ IH]; simpl; [lia|].
  rewrite count_from. lia.
Qed.

Lemma Forall_pull (P : Item -> Prop) (itemId : ObjectId) (l : list Item) :
  Forall P l -> Forall P (pull itemId l).
Proof.
  rewrite !Forall_forall. intros Hl i Hi.
  apply pull_elem in Hi as [Hi _]. by apply Hl.
Qed.

(** X5: no method leaves a line with a quantity below 1 behind.  If every
    line of a cart has a quantity of at least 1, the same holds after
    [updateItemQuantity] with any quantity, after [removeItem], and after
    [addItem] of an item whose own quantity is at least 1; in such a cart
    [itemCount] is at least the number of lines, so that it is 0 exactly
    when [isEmpty] holds. *)
Theorem quantities_stay_positive (m : Mutation) (c : t)
    (Hc : Forall (fun i => (1 ≤ quantity i)%Z) (items c))
    (Hm : forall item, m = AddItem item -> (1 ≤ quantity item)%Z) :
  Forall (fun i => (1 ≤ quantity i)%Z) (items (mutate m c)) ∧
  (Z.of_nat (length (items (mutate m c))) ≤ itemCount (mutate m c))%Z ∧
  (isEmpty (mutate m c) = true <-> itemCount (mutate m c) = 0%Z).
Proof.
  assert (Forall (fun i => (1 ≤ quantity i)%Z) (items (mutate m c))) as Hall.
  { destruct m as [item|itemId q|itemId]; simpl.
    - specialize (Hm item eq_refl).
      destruct (list_find (same_line item) (items c)) as [[k i]|] eqn:Hfind.
      + apply Forall_alter; [done|]. intros i' Hi'; simpl.
        rewrite CartFacts.or_else_positive by done.
        rewrite Forall_lookup in Hc. specialize (Hc k i' Hi'). simpl in Hc. lia.
      + apply Forall_app. split; [done|]. by apply Forall_singleton.
    - destruct (list_find (has_id itemId) (items c)) as [[k i]|]; [|done].
      case_bool_decide.
      + by apply Forall_pull.
      + apply Forall_alter; [done|]. intros i' _; simpl. lia.
    - by apply Forall_pull. }
  pose proof (count_positive _ Hall) as Hcount.
  split; [done|]. split; [done|].
  unfold isEmpty, itemCount in *. case_bool_decide as Hlen; split; try done.
  - intros _. destruct (items (mutate m c)); [done|discriminate].
  - intros Hzero. lia.
Qed.

Lemma quantities_stay_positive_witness :
  Forall (fun i => (1 ≤ quantity i)%Z) (items Seed.cart_1000) ∧
  Forall (fun i => (1 ≤ quantity i)%Z)
    (items (mutate (UpdateItemQuantity "650000000000000000000c02" (-3))
              Seed.cart_1000)) ∧
  isEmpty (mutate (UpdateItemQuantity "650000000000000000000c02" (-3))
             Seed.cart_1000) = true.
Proof.
  assert (Forall (fun i => (1 ≤ quantity i)%Z) (items Seed.cart_1000)) as Hc.
  { apply Forall_singleton. done. }
  split; [exact Hc|].
  destruct (quantities_stay_positive
              (UpdateItemQuantity "650000000000000000000c02" (-3))
              Seed.cart_1000 Hc ltac:(intros item [=])) as (Hall & _ & _).
  split; [exact Hall|reflexivity].
Defined.

End CartModelFacts.

(** ** Properties of the remaining cart requests *)

Module CartRequestFacts.
Import JS Http Cart Spec CartVirtuals CartRequests CartController.

Lemma set_carts_same (db : Db.t) : Db.set_carts (Db.carts db) db = db.
Proof. by destruct db. Qed.

Lemma save_cart_same (u : ObjectId) (c : Cart.t) (db : Db.t) :
  Db.carts db !! u = Some c -> Db.save_cart u c db = db.
Proof.
  intros Hc. unfold Db.save_cart. rewrite insert_id by done.
  apply set_carts_same.
Qed.

(** X6: [getCart] creates the user's cart on first use and never again.
    It always answers with the cart stored for the user afterwards; a cart
    that exists is returned as it is and nothing is written; a missing one
    is created empty; the carts of other users, the products and the orders
    are not touched; and a second call changes nothing further. *)
Theorem getCart_creates_once (u : ObjectId) (db : Db.t) :
  let r := getCart u db in
  (exists cart : Cart.t,
     fst r = sendSuccess 200 "Cart retrieved successfully" cart ∧
     Db.carts (snd r) !! u = Some cart ∧
     (Db.carts db !! u = None -> cart = Cart.create u) ∧
     (forall c0, Db.carts db !! u = Some c0 -> cart = c0 ∧ snd r = db)) ∧
  (forall v : ObjectId, v ≠ u -> Db.carts (snd r) !! v = Db.carts db !! v) ∧
  Db.products (snd r) = Db.products db ∧ Db.orders (snd r) = Db.orders db ∧
  getCart u (snd r) = r.
Proof.
  unfold getCart, getOrCreateCart.
  destruct (Db.carts db !! u) as [c0|] eqn:Hc; simpl.
  - split; [|split; [done|split; [done|split; [done|]]]].
    + exists c0. rewrite set_carts_same. split; [done|]. split; [done|].
      split; [done|]. by intros ? [= ->].
    + rewrite !set_carts_same, Hc. simpl. by rewrite set_carts_same.
  - split; [|split; [|split; [done|split; [done|]]]].
    + exists (Cart.create u). rewrite lookup_insert_eq. done.
    + intros v Hv. by rewrite lookup_insert_ne.
    + rewrite lookup_insert_eq. simpl. unfold Db.set_carts; simpl.
      reflexivity.
Qed.

Lemma check_stock_not_growing (products : gmap ObjectId Product.t)
    (item : Cart.Item) (q : Z) :
  (q ≤ quantity item)%Z -> check_stock products item q = None.
Proof. intros Hq. unfold check_stock. by rewrite bool_decide_eq_false_2 by lia. Qed.

Lemma check_stock_growing (products : gmap ObjectId Product.t)
    (item : Cart.Item) (q : Z) :
  (quantity item < q)%Z ->
  check_stock products item q = None <->
  exists (p : Product.t) (v : Product.Variant),
    products !! product item = Some p ∧
    Product.find_variant (size (variant item)) (color (variant item)) p = Some v ∧
    (q ≤ Product.stock v)%Z.
Proof.
  intros Hq. unfold check_stock. rewrite bool_decide_eq_true_2 by done.
  destruct (products !! product item) as [p|] eqn:Hp.
  - destruct (Product.find_variant _ _ p) as [v|] eqn:Hv.
    + case_bool_decide as Hstock; split; try done.
      * intros (p' & v' & [= <-] & Hv' & Hle). rewrite Hv in Hv'.
        injection Hv' as <-. lia.
      * intros _. exists p, v. repeat split; [done|lia].
    + split; [done|]. intros (p' & v' & [= <-] & Hv' & _). congruence.
  - split; [done|]. by intros (p' & v' & ? & _).
Qed.

Lemma check_stock_failure (products : gmap ObjectId Product.t)
    (item : Cart.Item) (q : Z) (r : Response Cart.t) :
  check_stock products item q = Some r -> is_failure r = true.
Proof.
  unfold check_stock. case_bool_decide; [|done].
  destruct (products !! product item) as [p|]; [|by intros [= <-]].
  destruct (Product.find_variant _ _ p) as [v|]; [|by intros [= <-]].
  case_bool_decide; [by intros [= <-]|done].
Qed.

(** X7: [updateCartItem] consults the stock only when the quantity grows.
    A request that fails writes nothing.  For a line of the user's cart, a
    quantity that does not exceed the line's current one is accepted
    whatever the catalogue holds, even when the product is gone; a larger
    one is accepted exactly when the product still has the line's variant
    with a stock of at least the new quantity. *)
Theorem updateCartItem_stock_check (u itemId : ObjectId) (q : Z) (db : Db.t) :
  (is_failure (fst (updateCartItem u itemId q db)) = true ->
   snd (updateCartItem u itemId q db) = db) ∧
  (forall (cart : Cart.t) (k : nat) (item : Cart.Item),
     Db.carts db !! u = Some cart ->
     list_find (has_id itemId) (items cart) = Some (k, item) ->
     ((q ≤ quantity item)%Z ->
      updateCartItem u itemId q db
      = (sendSuccess 200 "Cart updated" (updateItemQuantity itemId q cart),
         Db.save_cart u (updateItemQuantity itemId q cart) db)) ∧
     ((quantity item < q)%Z ->
      is_failure (fst (updateCartItem u itemId q db)) = false <->
      exists (p : Product.t) (v : Product.Variant),
        Db.products db !! product item = Some p ∧
        Product.find_variant (size (variant item)) (color (variant item)) p
        = Some v ∧
        (q ≤ Product.stock v)%Z)).
Proof.
  split.
  - unfold updateCartItem.
    destruct (Db.carts db !! u) as [cart|]; [|done].
    destruct (list_find _ _) as [[k item]|]; [|done].
    destruct (check_stock _ _ _) as [r|] eqn:Hcheck; [done|].
    simpl. done.
  - intros cart k item Hcart Hfind. unfold updateCartItem.
    rewrite Hcart, Hfind. split.
    + intros Hq. by rewrite check_stock_not_growing.
    + intros Hq. rewrite <- (check_stock_growing _ _ _ Hq).
      destruct (check_stock (Db.products db) item q) as [r|] eqn:Hcheck; simpl.
      * apply check_stock_failure in Hcheck. rewrite Hcheck. done.
      * done.
Qed.

Lemma updateCartItem_stock_check_witness :
  Db.carts Seed.db0 !! Seed.alice = Some Seed.cart_L_black ∧
  list_find (has_id "650000000000000000000c01") (items Seed.cart_L_black)
  = Some (0%nat, Seed.line_L_black) ∧
  (1 ≤ quantity Seed.line_L_black)%Z ∧
  (quantity Seed.line_L_black < 19)%Z ∧
  is_failure
    (fst (updateCartItem Seed.alice "650000000000000000000c01" 1 Seed.db0))
  = false ∧
  ¬ (is_failure
       (fst (updateCartItem Seed.alice "650000000000000000000c01" 19 Seed.db0))
     = false).
Proof.
  assert (Db.carts Seed.db0 !! Seed.alice = Some Seed.cart_L_black) as Hcart
    by reflexivity.
  assert (list_find (has_id "650000000000000000000c01") (items Seed.cart_L_black)
          = Some (0%nat, Seed.line_L_black)) as Hfind by reflexivity.
  split; [exact Hcart|]. split; [exact Hfind|]. split; [done|]. split; [done|].
  split.
  - rewrite (proj1 (proj2 (updateCartItem_stock_check
                             Seed.alice "650000000000000000000c01" 1 Seed.db0)
                      Seed.cart_L_black 0%nat Seed.line_L_black Hcart Hfind)
               ltac:(done)).
    reflexivity.
  - intros Hok.
    apply (proj2 (proj2 (updateCartItem_stock_check
                           Seed.alice "650000000000000000000c01" 19 Seed.db0)
                    Seed.cart_L_black 0%nat Seed.line_L_black Hcart Hfind)
             ltac:(done)) in Hok.
    destruct Hok as (p & v & Hp & Hv & Hle).
    vm_compute in Hp. injection Hp as <-.
    vm_compute in Hv. injection Hv as <-. simpl in Hle. lia.
Defined.

(** X8: [removeFromCart] succeeds exactly when the user has a cart with a
    line of that id.  A failing request writes nothing; a successful one
    leaves no line with that id in the user's cart, and leaves the carts of
    other users, the products and the orders alone. *)
Theorem removeFromCart_effect (u itemId : ObjectId) (db : Db.t) :
  let r := removeFromCart u itemId db in
  (is_failure (fst r) = false <->
   exists cart : Cart.t,
     Db.carts db !! u = Some cart ∧ Exists (has_id itemId) (items cart)) ∧
  (is_failure (fst r) = true -> snd r = db) ∧
  (is_failure (fst r) = false ->
   exists cart' : Cart.t,
     Db.carts (snd r) !! u = Some cart' ∧
     Forall (fun i => _id i ≠ itemId) (items cart') ∧
     (forall v : ObjectId, v ≠ u -> Db.carts (snd r) !! v = Db.carts db !! v) ∧
     Db.products (snd r) = Db.products db ∧ Db.orders (snd r) = Db.orders db).
Proof.
  unfold removeFromCart.
  destruct (Db.carts db !! u) as [cart|] eqn:Hcart; simpl.
  - destruct (list_find (has_id itemId) (items cart)) as [[k i]|] eqn:Hfind; simpl.
    + split; [|split; [done|]].
      * split; [|done]. intros _. exists cart. split; [done|].
        apply list_find_Some in Hfind as (Hk & Hid & _).
        apply Exists_exists. exists i. split; [|done].
        apply list_elem_of_lookup. eauto.
      * intros _. eexists. rewrite lookup_insert_eq. split; [done|].
        split; [|split; [|done]].
        -- apply Forall_forall. intros j Hj.
           by apply CartModelFacts.pull_elem in Hj as [_ ?].
        -- intros v Hv. by rewrite lookup_insert_ne.
    + split; [|split; [done|done]]. split; [done|].
      intros (cart' & [= <-] & Hex). apply list_find_None in Hfind.
      apply Exists_exists in Hex as (i & Hi & Hid).
      rewrite Forall_forall in Hfind. exfalso. by apply (Hfind i Hi).
  - split; [|split; [done|done]]. split; [done|]. by intros (cart' & ? & _).
Qed.

Lemma set_coupon_same (c : Cart.t) :
  discount c = 0 -> couponCode c = None -> set_coupon None 0 c = c.
Proof. destruct c; simpl. by intros -> ->. Qed.

(** X9: [removeCoupon] undoes [applyCoupon].  After [removeCoupon] the
    user's cart has no coupon, a discount of 0 and a total of subtotal +
    tax + shipping; and if a coupon from the table is applied to a cart
    that had none and whose stored totals were current, removing it again
    gives back the database as it was. *)
Theorem removeCoupon_undoes_applyCoupon (u : ObjectId) (db : Db.t) (cart : Cart.t)
    (Hcart : Db.carts db !! u = Some cart) :
  (exists cart' : Cart.t,
     removeCoupon u db = (sendSuccess 200 "Coupon removed" cart', Db.save_cart u cart' db) ∧
     couponCode cart' = None ∧ discount cart' = 0 ∧ items cart' = items cart ∧
     total cart' = subtotal cart' + tax cart' + shipping cart') ∧
  (forall code : string,
     is_Some (validCoupons !! toUpperCase code) ->
     calculateTotals cart = cart -> discount cart = 0 -> couponCode cart = None ->
     snd (removeCoupon u (snd (applyCoupon u code db))) = db).
Proof.
  split.
  - unfold removeCoupon. rewrite Hcart. eexists. split; [reflexivity|].
    repeat split; simpl; ring.
  - intros code [pct Hpct] Hcur Hd Hcode.
    destruct (CartControllerFacts.applyCoupon_accepts u code db cart pct Hcart Hpct)
      as (msg & cart' & Hrun & _).
    pose proof Hrun as Hrun'. unfold applyCoupon in Hrun'.
    rewrite Hcart, Hpct in Hrun'.
    destruct (bool_decide (pct = 0%Z)); [done|].
    injection Hrun' as _ Hcart' _.
    rewrite Hrun; simpl. unfold removeCoupon, Db.save_cart, Db.set_carts; simpl.
    rewrite lookup_insert_eq; simpl. rewrite insert_insert_eq.
    assert (calculateTotals (set_coupon None 0 cart')
            = calculateTotals (set_coupon None 0 cart)) as ->
      by (rewrite <- Hcart'; reflexivity).
    rewrite (set_coupon_same cart Hd Hcode), Hcur.
    rewrite insert_id by done. by destruct db.
Qed.

Lemma removeCoupon_undoes_applyCoupon_witness :
  Db.carts Seed.db_1000 !! Seed.alice = Some Seed.cart_1000 ∧
  is_Some (validCoupons !! toUpperCase "SAVE20") ∧
  calculateTotals Seed.cart_1000 = Seed.cart_1000 ∧
  snd (removeCoupon Seed.alice
         (snd (applyCoupon Seed.alice "SAVE20" Seed.db_1000)))
  = Seed.db_1000.
Proof.
  assert (Db.carts Seed.db_1000 !! Seed.alice = Some Seed.cart_1000) as Hcart
    by reflexivity.
  assert (is_Some (validCoupons !! toUpperCase "SAVE20")) as Hcode
    by (exists 20%Z; reflexivity).
  split; [exact Hcart|]. split; [exact Hcode|]. split; [reflexivity|].
  exact (proj2 (removeCoupon_undoes_applyCoupon Seed.alice Seed.db_1000
                  Seed.cart_1000 Hcart)
           "SAVE20" Hcode eq_refl eq_refl eq_refl).
Defined.

End CartRequestFacts.

(** ** Properties of the pagination helpers *)

Module PaginationFacts.
Import JS Pagination.

(** X10: for a parsed page of at most 2^46, so that every number involved
    is an integer a double holds exactly, [parsePaginationParams] yields a
    page of at least 1, a limit between 1 and 100 and a skip that is not
    negative, with skip + limit = page * limit.  The page is the parsed
    number raised to 1, and 1 when the text is no number; the limit is the
    parsed number clamped to 1..100, except that a limit of 0, like a text
    that is no number, falls back to 10 rather than to 1. *)
Theorem parsePaginationParams_bounds (parsedPage parsedLimit : option Z)
    (Hpage : forall n : Z, parsedPage = Some n -> (n ≤ 2 ^ 46)%Z) :
  let p := parsePaginationParams parsedPage parsedLimit in
  (1 ≤ page p)%Z ∧ (1 ≤ limit p ≤ 100)%Z ∧ (0 ≤ skip p)%Z ∧
  (skip p + limit p = page p * limit p)%Z ∧
  (page p * limit p < 2 ^ 53)%Z ∧
  page p = match parsedPage with Some n => Z.max 1 n | None => 1%Z end ∧
  limit p = match parsedLimit with
            | Some 0%Z | None => 10%Z
            | Some n => Z.min 100 (Z.max 1 n)
            end.
Proof.
  assert (page (parsePaginationParams parsedPage parsedLimit)
          = match parsedPage with Some n => Z.max 1 n | None => 1%Z end) as Hp.
  { unfold parsePaginationParams; simpl.
    destruct parsedPage as [n|]; simpl; [|done].
    unfold or_else. case_bool_decide; lia. }
  assert (page (parsePaginationParams parsedPage parsedLimit) ≤ 2 ^ 46)%Z as Hle.
  { rewrite Hp. destruct parsedPage as [n|]; [|lia].
    specialize (Hpage n eq_refl). lia. }
  split; [unfold parsePaginationParams; simpl; lia|].
  split; [unfold parsePaginationParams; simpl; lia|].
  split; [unfold parsePaginationParams; simpl; nia|].
  split; [unfold parsePaginationParams; simpl; lia|].
  split; [|split; [exact Hp|]].
  - assert (1 ≤ limit (parsePaginationParams parsedPage parsedLimit) ≤ 100)%Z
      as Hl by (unfold parsePaginationParams; simpl; lia).
    assert (1 ≤ page (parsePaginationParams parsedPage parsedLimit))%Z
      as H1 by (unfold parsePaginationParams; simpl; lia).
    nia.
  - unfold parsePaginationParams; simpl.
    destruct parsedLimit as [[|n|n]|]; simpl; done.
Qed.

Lemma parsePaginationParams_bounds_witness :
  page (parsePaginationParams (Some 3%Z) (Some 500%Z)) = 3%Z ∧
  limit (parsePaginationParams (Some 3%Z) (Some 500%Z)) = 100%Z ∧
  skip (parsePaginationParams (Some 3%Z) (Some 500%Z)) = 200%Z.
Proof.
  destruct (parsePaginationParams_bounds (Some 3%Z) (Some 500%Z))
    as (_ & _ & _ & Hskip & _ & Hp & Hl).
  - intros n [= <-]. lia.
  - split; [exact Hp|]. split; [exact Hl|].
    cbv zeta in Hskip, Hp, Hl. rewrite Hp, Hl in Hskip.
    change (Z.min 100 (Z.max 1 500)) with 100%Z in Hskip.
    change (Z.max 1 3) with 3%Z in Hskip. lia.
Defined.

Lemma ceiling_bounds (T L : Z) :
  (1 ≤ L)%Z ->
  ((Qceiling (inject_Z T / inject_Z L) - 1) * L < T
   ≤ Qceiling (inject_Z T / inject_Z L) * L)%Z.
Proof.
  intros HL. destruct L as [|p|p]; try lia.
  unfold Qceiling, Qfloor, Qdiv, Qinv, Qmult, Qopp, inject_Z; simpl.
  rewrite Z.mul_1_r, Pos.mul_1_l.
  pose proof (Z.div_mod (- T) (Z.pos p) ltac:(lia)) as H.
  pose proof (Z.mod_pos_bound (- T) (Z.pos p) ltac:(lia)) as H'.
  nia.
Qed.

(** X11: for a limit of at least 1, a total below 2^53 and a page between
    -2^53 and 2^53, the range in which doubles hold integers exactly,
    [calculatePagination] reports the least number of pages that hold all
    items, (totalItems + limit - 1) div limit; a next page exactly when
    items lie beyond the current page, page * limit < totalItems, and then
    it is page + 1; a previous page exactly when the page is beyond the
    first, and then it is page - 1.  Nothing bounds the page by the number
    of pages. *)
Theorem calculatePagination_pages (total page limit : Z)
    (Hl : (1 ≤ limit)%Z) (Ht : (0 ≤ total < 2 ^ 53)%Z)
    (Hp : (- 2 ^ 53 ≤ page ≤ 2 ^ 53)%Z) :
  let m := calculatePagination total page limit in
  ((totalPages m - 1) * limit < total ≤ totalPages m * limit)%Z ∧
  totalPages m = ((total + limit - 1) `div` limit)%Z ∧
  (0 ≤ totalPages m ≤ total)%Z ∧
  (hasNextPage m = true <-> (page * limit < total)%Z) ∧
  nextPage m = (if hasNextPage m then Some (page + 1)%Z else None) ∧
  (hasPrevPage m = true <-> (1 < page)%Z) ∧
  prevPage m = (if hasPrevPage m then Some (page - 1)%Z else None).
Proof.
  pose proof (ceiling_bounds total limit Hl) as Hc.
  unfold calculatePagination; simpl.
  set (c := Qceiling (inject_Z total / inject_Z limit)) in *.
  split; [exact Hc|]. split; [|split; [|split; [|split; [done|split; [|done]]]]].
  - apply (Z.div_unique _ _ _ (total + limit - 1 - c * limit)%Z); lia.
  - nia.
  - rewrite bool_decide_eq_true. split; intros H; nia.
  - by rewrite bool_decide_eq_true.
Qed.

Lemma calculatePagination_pages_witness :
  (1 ≤ 10)%Z ∧
  totalPages (calculatePagination 25 3 10) = 3%Z ∧
  (hasNextPage (calculatePagination 25 3 10) = true <-> (3 * 10 < 25)%Z).
Proof.
  split; [lia|].
  pose proof (calculatePagination_pages 25 3 10 ltac:(lia) ltac:(lia) ltac:(lia))
    as H.
  split; [by rewrite (proj1 (proj2 H))|exact (proj1 (proj2 (proj2 (proj2 H))))].
Defined.

End PaginationFacts.

(** ** Properties of the requests that read orders *)

Module OrderQueryFacts.
Import JS Http Spec Invariants OrderController OrderQueries ServerFacts.

Lemma findOne_by_number_inv (n : string) (u : ObjectId)
    (orders : gmap ObjectId Order.t) (o : Order.t) :
  findOne_by_number n u orders = Some o ->
  exists id, orders !! id = Some o ∧ Order.orderNumber o = Some n ∧ Order.user o = u.
Proof.
  unfold findOne_by_number.
  destruct (list_find _ _) as [[k [id o']]|] eqn:Hfind; [|done].
  intros [= <-]. apply list_find_Some in Hfind as (Hk & [Hn Hu] & _).
  exists id. split; [|done].
  apply elem_of_map_to_list, list_elem_of_lookup. eauto.
Qed.

Lemma findOne_by_number_stored (n : string) (u id : ObjectId)
    (orders : gmap ObjectId Order.t) (o : Order.t) :
  numbers_unique orders -> orders !! id = Some o ->
  Order.orderNumber o = Some n -> Order.user o = u ->
  findOne_by_number n u orders = Some o.
Proof.
  intros Huniq Ho Hn Hu.
  destruct (findOne_by_number n u orders) as [o'|] eqn:Hfind.
  - apply findOne_by_number_inv in Hfind as (id' & Ho' & Hn' & _).
    assert (id' = id) as -> by (apply (Huniq id' id o' o Ho' Ho); congruence).
    congruence.
  - unfold findOne_by_number in Hfind.
    destruct (list_find _ _) as [r|] eqn:Hnone; [done|].
    apply list_find_None in Hnone. rewrite Forall_forall in Hnone.
    exfalso. apply (Hnone (id, o)); [by apply elem_of_map_to_list|done].
Qed.

(** X12: the order requests of a user never reach another user's order.
    A successful [getOrder] answers with a stored order of the requesting
    user, found by its number when the parameter starts with ORD- and by
    its id otherwise; a successful [trackOrder] shows the number, status,
    shipping block and history of the user's order stored under the id; and
    when the order under the id belongs to someone else, [trackOrder],
    [getOrder] and [cancelOrder] answer as if it did not exist and
    [cancelOrder] writes nothing. *)
Theorem order_requests_owner_scoped (u id : ObjectId) (db : Db.t) :
  (is_failure (getOrder u id db) = false ->
   exists (k : ObjectId) (o : Order.t),
     getOrder u id db = sendSuccess 200 "Order retrieved" o ∧
     Db.orders db !! k = Some o ∧ Order.user o = u ∧
     if String.prefix "ORD-" id then Order.orderNumber o = Some id else k = id) ∧
  (is_failure (trackOrder u id db) = false ->
   exists o : Order.t,
     Db.orders db !! id = Some o ∧ Order.user o = u ∧
     trackOrder u id db
     = sendSuccess 200 "Order tracking info"
         {| orderNumber := Order.orderNumber o; status := Order.status o;
            shipping := Order.shipping o; timeline := Order.statusHistory o |}) ∧
  (forall o : Order.t,
     Db.orders db !! id = Some o -> Order.user o ≠ u ->
     trackOrder u id db = sendNotFound "Order" ∧
     (String.prefix "ORD-" id = false -> getOrder u id db = sendNotFound "Order") ∧
     forall (drv : Mongo.Driver) (now : Date) (reason : option string),
       cancelOrder drv now u id reason db = (sendNotFound "Order", db)).
Proof.
  split; [|split].
  - unfold getOrder. destruct (String.prefix "ORD-" id) eqn:Hprefix.
    + destruct (findOne_by_number id u (Db.orders db)) as [o|] eqn:Hfind; [|done].
      intros _. apply findOne_by_number_inv in Hfind as (k & Hk & Hn & Hu).
      by exists k, o.
    + destruct (findOne id u (Db.orders db)) as [o|] eqn:Hfind; [|done].
      intros _. apply findOne_Some in Hfind as [Ho Hu]. by exists id, o.
  - unfold trackOrder.
    destruct (findOne id u (Db.orders db)) as [o|] eqn:Hfind; [|done].
    intros _. apply findOne_Some in Hfind as [Ho Hu]. by exists o.
  - intros o Ho Hu.
    assert (findOne id u (Db.orders db) = None) as Hnone.
    { unfold findOne. rewrite Ho. by rewrite bool_decide_eq_false_2. }
    split; [|split].
    + unfold trackOrder. by rewrite Hnone.
    + intros Hprefix. unfold getOrder. by rewrite Hprefix, Hnone.
    + intros drv now reason. unfold cancelOrder. by rewrite Hnone.
Qed.

(** X13: where no two stored orders share a number, an order of a user
    can be fetched by that user both ways: [getOrder] with the order's
    number returns it, provided the number starts with ORD-, and so does
    [getOrder] with its id, provided the id does not itself start with
    ORD-. *)
Theorem getOrder_by_id_and_number (u id : ObjectId) (db : Db.t) (o : Order.t)
    (Huniq : numbers_unique (Db.orders db)) (Ho : Db.orders db !! id = Some o)
    (Hu : Order.user o = u) :
  (forall n : string,
     Order.orderNumber o = Some n -> String.prefix "ORD-" n = true ->
     getOrder u n db = sendSuccess 200 "Order retrieved" o) ∧
  (String.prefix "ORD-" id = false ->
   getOrder u id db = sendSuccess 200 "Order retrieved" o).
Proof.
  split.
  - intros n Hn Hprefix. unfold getOrder. rewrite Hprefix.
    by rewrite (findOne_by_number_stored _ u id (Db.orders db) o Huniq Ho Hn Hu).
  - intros Hprefix. unfold getOrder. rewrite Hprefix.
    by rewrite (proj2 (findOne_Some id u (Db.orders db) o) (conj Ho Hu)).
Qed.

Lemma getOrder_by_id_and_number_witness :
  Db.orders Seed.db_order !! Seed.order1_id = Some Seed.order1 ∧
  Order.user Seed.order1 = Seed.alice ∧
  getOrder Seed.alice "ORD-20240115-000001" Seed.db_order
  = sendSuccess 200 "Order retrieved" Seed.order1 ∧
  getOrder Seed.alice Seed.order1_id Seed.db_order
  = sendSuccess 200 "Order retrieved" Seed.order1.
Proof.
  split; [reflexivity|]. split; [reflexivity|].
  destruct (getOrder_by_id_and_number Seed.alice Seed.order1_id Seed.db_order
              Seed.order1 (proj2 db_order_inv) eq_refl eq_refl) as [Hnum Hid].
  split; [by apply Hnum|by apply Hid].
Defined.

Lemma revenue_insert (id : ObjectId) (o : Order.t) (orders : gmap ObjectId Order.t) :
  orders !! id = None ->
  revenue (<[id := o]> orders) = revenue orders + Order.grand_total (Order.pricing o).
Proof.
  intros Hid. unfold revenue. rewrite map_fold_insert_L; [done| |done].
  intros. ring.
Qed.

Lemma revenue_update (id : ObjectId) (o o' : Order.t) (orders : gmap ObjectId Order.t) :
  orders !! id = Some o -> Order.pricing o' = Order.pricing o ->
  revenue (<[id := o']> orders) = revenue orders.
Proof.
  intros Ho Hp.
  rewrite <- (insert_delete_id orders id o Ho) at 2.
  rewrite <- (insert_delete_eq orders).
  rewrite !revenue_insert by apply lookup_delete_eq. by rewrite Hp.
Qed.

(** X14: the statistics of [getStats] count every stored order, whatever
    its status, and are the zero record when there is none.  Writing back
    an order with its pricing unchanged changes nothing, so neither a
    status update nor a payment update nor a cancellation by the owner
    changes the statistics: a cancelled order stays in the revenue and in
    the average. *)
Theorem getStats_totals (orders : gmap ObjectId Order.t) :
  totalOrders (getStats orders) = Z.of_nat (size orders) ∧
  (orders = ∅ ->
   getStats orders
   = {| totalOrders := 0; totalRevenue := 0; avgOrderValue := 0 |}) ∧
  (forall (id : ObjectId) (o o' : Order.t),
     orders !! id = Some o -> Order.pricing o' = Order.pricing o ->
     getStats (<[id := o']> orders) = getStats orders) ∧
  (forall (id u : ObjectId) (drv : Mongo.Driver) (now : Date)
          (reason : option string) (products : gmap ObjectId Product.t)
          (carts : gmap ObjectId Cart.t),
     orders_inv orders ->
     let db := {| Db.products := products; Db.carts := carts;
                  Db.orders := orders |} in
     getStats (Db.orders (snd (cancelOrder drv now u id reason db)))
     = getStats orders).
Proof.
  assert (forall (id : ObjectId) (o o' : Order.t),
            orders !! id = Some o -> Order.pricing o' = Order.pricing o ->
            getStats (<[id := o']> orders) = getStats orders) as Hback.
  { intros id o o' Ho Hp. unfold getStats.
    rewrite map_size_insert_Some by eauto.
    fold (revenue (<[id := o']> orders)). fold (revenue orders).
    by rewrite (revenue_update id o o' orders Ho Hp). }
  split; [|split; [|split; [exact Hback|]]].
  - unfold getStats. case_bool_decide as Hsize; simpl; [|done].
    by rewrite Hsize.
  - intros ->. reflexivity.
  - intros id u drv now reason products carts Hinv db.
    destruct (findOne id u orders) as [order|] eqn:Hfind;
      [|by rewrite (LifecycleFacts.cancelOrder_not_found _ _ _ _ _ db Hfind)].
    destruct (Order.canCancel order) eqn:Hcan;
      [|by rewrite (LifecycleFacts.cancelOrder_refused _ _ _ _ _ db _ Hfind Hcan)].
    destruct (LifecycleFacts.cancelOrder_succeeds drv now u id reason db order
                Hinv Hfind Hcan) as (order2 & -> & _ & _ & _ & _ & Hpricing).
    simpl. apply findOne_Some in Hfind as [Horder _].
    by apply (Hback id order order2).
Qed.

End OrderQueryFacts.

(** ** The life of a stored order *)

Module OrderLifecycleFacts.
Import JS Http Spec Invariants OrderController OrderFacts ServerFacts.

Lemma same_snapshot_refl (o : Order.t) : same_snapshot o o.
Proof. by repeat split. Qed.

Lemma same_snapshot_trans (o1 o2 o3 : Order.t) :
  same_snapshot o1 o2 -> same_snapshot o2 o3 -> same_snapshot o1 o3.
Proof.
  unfold same_snapshot. intros H12 H23.
  destruct H12 as (? & ? & ? & ? & ? & ? & ? & ? & ?).
  destruct H23 as (? & ? & ? & ? & ? & ? & ? & ? & ?).
  repeat split; congruence.
Qed.

(** What [save] adds to a document that already has its number. *)
Lemma saved_order (count : nat) (now : Date) (o : Order.t) :
  truthy (Order.orderNumber o) = true ->
  let o' := Order.set_tracking false (Order.preSave count now o) in
  same_snapshot o o' ∧
  Order.status o' = Order.status o ∧
  Order.payment o' = Order.payment o ∧
  Order.shipping o' = Order.shipping o ∧
  Order.cancellation o' = Order.cancellation o ∧
  Order.statusHistory o'
  = Order.statusHistory o ++
    (if Order.status_modified o
     then [ {| Order.entry_status := Order.status o; Order.date := now;
               Order.note := None |} ]
     else []).
Proof.
  intros Hnum. unfold Order.preSave. rewrite Hnum; simpl.
  destruct (Order.status_modified o); simpl; rewrite ?app_nil_r;
    by repeat split.
Qed.

Lemma timeline_current_snoc (o : Order.t) (h : list Order.HistoryEntry)
    (e : Order.HistoryEntry) :
  Order.statusHistory o = h ++ [e] -> Order.entry_status e = Order.status o ->
  timeline_current o.
Proof. intros Hh He. unfold timeline_current. by rewrite Hh, last_snoc. Qed.

(** A stored order that is loaded, changed without touching its snapshot,
    and saved again. *)
Lemma write_back (now : Date) (id : ObjectId) (o o1 : Order.t)
    (orders : gmap ObjectId Order.t) :
  orders_inv orders -> orders !! id = Some o ->
  same_snapshot o o1 ->
  Order.statusHistory o `prefix_of` Order.statusHistory o1 ->
  (Order.status_modified o1 = true ∨ timeline_current o1) ->
  exists o2 : Order.t,
    Order.save now o1 orders = Some (o2, <[id := o2]> orders) ∧
    o2 = Order.set_tracking false (Order.preSave (size orders) now o1) ∧
    same_snapshot o o2 ∧
    Order.statusHistory o `prefix_of` Order.statusHistory o2 ∧
    timeline_current o2.
Proof.
  intros Hinv Ho Hsnap Hprefix Hcur.
  pose proof Hsnap as (Hid & Hnum & _).
  destruct (save_stored now id o o1 orders Hinv Ho Hid Hnum)
    as (o2 & Hsave & Ho2 & _).
  exists o2. split; [done|]. split; [done|].
  assert (truthy (Order.orderNumber o1) = true) as Htruthy.
  { rewrite Hnum. destruct Hinv as [Hwf _]. by apply (wf_truthy orders id). }
  destruct (saved_order (size orders) now o1 Htruthy)
    as (Hsnap2 & Hst & _ & _ & _ & Hh).
  rewrite <- Ho2 in Hsnap2, Hst, Hh.
  split; [by apply (same_snapshot_trans o o1 o2)|]. split.
  - rewrite Hh. by apply prefix_app_r.
  - destruct (Order.status_modified o1) eqn:Hm.
    + by apply (timeline_current_snoc o2 _ _ Hh).
    + destruct Hcur as [?|Hcur]; [done|].
      unfold timeline_current in *. by rewrite Hh, app_nil_r, Hst.
Qed.

Lemma updateStatus_snapshot (now : Date) (s : Order.Status) (note tn c : option string)
    (o : Order.t) :
  let o1 := AdminController.set_tracking_details tn c
              (Order.updateStatus now s note o) in
  same_snapshot o o1 ∧
  Order.statusHistory o1
  = Order.statusHistory o ++
    [ {| Order.entry_status := s; Order.date := now; Order.note := note |} ] ∧
  Order.status o1 = s ∧ Order.cancellation o1 = Order.cancellation o ∧
  Order.payment o1 = Order.payment o.
Proof. destruct s; by repeat split. Qed.

(** What one request does to an order that is stored. *)
Lemma step_stored (db db' : Db.t) (id : ObjectId) (o : Order.t) :
  orders_inv (Db.orders db) -> step db db' ->
  Db.orders db !! id = Some o ->
  exists o' : Order.t,
    Db.orders db' !! id = Some o' ∧ same_snapshot o o' ∧
    Order.statusHistory o `prefix_of` Order.statusHistory o' ∧
    (timeline_current o -> timeline_current o').
Proof.
  intros Hinv Hstep Ho.
  assert (exists o', Db.orders db !! id = Some o' ∧ same_snapshot o o' ∧
            Order.statusHistory o `prefix_of` Order.statusHistory o' ∧
            (timeline_current o -> timeline_current o')) as Hsame
    by (exists o; split; [done|]; split; [apply same_snapshot_refl|done]).
  assert (forall id0 o0 o2,
            Db.orders db !! id0 = Some o0 -> same_snapshot o0 o2 ->
            Order.statusHistory o0 `prefix_of` Order.statusHistory o2 ->
            timeline_current o2 ->
            exists o', <[id0 := o2]> (Db.orders db) !! id = Some o' ∧
              same_snapshot o o' ∧
              Order.statusHistory o `prefix_of` Order.statusHistory o' ∧
              (timeline_current o -> timeline_current o')) as Hupd.
  { intros id0 o0 o2 Ho0 Hsnap Hprefix Hcur.
    destruct (decide (id0 = id)) as [->|Hne].
    - rewrite lookup_insert_eq. exists o2. by simplify_eq.
    - rewrite lookup_insert_ne by done. exact Hsame. }
  destruct Hstep as [drv now newId u body db|drv now u id0 reason db
                    |now id0 s note tn c db|now id0 st tx db|products carts db].
  - by rewrite (proj2 (createOrder_never_writes drv now newId u body db)).
  - unfold cancelOrder.
    destruct (findOne id0 u (Db.orders db)) as [order|] eqn:Hfind; [|done].
    apply findOne_Some in Hfind as [Horder _].
    destruct (Order.canCancel order) eqn:Hcan; simpl; [|done].
    destruct (Order.cancel now reason u order) as [order1|] eqn:Hcancel; [|done].
    apply cancel_Some in Hcancel as [_ ->].
    edestruct (write_back now id0 order) as (o2 & -> & _ & Hsnap & Hprefix & Hcur);
      [exact Hinv|exact Horder| | | |].
    + by repeat split.
    + done.
    + left. simpl. apply LifecycleFacts.canCancel_iff in Hcan.
      rewrite bool_decide_eq_true_2; [by rewrite orb_true_r|].
      destruct Hcan as [Hs | [Hs | Hs]]; by rewrite Hs.
    + simpl. by apply (Hupd id0 order o2).
  - unfold AdminController.updateOrderStatus.
    destruct (Db.orders db !! id0) as [order|] eqn:Horder; [|done].
    destruct (updateStatus_snapshot now s note tn c order)
      as (Hsnap1 & Hh1 & Hs1 & _).
    edestruct (write_back now id0 order) as (o2 & -> & _ & Hsnap & Hprefix & Hcur);
      [exact Hinv|exact Horder|exact Hsnap1| | |].
    + rewrite Hh1. by apply prefix_app_r.
    + right. by apply (timeline_current_snoc _ _ _ Hh1).
    + simpl. by apply (Hupd id0 order o2).
  - unfold AdminController.updatePaymentStatus.
    destruct (Db.orders db !! id0) as [order|] eqn:Horder; [|done].
    destruct (decide (id0 = id)) as [->|Hne].
    + assert (order = o) as -> by congruence.
      destruct (Order.save _ _ _) as [[o2 orders']|] eqn:Hsave; [|done].
      simpl. apply save_inv in Hsave as (-> & -> & _). simpl.
      destruct Hinv as [Hwf _]. destruct (Hwf id o Ho) as (<- & Hm & _).
      rewrite lookup_insert_eq. eexists. split; [done|].
      pose proof (wf_truthy (Db.orders db) (Order._id o) o Hwf Ho) as Htruthy.
      match goal with |- context [Order.preSave ?n ?t ?x] =>
        pose proof (saved_order n t x Htruthy) as Hsaved; cbv zeta in Hsaved;
          set (o2 := Order.set_tracking false (Order.preSave n t x)) in *
      end.
      destruct Hsaved as (Hsnap & Hst & _ & _ & _ & Hh).
      assert (Order.statusHistory o2 = Order.statusHistory o) as Hh'
        by (rewrite Hh; simpl; rewrite Hm; apply app_nil_r).
      assert (Order.status o2 = Order.status o) as Hst' by (by rewrite Hst).
      split; [exact Hsnap|]. split; [by rewrite Hh'|].
      unfold timeline_current. by rewrite Hh', Hst'.
    + destruct (Order.save _ _ _) as [[o2 orders']|] eqn:Hsave; [|done].
      simpl. apply save_inv in Hsave as (_ & -> & _). simpl.
      destruct Hinv as [Hwf _]. destruct (Hwf id0 order Horder) as (-> & _).
      rewrite lookup_insert_ne by done. exact Hsame.
  - exact Hsame.
Qed.

(** X15: what an order holds of its purchase never changes, and no order
    is ever deleted.  From a database whose orders are well formed, through
    any sequence of requests, a stored order is still stored under its id
    with the same number, owner, lines, addresses, amounts, note and
    payment method, and its status history has only grown at the end. *)
Theorem order_snapshot_frozen (db db' : Db.t) (id : ObjectId) (o : Order.t)
    (Hdb : orders_inv (Db.orders db)) (Hsteps : rtc step db db')
    (Ho : Db.orders db !! id = Some o) :
  exists o' : Order.t,
    Db.orders db' !! id = Some o' ∧ same_snapshot o o' ∧
    Order.statusHistory o `prefix_of` Order.statusHistory o'.
Proof.
  revert o Ho. induction Hsteps as [db|db db1 db2 Hstep _ IH]; intros o Ho.
  - exists o. split; [done|]. split; [apply same_snapshot_refl|done].
  - destruct (step_stored db db1 id o Hdb Hstep Ho)
      as (o1 & Ho1 & Hsnap1 & Hprefix1 & _).
    destruct (IH (proj2 (step_orders db db1 Hdb Hstep)) o1 Ho1)
      as (o2 & Ho2 & Hsnap2 & Hprefix2).
    exists o2. split; [done|].
    split; [by apply (same_snapshot_trans o o1 o2)|by etrans].
Qed.

Lemma order_snapshot_frozen_witness :
  exists o' : Order.t,
    Db.orders Seed.db_order !! Seed.order1_id = Some Seed.order1 ∧
    Db.orders Seed.db_confirmed !! Seed.order1_id = Some o' ∧
    same_snapshot Seed.order1 o' ∧
    Order.statusHistory Seed.order1 `prefix_of` Order.statusHistory o'.
Proof.
  assert (rtc step Seed.db_order Seed.db_confirmed) as Hsteps
    by (apply rtc_once, step_updateOrderStatus).
  destruct (order_snapshot_frozen Seed.db_order Seed.db_confirmed
              Seed.order1_id Seed.order1 db_order_inv Hsteps eq_refl)
    as (o' & Ho' & Hsnap & Hprefix).
  exists o'. split; [reflexivity|]. split; [exact Ho'|].
  split; [exact Hsnap|exact Hprefix].
Defined.

(** X16: the timeline [trackOrder] shows does not fall behind the status
    it shows.  If in a database whose orders are well formed the status
    history of every stored order ends in the order's current status (an
    order without history being pending), then so it does after any
    sequence of requests. *)
Theorem timeline_ends_in_status (db db' : Db.t)
    (Hdb : orders_inv (Db.orders db))
    (Hcur : forall (id : ObjectId) (o : Order.t),
        Db.orders db !! id = Some o -> timeline_current o)
    (Hsteps : rtc step db db') :
  forall (id : ObjectId) (o' : Order.t),
    Db.orders db' !! id = Some o' -> timeline_current o'.
Proof.
  induction Hsteps as [db|db db1 db2 Hstep _ IH]; [exact Hcur|].
  apply IH; [by apply (step_orders db db1)|].
  intros id o1 Ho1.
  destruct (Db.orders db !! id) as [o|] eqn:Ho.
  - destruct (step_stored db db1 id o Hdb Hstep Ho) as (o' & Ho' & _ & _ & Hkeep).
    assert (o' = o1) as <- by congruence.
    by apply Hkeep, (Hcur id).
  - destruct (step_orders db db1 Hdb Hstep) as [Hchange _].
    destruct Hchange as [Heq|id0 o0 o2 Ho0 Heq _]; rewrite Heq in Ho1.
    + congruence.
    + apply lookup_insert_Some in Ho1 as [[<- _]|[_ Ho1]]; congruence.
Qed.

Lemma timeline_ends_in_status_witness :
  timeline_current Seed.order1 ∧
  exists o' : Order.t,
    Db.orders Seed.db_confirmed !! Seed.order1_id = Some o' ∧
    timeline_current o'.
Proof.
  assert (forall (id : ObjectId) (o : Order.t),
            Db.orders Seed.db_order !! id = Some o -> timeline_current o) as Hcur.
  { intros id o Ho. unfold Seed.db_order in Ho; simpl in Ho.
    apply lookup_singleton_Some in Ho as [_ <-]. reflexivity. }
  assert (rtc step Seed.db_order Seed.db_confirmed) as Hsteps
    by (apply rtc_once, step_updateOrderStatus).
  split; [reflexivity|].
  destruct (Db.orders Seed.db_confirmed !! Seed.order1_id) as [o'|] eqn:Ho';
    [|by vm_compute in Ho'].
  exists o'. split; [reflexivity|].
  exact (timeline_ends_in_status Seed.db_order Seed.db_confirmed db_order_inv
           Hcur Hsteps Seed.order1_id o' Ho').
Defined.

End OrderLifecycleFacts.

(** ** Cancelling and administering stored orders *)

Module OrderRequestFacts.
Import JS Http Spec Invariants OrderController OrderFacts ServerFacts
  OrderLifecycleFacts.

(** X17: an order is cancelled at most once.  After a successful
    [cancelOrder], in a database whose orders are well formed, every
    further [cancelOrder] of that order by its owner is refused with "This
    order cannot be cancelled" and writes nothing, so the restore loop does
    not run a second time. *)
Theorem cancelOrder_only_once (drv : Mongo.Driver) (now : Date) (u id : ObjectId)
    (reason : option string) (db : Db.t)
    (Hdb : orders_inv (Db.orders db))
    (Hok : is_failure (fst (cancelOrder drv now u id reason db)) = false) :
  forall (drv' : Mongo.Driver) (now' : Date) (reason' : option string),
    cancelOrder drv' now' u id reason' (snd (cancelOrder drv now u id reason db))
    = (OrderNotCancellable, snd (cancelOrder drv now u id reason db)).
Proof.
  intros drv' now' reason'.
  pose proof Hdb as Hinv.
  destruct (findOne id u (Db.orders db)) as [order|] eqn:Hfind;
    [|by rewrite (LifecycleFacts.cancelOrder_not_found _ _ _ _ _ _ Hfind) in Hok].
  destruct (Order.canCancel order) eqn:Hcan;
    [|by rewrite (LifecycleFacts.cancelOrder_refused _ _ _ _ _ _ _ Hfind Hcan) in Hok].
  destruct (LifecycleFacts.cancelOrder_succeeds drv now u id reason db order
              Hinv Hfind Hcan) as (order2 & Hrun & Hstatus & _).
  apply findOne_Some in Hfind as [Horder Huser].
  destruct (step_stored db _ id order Hinv
              (step_cancelOrder drv now u id reason db) Horder)
    as (o' & Ho' & Hsnap & _).
  rewrite Hrun in Ho' |- *. simpl in Ho' |- *.
  rewrite lookup_insert_eq in Ho'. injection Ho' as <-.
  apply LifecycleFacts.cancelOrder_refused with (order := order2).
  - apply findOne_Some. simpl. rewrite lookup_insert_eq. split; [done|].
    destruct Hsnap as (_ & _ & -> & _). exact Huser.
  - unfold Order.canCancel. rewrite Hstatus. reflexivity.
Qed.

Lemma cancelOrder_only_once_witness :
  cancelOrder (Seed.driver Mongo.FirstSizeMatch) Seed.tomorrow Seed.alice
    Seed.order1_id None (Seed.db_cancelled Mongo.FirstSizeMatch)
  = (OrderNotCancellable, Seed.db_cancelled Mongo.FirstSizeMatch).
Proof.
  apply (cancelOrder_only_once (Seed.driver Mongo.FirstSizeMatch) Seed.tomorrow
           Seed.alice Seed.order1_id (Some "Ordered by mistake")
           Seed.db_order db_order_inv).
  vm_compute. reflexivity.
Defined.

(** Setting a stored order back to pending always succeeds. *)
Lemma updateOrderStatus_reopens (now : Date) (id : ObjectId)
    (note tn c : option string) (db : Db.t) (o : Order.t) :
  orders_inv (Db.orders db) -> Db.orders db !! id = Some o ->
  exists o' : Order.t,
    AdminController.updateOrderStatus now id Order.pending note tn c db
    = (sendSuccess 200 "Order status updated" o',
       {| Db.products := Db.products db; Db.carts := Db.carts db;
          Db.orders := <[id := o']> (Db.orders db) |}) ∧
    Order.status o' = Order.pending ∧ same_snapshot o o'.
Proof.
  intros Hinv Ho.
  unfold AdminController.updateOrderStatus. rewrite Ho.
  destruct (updateStatus_snapshot now Order.pending note tn c o)
    as (Hsnap1 & Hh1 & Hs1 & _).
  edestruct (write_back now id o) as (o2 & -> & Ho2 & Hsnap & _);
    [exact Hinv|exact Ho|exact Hsnap1| | |].
  - rewrite Hh1. by apply prefix_app_r.
  - right. by apply (timeline_current_snoc _ _ _ Hh1).
  - exists o2. split; [done|]. split; [|done].
    assert (truthy (Order.orderNumber
                      (AdminController.set_tracking_details tn c
                         (Order.updateStatus now Order.pending note o))) = true)
      as Htruthy.
    { destruct Hsnap1 as (_ & -> & _). destruct Hinv as [Hwf _].
      by apply (wf_truthy (Db.orders db) id). }
    pose proof (saved_order (size (Db.orders db)) now _ Htruthy) as Hsaved.
    cbv zeta in Hsaved. rewrite <- Ho2 in Hsaved.
    destruct Hsaved as (_ & Hst & _). congruence.
Qed.

(** X18: [updateOrderStatus] has no transition guard.  For an order
    stored in a database whose orders are well formed, the request
    succeeds for every target status, whatever the current one, so a
    cancelled or delivered order can be moved back to pending; the saved
    order has the new status; its cancellation block and payment stay as
    they were, and neither products nor carts are touched. *)
Theorem updateOrderStatus_unguarded (now : Date) (id : ObjectId)
    (s : Order.Status) (note tn c : option string) (db : Db.t) (o : Order.t)
    (Hdb : orders_inv (Db.orders db)) (Ho : Db.orders db !! id = Some o) :
  exists o' : Order.t,
    AdminController.updateOrderStatus now id s note tn c db
    = (sendSuccess 200 "Order status updated" o',
       {| Db.products := Db.products db; Db.carts := Db.carts db;
          Db.orders := <[id := o']> (Db.orders db) |}) ∧
    Order.status o' = s ∧
    Order.cancellation o' = Order.cancellation o ∧
    Order.payment o' = Order.payment o ∧
    same_snapshot o o'.
Proof.
  pose proof Hdb as Hinv.
  unfold AdminController.updateOrderStatus. rewrite Ho.
  destruct (updateStatus_snapshot now s note tn c o)
    as (Hsnap1 & Hh1 & Hs1 & Hc1 & Hp1).
  edestruct (write_back now id o) as (o2 & -> & Ho2 & Hsnap & _);
    [exact Hinv|exact Ho|exact Hsnap1| | |].
  - rewrite Hh1. by apply prefix_app_r.
  - right. by apply (timeline_current_snoc _ _ _ Hh1).
  - exists o2. split; [done|].
    assert (truthy (Order.orderNumber
                      (AdminController.set_tracking_details tn c
                         (Order.updateStatus now s note o))) = true) as Htruthy.
    { destruct Hsnap1 as (_ & -> & _). destruct Hinv as [Hwf _].
      by apply (wf_truthy (Db.orders db) id). }
    pose proof (saved_order (size (Db.orders db)) now _ Htruthy) as Hsaved.
    cbv zeta in Hsaved. rewrite <- Ho2 in Hsaved.
    destruct Hsaved as (_ & Hst & Hpay & _ & Hcan & _).
    split; [congruence|]. split; [congruence|]. split; [congruence|done].
Qed.

Lemma updateOrderStatus_unguarded_witness :
  exists o' : Order.t,
    Db.orders
      (snd (AdminController.updateOrderStatus Seed.tomorrow Seed.order1_id
              Order.pending None None None
              (Seed.db_cancelled Mongo.FirstSizeMatch))) !! Seed.order1_id
    = Some o' ∧
    Order.status o' = Order.pending ∧ is_Some (Order.cancellation o').
Proof.
  destruct (Db.orders (Seed.db_cancelled Mongo.FirstSizeMatch) !! Seed.order1_id)
    as [o|] eqn:Ho; [|by vm_compute in Ho].
  assert (orders_inv (Db.orders (Seed.db_cancelled Mongo.FirstSizeMatch))) as Hdb.
  { apply (step_orders Seed.db_order); [exact db_order_inv|].
    apply step_cancelOrder. }
  destruct (updateOrderStatus_unguarded Seed.tomorrow Seed.order1_id Order.pending
              None None None (Seed.db_cancelled Mongo.FirstSizeMatch) o Hdb Ho)
    as (o' & Hrun & Hs & Hc & _).
  exists o'. rewrite Hrun. simpl. rewrite lookup_insert_eq.
  split; [reflexivity|]. split; [exact Hs|]. rewrite Hc.
  vm_compute in Ho. injection Ho as <-. simpl. eauto.
Defined.

(** X19: [updatePaymentStatus] changes the payment block only.  For an
    order stored in a database whose orders are well formed it succeeds;
    the saved order has the given payment status, the payment time set to
    now exactly when that status is completed, and the transaction id
    replaced only when one is given; the order's status, history, shipping
    block, cancellation block and snapshot are as before, and neither
    products nor carts are touched. *)
Theorem updatePaymentStatus_effect (now : Date) (id : ObjectId)
    (st : Payment.Status) (tx : option string) (db : Db.t) (o : Order.t)
    (Hdb : orders_inv (Db.orders db)) (Ho : Db.orders db !! id = Some o) :
  exists o' : Order.t,
    AdminController.updatePaymentStatus now id st tx db
    = (sendSuccess 200 "Payment status updated" o',
       {| Db.products := Db.products db; Db.carts := Db.carts db;
          Db.orders := <[id := o']> (Db.orders db) |}) ∧
    Payment.status (Order.payment o') = st ∧
    (st = Payment.completed -> Payment.paidAt (Order.payment o') = Some now) ∧
    (st ≠ Payment.completed ->
     Payment.paidAt (Order.payment o') = Payment.paidAt (Order.payment o)) ∧
    (truthy tx = false ->
     Payment.transactionId (Order.payment o')
     = Payment.transactionId (Order.payment o)) ∧
    Order.status o' = Order.status o ∧
    Order.statusHistory o' = Order.statusHistory o ∧
    Order.shipping o' = Order.shipping o ∧
    Order.cancellation o' = Order.cancellation o ∧
    same_snapshot o o'.
Proof.
  pose proof Hdb as Hinv.
  unfold AdminController.updatePaymentStatus. rewrite Ho.
  match goal with |- context [Order.save now ?x _] => set (o1 := x) end.
  destruct (save_stored now id o o1 (Db.orders db) Hinv Ho eq_refl eq_refl)
    as (o2 & -> & Ho2 & _).
  exists o2. split; [done|].
  destruct Hinv as [Hwf _]. destruct (Hwf id o Ho) as (_ & Hm & _).
  pose proof (saved_order (size (Db.orders db)) now o1
                (wf_truthy (Db.orders db) id o Hwf Ho)) as Hsaved.
  cbv zeta in Hsaved. rewrite <- Ho2 in Hsaved.
  destruct Hsaved as (Hsnap & Hst & Hpay & Hsh & Hcan & Hh).
  rewrite Hpay, Hst, Hsh, Hcan, Hh. subst o1. simpl. rewrite Hm, app_nil_r.
  split; [done|]. split; [by intros ->|]. split; [by destruct st|].
  split; [by intros ->|]. repeat (split; [done|]).
  eapply same_snapshot_trans; [|exact Hsnap]. by repeat split.
Qed.

Lemma updatePaymentStatus_effect_witness :
  exists o' : Order.t,
    Db.orders
      (snd (AdminController.updatePaymentStatus Seed.tomorrow Seed.order1_id
              Payment.completed (Some "TXN-1") Seed.db_order)) !! Seed.order1_id
    = Some o' ∧
    Payment.status (Order.payment o') = Payment.completed ∧
    Payment.paidAt (Order.payment o') = Some Seed.tomorrow ∧
    Order.status o' = Order.pending.
Proof.
  destruct (updatePaymentStatus_effect Seed.tomorrow Seed.order1_id
              Payment.completed (Some "TXN-1") Seed.db_order Seed.order1
              db_order_inv eq_refl)
    as (o' & Hrun & Hst & Hpaid & _ & _ & Hs & _).
  exists o'. rewrite Hrun. simpl. rewrite lookup_insert_eq.
  split; [reflexivity|]. split; [exact Hst|]. split; [by apply Hpaid|].
  exact Hs.
Defined.

End OrderRequestFacts.

(** ** The stock under the loops of checkout and cancellation *)

Module StockFacts.
Import JS Http Spec Invariants OrderController.







End StockFacts.

(** ** A cart that was emptied *)

Module EmptiedCartFacts.
Import JS Http Spec OrderController.

Lemma createOrder_no_items (drv : Mongo.Driver) (now : Date) (newId u : ObjectId)
    (body : CheckoutBody) (db : Db.t) (cart : Cart.t) :
  Db.carts db !! u = Some cart -> Cart.items cart = [] ->
  createOrder drv now newId u body db = (EmptyCart, db).
Proof.
  intros Hcart Hitems. unfold createOrder. rewrite Hcart, Hitems. reflexivity.
Qed.

(** X23: a cart that was emptied cannot be checked out.  The [clearCart]
    request fails only when the user has no cart, and then it writes
    nothing; otherwise the stored cart has no lines, no coupon, a discount
    of 0 and a total of 99 afterwards, and every [createOrder] of the same
    user answers "Your cart is empty" and writes nothing. *)
Theorem emptied_cart_checkout_refused (u : ObjectId) (db : Db.t) :
  (is_failure (fst (CartRequests.clearCart u db)) = false ->
   exists cart' : Cart.t,
     Db.carts (snd (CartRequests.clearCart u db)) !! u = Some cart' ∧
     Cart.items cart' = [] ∧ Cart.couponCode cart' = None ∧
     Cart.discount cart' = 0 ∧ Cart.total cart' = of_int 99 ∧
     forall (drv : Mongo.Driver) (now : Date) (newId : ObjectId)
            (body : CheckoutBody),
       createOrder drv now newId u body (snd (CartRequests.clearCart u db))
       = (EmptyCart, snd (CartRequests.clearCart u db))) ∧
  (is_failure (fst (CartRequests.clearCart u db)) = true <->
   Db.carts db !! u = None) ∧
  (Db.carts db !! u = None ->
   CartRequests.clearCart u db = (sendNotFound "Cart", db)).
Proof.
  unfold CartRequests.clearCart.
  destruct (Db.carts db !! u) as [cart|] eqn:Hcart; [|done].
  split; [|done].
  intros _. simpl. exists (Cart.clearCart cart).
  rewrite lookup_insert_eq. split; [done|].
  destruct (CartFacts.calculateTotals_empty
              (Cart.set_coupon None 0 (Cart.set_items [] cart)) eq_refl)
    as (Hitems & _ & _ & _ & Htotal).
  split; [done|]. split; [done|]. split; [done|].
  split; [unfold Cart.clearCart; rewrite Htotal; simpl; ring|].
  intros drv now newId body.
  apply (createOrder_no_items _ _ _ _ _ _ (Cart.clearCart cart)); [|done].
  simpl. by rewrite lookup_insert_eq.
Qed.

Lemma emptied_cart_checkout_refused_witness :
  Cart.items Seed.cart_L_black ≠ [] ∧
  createOrder (Seed.driver Mongo.FirstSizeMatch) Seed.today Seed.order1_id
    Seed.alice Seed.body_cod (snd (CartRequests.clearCart Seed.alice Seed.db0))
  = (EmptyCart, snd (CartRequests.clearCart Seed.alice Seed.db0)).
Proof.
  split; [done|].
  destruct (proj1 (emptied_cart_checkout_refused Seed.alice Seed.db0) eq_refl)
    as (cart' & _ & _ & _ & _ & _ & Hrefused).
  apply Hrefused.
Defined.

End EmptiedCartFacts.

(** ** Properties of the catalogue, [addToCart] and [reorder] *)

Module CatalogFacts.
Import JS Http Spec Catalog.

Lemma addToCart_accepts (u newItemId productId : ObjectId) (quantity : option Z)
    (s c : string) (catalog : gmap ObjectId Product)
    (carts : gmap ObjectId Cart.t) (p : Product) (v : Variant) :
  catalog !! productId = Some p -> status p = active ->
  find_variant s c p = Some v -> (default 1%Z quantity ≤ stock v)%Z ->
  let cart' :=
    Cart.addItem
      {| Cart._id := newItemId; Cart.product := productId;
         Cart.variant := {| Cart.size := s; Cart.color := c;
                            Cart.sku := Some (sku v) |};
         Cart.quantity := default 1%Z quantity;
         Cart.price := itemPrice v p |}
      (default (Cart.create u) (carts !! u)) in
  addToCart u newItemId productId quantity s c catalog carts
  = (sendSuccess 200 "Item added to cart" cart', <[u := cart']> carts).
Proof.
  intros Hp Hactive Hv Hstock. unfold addToCart.
  rewrite Hp, bool_decide_eq_false_2 by (by intros Hne; apply Hne).
  rewrite Hv, bool_decide_eq_false_2 by lia. reflexivity.
Qed.


Lemma addItem_count (item : Cart.Item) (c : Cart.t) :
  (1 ≤ Cart.quantity item)%Z ->
  CartVirtuals.itemCount (Cart.addItem item c)
  = (CartVirtuals.itemCount c + Cart.quantity item)%Z.
Proof.
  intros Hq. unfold CartVirtuals.itemCount. rewrite CartFacts.addItem_items.
  destruct (list_find (Cart.same_line item) (Cart.items c)) as [[k i]|] eqn:Hfind.
  - apply list_find_Some in Hfind as (Hk & _ & _).
    rewrite (CartFacts.alter_as_insert _ k i _ Hk).
    rewrite (CartModelFacts.count_insert k i _ _ Hk); simpl.
    rewrite CartFacts.or_else_positive by done. lia.
  - rewrite CartModelFacts.count_app; simpl. lia.
Qed.

Lemma reorder_line_cases (catalog : gmap ObjectId Product) (newItemId : ObjectId)
    (item : Order.Item) (cart : Cart.t) (un : list string) :
  (reorder_quantity catalog item = None ∧
   reorder_line catalog newItemId item cart un = (cart, un ++ [Order.name item])) ∨
  (exists line : Cart.Item,
     reorder_quantity catalog item = Some (Cart.quantity line) ∧
     reorder_line catalog newItemId item cart un = (Cart.addItem line cart, un)).
Proof.
  unfold reorder_quantity, reorder_line.
  destruct (catalog !! Order.product item) as [p|]; [|by left].
  destruct (decide (status p = active)) as [Hactive|Hactive].
  2:{ rewrite (bool_decide_eq_true_2 (status p ≠ active)) by done.
      rewrite (bool_decide_eq_false_2 (status p = active)) by done. by left. }
  rewrite (bool_decide_eq_false_2 (status p ≠ active))
    by (by intros Hne; apply Hne).
  rewrite (bool_decide_eq_true_2 (status p = active)) by done.
  destruct (find_variant _ _ p) as [v|]; [|by left].
  destruct (decide (1 ≤ stock v)%Z) as [Hstock|Hstock].
  - rewrite (bool_decide_eq_false_2 (stock v < 1)%Z) by lia.
    rewrite (bool_decide_eq_true_2 (1 ≤ stock v)%Z) by lia.
    right. eexists. split; [|reflexivity]. reflexivity.
  - rewrite (bool_decide_eq_true_2 (stock v < 1)%Z) by lia.
    rewrite (bool_decide_eq_false_2 (1 ≤ stock v)%Z) by lia. by left.
Qed.

Lemma reorder_quantity_positive (catalog : gmap ObjectId Product)
    (item : Order.Item) (q : Z) :
  (1 ≤ Order.quantity item)%Z -> reorder_quantity catalog item = Some q ->
  (1 ≤ q ≤ Order.quantity item)%Z.
Proof.
  intros Hq. unfold reorder_quantity.
  destruct (catalog !! Order.product item) as [p|]; [|done].
  case_bool_decide; [|done].
  destruct (find_variant _ _ p) as [v|]; [|done].
  case_bool_decide; [|done]. intros [= <-]. lia.
Qed.

Lemma reorder_loop_result (catalog : gmap ObjectId Product)
    (newItemIds : nat -> ObjectId) (items : list Order.Item) :
  Forall (fun item => (1 ≤ Order.quantity item)%Z) items ->
  forall (k : nat) (cart : Cart.t) (un : list string),
    snd (reorder_loop catalog newItemIds k items cart un)
    = un ++ (Order.name
             <$> filter (fun item => reorder_quantity catalog item = None) items) ∧
    CartVirtuals.itemCount (fst (reorder_loop catalog newItemIds k items cart un))
    = (CartVirtuals.itemCount cart
       + foldr (fun item acc => (default 0 (reorder_quantity catalog item) + acc)%Z)
           0 items)%Z.
Proof.
  induction 1 as [|item rest Hq _ IH]; intros k cart un; simpl.
  - rewrite app_nil_r. split; [done|lia].
  - destruct (reorder_line_cases catalog (newItemIds k) item cart un)
      as [[Hnone ->]|(line & Hsome & ->)].
    + destruct (IH (S k) cart (un ++ [Order.name item])) as [-> ->].
      rewrite filter_cons, decide_True by done. csimpl.
      rewrite Hnone, <- app_assoc. simpl. split; [done|lia].
    + destruct (IH (S k) (Cart.addItem line cart) un) as [-> ->].
      rewrite filter_cons, decide_False by (by rewrite Hsome).
      rewrite Hsome; simpl. split; [done|].
      rewrite addItem_count; [lia|].
      by destruct (reorder_quantity_positive catalog item _ Hq Hsome).
Qed.

(** X26: [reorder] reaches the user's own orders only: it succeeds
    exactly when an order of the user is stored under the id, and a
    request that fails writes nothing.  For an own order it always
    succeeds and touches no other cart.  When the order's quantities are
    at least 1, the names it reports as unavailable are those of the lines
    whose product is gone or not active, whose variant is gone, or whose
    stock is below 1, in the order of the lines; and the item count of the
    stored cart has grown by the ordered quantities of the other lines,
    each capped by the stock of its variant. *)
Theorem reorder_outcome (u id : ObjectId) (newItemIds : nat -> ObjectId)
    (catalog : gmap ObjectId Product) (carts : gmap ObjectId Cart.t)
    (orders : gmap ObjectId Order.t) :
  let r := reorder u id newItemIds catalog carts orders in
  (is_failure (fst r) = false <->
   exists o : Order.t, orders !! id = Some o ∧ Order.user o = u) ∧
  (is_failure (fst r) = true -> snd r = carts) ∧
  (forall w : ObjectId, w ≠ u -> snd r !! w = carts !! w) ∧
  (forall o : Order.t,
     orders !! id = Some o -> Order.user o = u ->
     Forall (fun item => (1 ≤ Order.quantity item)%Z) (Order.items o) ->
     exists (msg : string) (cart' : Cart.t),
       fst r
       = sendSuccess 200 msg
           (cart',
            Order.name <$> filter (fun item => reorder_quantity catalog item = None)
                             (Order.items o)) ∧
       snd r !! u = Some cart' ∧
       CartVirtuals.itemCount cart'
       = (CartVirtuals.itemCount (default (Cart.create u) (carts !! u))
          + foldr (fun item acc =>
                     (default 0 (reorder_quantity catalog item) + acc)%Z)
              0 (Order.items o))%Z).
Proof.
  intros r. subst r. unfold reorder.
  destruct (OrderController.findOne id u orders) as [order|] eqn:Hfind.
  - apply ServerFacts.findOne_Some in Hfind as [Horder Huser].
    destruct (reorder_loop catalog newItemIds 0 (Order.items order)
                (default (Cart.create u) (carts !! u)) []) as [cart' un] eqn:Hloop.
    simpl. split; [|split; [done|split]].
    + split; [|done]. intros _. by exists order.
    + intros w Hw. by rewrite lookup_insert_ne.
    + intros o Ho Hu Hq. assert (o = order) as -> by congruence.
      destruct (reorder_loop_result catalog newItemIds (Order.items order) Hq 0
                  (default (Cart.create u) (carts !! u)) []) as [Hun Hcount].
      rewrite Hloop in Hun, Hcount. simpl in Hun, Hcount.
      eexists _, cart'. rewrite lookup_insert_eq, <- Hun. done.
  - simpl. split; [|split; [done|split; [done|]]].
    + split; [done|]. intros (o & Ho & Hu).
      by rewrite (proj2 (ServerFacts.findOne_Some id u orders o) (conj Ho Hu)) in Hfind.
    + intros o Ho Hu _.
      by rewrite (proj2 (ServerFacts.findOne_Some id u orders o) (conj Ho Hu)) in Hfind.
Qed.

Lemma Math_round_percent (x : Number) :
  0 ≤ x -> x ≤ of_int 100 -> (0 ≤ Math_round x ≤ 100)%Z.
Proof.
  unfold Qcle, Math_round, of_int. cbn [this Q2Qc Qcplus].
  intros H0 H100. rewrite Qred_correct in H0, H100.
  rewrite (Qfloor_comp _ (x + (1 # 2))%Q).
  2:{ rewrite !Qred_correct. reflexivity. }
  pose proof (Qfloor_le (x + (1 # 2))%Q) as Hlo.
  pose proof (Qlt_floor (x + (1 # 2))%Q) as Hhi.
  set (n := Qfloor (x + (1 # 2))%Q) in *. clearbody n.
  split.
  - assert (inject_Z (-1) < inject_Z n)%Q as Hn.
    { rewrite inject_Z_plus in Hhi. change (inject_Z (-1)) with (-1#1)%Q.
      change (inject_Z 1) with (1#1)%Q in Hhi. lra. }
    rewrite <- Zlt_Qlt in Hn. lia.
  - assert (inject_Z n < inject_Z 101)%Q as Hn.
    { change (inject_Z 101) with (101#1)%Q.
      change (inject_Z 100) with (100#1)%Q in H100. lra. }
    rewrite <- Zlt_Qlt in Hn. lia.
Qed.

Lemma Qcinv_pos (b : Number) : 0 < b -> 0 < / b.
Proof.
  unfold Qclt; simpl. intros Hb. rewrite !Qred_correct.
  rewrite Qred_correct in Hb. by apply Qinv_lt_0_compat.
Qed.

Lemma ratio_percent (a b : Number) :
  0 < b -> 0 ≤ a -> a ≤ b ->
  0 ≤ a / b * of_int 100 ∧ a / b * of_int 100 ≤ of_int 100.
Proof.
  intros Hb Ha Hab.
  pose proof (Qcinv_pos b Hb) as Hinv.
  assert (0 ≤ a / b) as H0.
  { unfold Qcdiv. replace 0 with (0 * / b) by ring.
    apply Qcmult_le_compat_r; [done|]. by apply Qclt_le_weak. }
  assert (a / b ≤ 1) as H1.
  { unfold Qcdiv. rewrite <- (Qcmult_inv_r b) by (by apply Qclt_not_eq in Hb).
    apply Qcmult_le_compat_r; [done|]. by apply Qclt_le_weak. }
  assert (0 ≤ of_int 100) as H100 by done.
  split.
  - replace 0 with (0 * of_int 100) by ring. by apply Qcmult_le_compat_r.
  - replace (of_int 100) with (1 * of_int 100) at 2 by ring.
    by apply Qcmult_le_compat_r.
Qed.

Lemma fold_stock (l : list Variant) (a : Z) :
  fold_left (fun sum v => (sum + or_else (stock v) 0)%Z) l a
  = (a + foldr (fun v acc => (Product.stock v + acc)%Z) 0%Z (to_variant <$> l))%Z.
Proof.
  revert a. induction l as [|v l IH]; intros a; csimpl; [lia|].
  rewrite IH. unfold or_else. case_bool_decide; lia.
Qed.

Lemma or_else_zero (a : Z) : or_else a 0 = a.
Proof. unfold or_else. by case_bool_decide. Qed.

(** X27: the product's pre-save hook makes the stored aggregates agree
    with the data.  With variants present, [totalStock] becomes the sum of
    the variants' stock, the invariant the stock loops of checkout and
    cancellation preserve; without variants it is kept.  For a price and a
    sale price that are not negative, [discountPercent] lies between 0 and
    100, and it is 0 whenever the product is not on sale.  Running the hook
    again changes nothing. *)
Theorem product_preSave_invariants (p : Product)
    (Hprice : 0 ≤ price p) (Hsale : forall s, salePrice p = Some s -> 0 ≤ s) :
  let p' := preSave p in
  (variants p ≠ [] ->
   Product.totalStock (to_product p') = Invariants.variant_stock (to_product p')) ∧
  (variants p = [] -> totalStock p' = totalStock p) ∧
  (0 ≤ discountPercent p' ≤ 100)%Z ∧
  (isOnSale p = false -> discountPercent p' = 0%Z) ∧
  preSave p' = p'.
Proof.
  split; [|split; [|split; [|split]]].
  - intros Hne. unfold Invariants.variant_stock; simpl.
    rewrite bool_decide_eq_true_2 by (destruct (variants p); [done|simpl; lia]).
    by rewrite fold_stock.
  - intros Hnil. simpl. rewrite Hnil; simpl. apply or_else_zero.
  - simpl. destruct (salePrice p) as [s|] eqn:Hs; [|lia].
    destruct (_ && _) eqn:Hcond; [|lia].
    apply andb_prop in Hcond as [Hcond Hlt]. apply andb_prop in Hcond as [_ Hp0].
    apply bool_decide_eq_true in Hlt. apply negb_true_iff, bool_decide_eq_false in Hp0.
    assert (0 < price p) as Hpos.
    { apply Qcle_lt_or_eq in Hprice as [?|Heq]; [done|]. by rewrite <- Heq in Hp0. }
    destruct (ratio_percent (price p - s) (price p) Hpos) as [H0 H100].
    + apply Qclt_le_weak in Hlt. apply Qcle_minus_iff in Hlt. exact Hlt.
    + apply Qcle_minus_iff. replace (price p + - (price p - s)) with s by ring.
      by apply Hsale.
    + by apply Math_round_percent.
  - unfold isOnSale; simpl. destruct (salePrice p) as [s|]; [|done].
    intros Hoff. destruct (negb (bool_decide (s = 0))); simpl in *; [|done].
    rewrite Hoff. by rewrite andb_false_r.
  - unfold preSave; simpl. f_equal.
    case_bool_decide; [done|]. by rewrite or_else_zero.
Qed.

Lemma product_preSave_invariants_witness :
  0 ≤ price CatalogSeed.shirt ∧
  totalStock (preSave CatalogSeed.shirt) = 63%Z ∧
  (0 ≤ discountPercent (preSave CatalogSeed.shirt) ≤ 100)%Z ∧
  preSave (preSave CatalogSeed.shirt) = preSave CatalogSeed.shirt.
Proof.
  assert (0 ≤ price CatalogSeed.shirt) as Hprice by done.
  assert (forall s, salePrice CatalogSeed.shirt = Some s -> 0 ≤ s) as Hsale
    by (by intros s [= <-]).
  split; [exact Hprice|]. split; [reflexivity|].
  pose proof (product_preSave_invariants CatalogSeed.shirt Hprice Hsale)
    as (_ & _ & Hpct & _ & Hidem).
  split; [exact Hpct|exact Hidem].
Defined.

(** X28: the price a cart line gets and the price the product shows.
    [effectivePrice] never exceeds the regular price and is below it
    exactly when the product is on sale.  [addToCart] and [reorder] charge
    the variant's own price when it has one that is not 0; otherwise they
    charge the sale price whenever there is one that is not 0, so their
    price is the effective price except when the sale price is above the
    regular price. *)
Theorem cart_price_rule (p : Product) (v : Variant) :
  effectivePrice p ≤ price p ∧
  (isOnSale p = true <-> effectivePrice p < price p) ∧
  (forall x : Number, variant_price v = Some x -> x ≠ 0 -> itemPrice v p = x) ∧
  (variant_price v = None ∨ variant_price v = Some 0 ->
   itemPrice v p = effectivePrice p <->
   ¬ exists s : Number, salePrice p = Some s ∧ s ≠ 0 ∧ price p < s).
Proof.
  unfold effectivePrice, isOnSale, itemPrice.
  split; [|split; [|split]].
  - destruct (salePrice p) as [s|]; [|apply Qcle_refl].
    destruct (negb _); simpl; [|apply Qcle_refl].
    case_bool_decide; [by apply Qclt_le_weak|apply Qcle_refl].
  - destruct (salePrice p) as [s|].
    + destruct (negb _); simpl.
      * case_bool_decide as Hlt; split; try done.
        intros Hirr. by apply Qclt_not_eq in Hirr.
      * split; [done|]. intros Hirr. by apply Qclt_not_eq in Hirr.
    + split; [done|]. intros Hirr. by apply Qclt_not_eq in Hirr.
  - intros x -> Hx. simpl. by rewrite bool_decide_eq_false_2.
  - intros Hnone.
    assert (or_number (variant_price v) (or_number (salePrice p) (price p))
            = or_number (salePrice p) (price p)) as ->.
    { destruct Hnone as [-> | ->]; [done|].
      unfold or_number at 1. by rewrite bool_decide_eq_true_2. }
    destruct (salePrice p) as [s|]; simpl.
    2:{ split; [|done]. intros _ (s & ? & _). done. }
    case_bool_decide as Hs0; simpl.
    { split; [|done]. intros _ (s' & [= <-] & Hne & _). done. }
    case_bool_decide as Hlt.
    + split; [|done]. intros _ (s' & [= <-] & _ & Hgt).
      by apply (Qclt_not_le _ _ Hgt), Qclt_le_weak.
    + apply Qcnot_lt_le in Hlt. split.
      * intros -> (s' & [= <-] & _ & Hgt). by apply Qclt_not_eq in Hgt.
      * intros Hno. apply Qcle_lt_or_eq in Hlt as [Hgt|Heq]; [|done].
        exfalso. apply Hno. by exists s.
Qed.

End CatalogFacts.

(** ** An order that is re-opened after its cancellation *)

Module ReopenedOrderFacts.
Import JS Http Spec Invariants OrderController OrderFacts ServerFacts
  OrderLifecycleFacts.

Lemma restore_stock_keeps_matches (pos : Mongo.Positional)
    (items : list Order.Item) (products : gmap ObjectId Product.t)
    (id : ObjectId) (s c : string) :
  line_matches products id s c ->
  line_matches (restore_stock pos items products) id s c.
Proof.
  unfold restore_stock. revert products.
  induction items as [|item rest IH]; intros products Hm; simpl; [done|].
  by apply IH, CheckoutFacts.updateOne_inc_keeps_matches.
Qed.

(** X29: cancellation restores the stock once per cancellation, not once
    per order.  Since [updateOrderStatus] accepts every status, an order
    that its owner cancelled can be set back to pending and then be
    cancelled again; the second cancellation succeeds and runs the restore
    loop again, so that the aggregate stock of every product ends up raised
    by twice the quantity the order holds of it. *)
Theorem reopened_order_restores_twice (drv : Mongo.Driver) (t1 t2 t3 : Date)
    (u id : ObjectId) (reason reason' note tn c : option string) (db : Db.t)
    (o : Order.t)
    (Hdb : orders_inv (Db.orders db)) (Ho : Db.orders db !! id = Some o)
    (Hu : Order.user o = u) (Hcan : Order.canCancel o = true)
    (Hm : Forall (fun item =>
                    line_matches (Db.products db) (Order.product item)
                      (Cart.size (Order.variant item))
                      (Cart.color (Order.variant item)))
                 (Order.items o)) :
  let db1 := snd (cancelOrder drv t1 u id reason db) in
  let db2 := snd (AdminController.updateOrderStatus t2 id Order.pending note tn c db1) in
  let r := cancelOrder drv t3 u id reason' db2 in
  is_failure (fst r) = false ∧
  forall pid : ObjectId,
    totalStock_of pid (Db.products (snd r))
    = (fun t => (t + 2 * cancelled_of pid (Order.items o))%Z)
        <$> totalStock_of pid (Db.products db).
Proof.
  intros db1 db2 r.
  assert (orders_inv (Db.orders db1)) as Hdb1
    by (apply (step_orders db); [exact Hdb|apply step_cancelOrder]).
  assert (orders_inv (Db.orders db2)) as Hdb2
    by (apply (step_orders db1); [exact Hdb1|apply step_updateOrderStatus]).
  assert (findOne id u (Db.orders db) = Some o) as Hfind
    by (by apply findOne_Some).
  destruct (LifecycleFacts.cancelOrder_succeeds drv t1 u id reason db o
              Hdb Hfind Hcan)
    as (o1 & Hrun1 & _ & _ & Hitems1 & _).
  assert (Db.orders db1 !! id = Some o1) as Ho1
    by (subst db1; rewrite Hrun1; simpl; apply lookup_insert_eq).
  destruct (step_stored db db1 id o Hdb
              (step_cancelOrder drv t1 u id reason db) Ho)
    as (o1' & Ho1' & Hsnap1 & _).
  assert (o1' = o1) as -> by congruence.
  destruct (OrderRequestFacts.updateOrderStatus_reopens t2 id note tn c db1 o1
              Hdb1 Ho1) as (o2 & Hrun2 & Hs2 & Hsnap2).
  assert (Db.orders db2 !! id = Some o2) as Ho2
    by (subst db2; rewrite Hrun2; simpl; apply lookup_insert_eq).
  assert (findOne id u (Db.orders db2) = Some o2) as Hfind2.
  { apply findOne_Some. split; [done|].
    destruct Hsnap2 as (_ & _ & -> & _). destruct Hsnap1 as (_ & _ & -> & _).
    exact Hu. }
  assert (Order.canCancel o2 = true) as Hcan2
    by (unfold Order.canCancel; rewrite Hs2; reflexivity).
  destruct (LifecycleFacts.cancelOrder_succeeds drv t3 u id reason' db2 o2
              Hdb2 Hfind2 Hcan2) as (o3 & Hrun3 & _).
  subst r. rewrite Hrun3; simpl. split; [done|]. intros pid.
  assert (Order.items o2 = Order.items o) as ->.
  { destruct Hsnap2 as (_ & _ & _ & -> & _). by destruct Hsnap1 as (_ & _ & _ & -> & _). }
  assert (Db.products db2
          = restore_stock (Mongo.positional drv) (Order.items o) (Db.products db))
    as ->.
  { subst db2. rewrite Hrun2; simpl. subst db1. by rewrite Hrun1. }
  rewrite LifecycleFacts.restore_stock_totalStock.
  - rewrite LifecycleFacts.restore_stock_totalStock by done.
    destruct (totalStock_of pid (Db.products db)); simpl; [|done].
    f_equal. lia.
  - eapply Forall_impl; [exact Hm|]. intros item.
    apply restore_stock_keeps_matches.
Qed.

Lemma reopened_order_restores_twice_witness :
  totalStock_of Seed.jeans_id (Db.products Seed.db_order) = Some 90%Z ∧
  totalStock_of Seed.jeans_id
    (Db.products
       (snd (cancelOrder (Seed.driver Mongo.FirstSizeMatch) Seed.tomorrow
               Seed.alice Seed.order1_id None
               (snd (AdminController.updateOrderStatus Seed.tomorrow
                       Seed.order1_id Order.pending None None None
                       (Seed.db_cancelled Mongo.FirstSizeMatch))))))
  = Some 94%Z.
Proof.
  split; [reflexivity|].
  assert (Forall (fun item =>
                    line_matches (Db.products Seed.db_order)
                      (Order.product item) (Cart.size (Order.variant item))
                      (Cart.color (Order.variant item)))
            (Order.items Seed.order1)) as Hm.
  { apply Forall_singleton. exists Seed.jeans.
    split; [reflexivity|]. split; compute_done. }
  destruct (reopened_order_restores_twice (Seed.driver Mongo.FirstSizeMatch)
              Seed.tomorrow Seed.tomorrow Seed.tomorrow Seed.alice Seed.order1_id
              (Some "Ordered by mistake") None None None None
              Seed.db_order Seed.order1 db_order_inv eq_refl eq_refl eq_refl Hm)
    as [_ Htotal].
  exact (Htotal Seed.jeans_id).
Defined.

End ReopenedOrderFacts.

(** ** Properties of the slug *)

Module SlugFacts.
Import Slug.

Ltac by_cases_on c :=
  destruct c as [[|] [|] [|] [|] [|] [|] [|] [|]]; vm_compute; try done.

Lemma alnum_not_dash (c : ascii) : is_alnum c = true -> is_dash c = false.
Proof. by_cases_on c. Qed.

Lemma slug_char_lower (c : ascii) : slug_char c = true -> lower_char c = c.
Proof. by_cases_on c. Qed.

Lemma slug_char_not_space (c : ascii) : slug_char c = true -> is_space c = false.
Proof. by_cases_on c. Qed.

Lemma lower_char_idem (c : ascii) : lower_char (lower_char c) = lower_char c.
Proof. by_cases_on c. Qed.

Lemma not_alnum_slug_dash (c : ascii) :
  is_alnum c = false -> slug_char c = true -> c = "-"%char.
Proof.
  unfold slug_char, is_dash. intros ->. simpl. apply bool_decide_eq_true.
Qed.

Lemma dash_runs_chars (b : bool) (s : string) :
  all_chars slug_char (dash_runs b s) = true.
Proof.
  revert b. induction s as [|c s IH]; intros b; simpl; [done|].
  destruct (is_alnum c) eqn:Hc; simpl.
  - unfold slug_char at 1. by rewrite Hc, IH.
  - destruct b; simpl; [done|]. by rewrite IH.
Qed.

Lemma dash_runs_no_double (b : bool) (s : string) :
  has_double_dash (dash_runs b s) = false ∧
  (b = true -> starts_with_dash (dash_runs b s) = false).
Proof.
  revert b. induction s as [|c s IH]; intros b; simpl; [done|].
  destruct (is_alnum c) eqn:Hc; simpl.
  - rewrite (alnum_not_dash c Hc). simpl. split; [apply IH|done].
  - destruct b; simpl.
    + apply IH.
    + destruct (IH true) as [-> ->]; done.
Qed.

Lemma strip_leading_props (s : string) :
  all_chars slug_char s = true -> has_double_dash s = false ->
  all_chars slug_char (strip_leading_dash s) = true ∧
  has_double_dash (strip_leading_dash s) = false ∧
  starts_with_dash (strip_leading_dash s) = false.
Proof.
  destruct s as [|c s]; simpl; [done|].
  intros [Hc Hs]%andb_prop Hdd. apply orb_false_elim in Hdd as [Hcd Hdd].
  destruct (is_dash c) eqn:Hdash; simpl in *.
  - done.
  - by rewrite Hc, Hs, Hdash, Hdd.
Qed.

Lemma strip_trailing_start (s : string) :
  starts_with_dash s = false -> starts_with_dash (strip_trailing_dash s) = false.
Proof.
  destruct s as [|c [|c' s']]; simpl; [done| |done].
  intros Hc. rewrite Hc. simpl. exact Hc.
Qed.

Lemma strip_trailing_empty (s : string) :
  strip_trailing_dash s = EmptyString -> s = EmptyString ∨ s = "-"%string.
Proof.
  destruct s as [|c [|c' s']]; simpl; [by left| |done].
  destruct (is_dash c) eqn:Hc; [|done].
  apply bool_decide_eq_true in Hc as ->. by right.
Qed.

Lemma strip_trailing_props (s : string) :
  all_chars slug_char s = true -> has_double_dash s = false ->
  all_chars slug_char (strip_trailing_dash s) = true ∧
  has_double_dash (strip_trailing_dash s) = false ∧
  ends_with_dash (strip_trailing_dash s) = false.
Proof.
  induction s as [|c s IH]; [done|].
  intros [Hc Hs]%andb_prop Hdd.
  simpl in Hdd. apply orb_false_elim in Hdd as [Hcd Hdd].
  destruct s as [|c' s'].
  { simpl. destruct (is_dash c) eqn:Hdash; simpl; [done|]. by rewrite Hc, Hdash. }
  destruct (IH Hs Hdd) as (Hall & Hnd & Hend).
  change (strip_trailing_dash (String c (String c' s')))
    with (String c (strip_trailing_dash (String c' s'))).
  pose proof (strip_trailing_start (String c' s')) as Hstart.
  pose proof (strip_trailing_empty (String c' s')) as Hempty.
  set (t := strip_trailing_dash (String c' s')) in *.
  destruct (is_dash c) eqn:Hdash.
  - simpl in Hcd. specialize (Hstart Hcd).
    simpl. rewrite Hc, Hall, Hstart, Hnd, Hdash. simpl.
    split; [done|]. split; [done|].
    destruct t; [|done].
    destruct (Hempty eq_refl) as [?|Heq]; [done|].
    injection Heq as -> ->. simpl in Hcd. done.
  - simpl. rewrite Hc, Hall, Hnd, Hdash. simpl.
    split; [done|]. split; [done|]. destruct t; [done|done].
Qed.

Lemma slugify_shape (name : string) :
  all_chars slug_char (slugify name) = true ∧
  has_double_dash (slugify name) = false ∧
  starts_with_dash (slugify name) = false ∧
  ends_with_dash (slugify name) = false.
Proof.
  unfold slugify.
  set (d := dash_runs false (trim (toLowerCase name))).
  destruct (strip_leading_props d) as (H1 & H2 & H3).
  { apply dash_runs_chars. }
  { apply dash_runs_no_double. }
  destruct (strip_trailing_props _ H1 H2) as (H4 & H5 & H6).
  split; [done|]. split; [done|]. split; [|done].
  by apply strip_trailing_start.
Qed.

Lemma toLowerCase_fixed (s : string) :
  all_chars slug_char s = true -> toLowerCase s = s.
Proof.
  induction s as [|c s IH]; simpl; [done|].
  intros [Hc Hs]%andb_prop. by rewrite (slug_char_lower c Hc), IH.
Qed.

Lemma trimEnd_fixed (s : string) :
  all_chars slug_char s = true -> trimEnd s = s.
Proof.
  induction s as [|c s IH]; simpl; [done|].
  intros [Hc Hs]%andb_prop. rewrite IH by done.
  destruct s; [|done]. by rewrite (slug_char_not_space c Hc).
Qed.

Lemma trim_fixed (s : string) :
  all_chars slug_char s = true -> trim s = s.
Proof.
  intros Hs. unfold trim.
  assert (trimStart s = s) as ->.
  { destruct s as [|c s]; simpl; [done|].
    simpl in Hs. apply andb_prop in Hs as [Hc _].
    by rewrite (slug_char_not_space c Hc). }
  by apply trimEnd_fixed.
Qed.

Lemma dash_runs_fixed (b : bool) (s : string) :
  all_chars slug_char s = true -> has_double_dash s = false ->
  (b = true -> starts_with_dash s = false) ->
  dash_runs b s = s.
Proof.
  revert b. induction s as [|c s IH]; intros b; simpl; [done|].
  intros [Hc Hs]%andb_prop Hdd Hb. apply orb_false_elim in Hdd as [Hcd Hdd].
  destruct (is_alnum c) eqn:Halnum.
  - f_equal. by apply IH.
  - pose proof (not_alnum_slug_dash c Halnum Hc) as ->.
    destruct b; [by specialize (Hb eq_refl)|].
    f_equal. apply IH; [done|done|]. intros _. exact Hcd.
Qed.

Lemma strip_trailing_fixed (s : string) :
  ends_with_dash s = false -> strip_trailing_dash s = s.
Proof.
  induction s as [|c s IH]; [done|]. intros Hend.
  destruct s as [|c' s']; [simpl in *; by rewrite Hend|].
  change (strip_trailing_dash (String c (String c' s')))
    with (String c (strip_trailing_dash (String c' s'))).
  f_equal. by apply IH.
Qed.

Lemma slugify_fixed (s : string) :
  all_chars slug_char s = true -> has_double_dash s = false ->
  starts_with_dash s = false -> ends_with_dash s = false ->
  slugify s = s.
Proof.
  intros Hall Hdd Hstart Hend. unfold slugify.
  rewrite toLowerCase_fixed, trim_fixed, dash_runs_fixed by done.
  assert (strip_leading_dash s = s) as ->
    by (destruct s; [done|]; simpl in *; by rewrite Hstart).
  by apply strip_trailing_fixed.
Qed.

Lemma toLowerCase_idem (s : string) : toLowerCase (toLowerCase s) = toLowerCase s.
Proof. induction s as [|c s IH]; simpl; [done|]. by rewrite lower_char_idem, IH. Qed.

(** X30: the slug the product's pre-save hook derives from a name
    consists of the characters a-z, 0-9 and the dash, neither starts nor
    ends with a dash and has no two dashes in a row; deriving a slug from a
    slug gives the slug back; and names that differ only in the case of
    their letters get the same slug. *)
Theorem slugify_well_formed (name : string) :
  let s := slugify name in
  all_chars slug_char s = true ∧
  starts_with_dash s = false ∧ ends_with_dash s = false ∧
  has_double_dash s = false ∧
  slugify s = s ∧
  slugify (toLowerCase name) = s.
Proof.
  destruct (slugify_shape name) as (Hall & Hdd & Hstart & Hend).
  split; [done|]. split; [done|]. split; [done|]. split; [done|].
  split; [by apply slugify_fixed|].
  unfold slugify. by rewrite toLowerCase_idem.
Qed.

End SlugFacts.
